(** * ATS Buddy: orchestration, deduplication and multipart parsing

    A shallow embedding of the entry point and the request router, the
    multipart parser, the PII masking step, the analysis engine and the
    repair of its response, the deduplication service and its cache, the
    two analysis pipelines, the analysis endpoint of the web interface,
    the extraction handlers, the text extraction with its asynchronous
    poll and the report package of the ATS Buddy Lambda (src/handler.py,
    src/bedrock_client.py, src/deduplication_service.py,
    src/dynamodb_client.py, src/file_hash_utils.py, src/s3_handler.py,
    src/textract_client.py, src/report_generator.py,
    infra/pii-redaction-lambda/lambda_function.py), followed by the
    properties of the design specification proved about it. *)

From Stdlib Require Import ZArith NArith List String Ascii Lia QArith Bool.
From Stdlib.Strings Require Import Byte.
From stdpp Require Import base option list strings gmap.
Import ListNotations.

Local Open Scope N_scope.
Local Open Scope nat_scope.
Local Open Scope list_scope.

(** Python [bytes] are lists of [Byte.byte]; Python [str] values whose
    characters matter are lists of Unicode code points ([N]).  Dictionary
    keys, tags and fixed messages are Rocq [string]s. *)
Abbreviation bytes := (list byte).
Abbreviation pystr := (list N).

#[global] Instance byte_eq_decision : EqDecision byte := Byte.byte_eq_dec.

(** ** Python sequence builtins

    The operations of [bytes] and [str] used by the handler, written once
    for any element type with decidable equality. *)
Module Py.

Section Seq.
Context {A : Type} `{EqDecision A}.

(** [s.startswith(p)] *)
Fixpoint startswith (p s : list A) : bool :=
  match p, s with
  | [], _ => true
  | _ :: _, [] => false
  | x :: p', y :: s' => bool_decide (x = y) && startswith p' s'
  end.

(** [s.find(sub)]: index of the leftmost occurrence. *)
Fixpoint find (sub s : list A) {struct s} : option nat :=
  if startswith sub s then Some 0
  else match s with
       | [] => None
       | _ :: s' => S <$> find sub s'
       end.

(** [sub in s] *)
Definition contains (sub s : list A) : bool :=
  match find sub s with Some _ => true | None => false end.

(** [s.split(sep)] for a non-empty separator: leftmost, non-overlapping
    occurrences.  Every step consumes at least one element, so [length s]
    steps of fuel always suffice ([split_fuel_enough] below). *)
Fixpoint split_fuel (fuel : nat) (sep s : list A) : list (list A) :=
  match fuel with
  | O => [s]
  | S fuel' =>
      match find sep s with
      | None => [s]
      | Some i => take i s :: split_fuel fuel' sep (drop (i + length sep) s)
      end
  end.

Definition split (sep s : list A) : list (list A) :=
  split_fuel (length s) sep s.

(** [s.split(sep, 1)] when [sep in s]: the text before and after the first
    occurrence. *)
Definition split_once (sep s : list A) : option (list A * list A) :=
  match find sep s with
  | None => None
  | Some i => Some (take i s, drop (i + length sep) s)
  end.

(** [s.lstrip(...)], [s.rstrip(...)], [s.strip(...)] over the set of
    elements recognised by [p]. *)
Fixpoint lstrip (p : A -> bool) (s : list A) : list A :=
  match s with
  | [] => []
  | c :: s' => if p c then lstrip p s' else s
  end.

Fixpoint rstrip (p : A -> bool) (s : list A) : list A :=
  match s with
  | [] => []
  | c :: s' =>
      match rstrip p s' with
      | [] => if p c then [] else [c]
      | t => c :: t
      end
  end.

Definition strip (p : A -> bool) (s : list A) : list A :=
  lstrip p (rstrip p s).

(** Membership in the character set given to [strip(chars)]. *)
Definition one_of (chars : list A) (c : A) : bool :=
  bool_decide (c ∈ chars).

(** [s[i:j]] for [0 <= i], [0 <= j]. *)
Definition slice (i j : nat) (s : list A) : list A :=
  drop i (take j s).

(** [s[-1]] of a non-empty list (the default stands for [IndexError]). *)
Definition last_or (d : A) (s : list A) : A := List.last s d.

(** [agrees sub p]: [p] and [sub] coincide as far as both extend. *)
Fixpoint agrees (sub p : list A) : bool :=
  match sub, p with
  | x :: sub', y :: p' => bool_decide (x = y) && agrees sub' p'
  | _, _ => true
  end.

(** No suffix of [p] can be the beginning of an occurrence of [sub]. *)
Fixpoint clear_of (sub p : list A) : bool :=
  match p with
  | [] => true
  | _ :: p' => negb (agrees sub p) && clear_of sub p'
  end.

End Seq.

(** Code points of an ASCII literal. *)
Definition str (s : string) : pystr :=
  map (fun a => N_of_ascii a) (list_ascii_of_string s).

(** Bytes of an ASCII literal ([b"..."]). *)
Definition b (s : string) : bytes := list_byte_of_string s.

Definition CR : byte := x0d.
Definition LF : byte := x0a.
Definition CRLF : bytes := [CR; LF].
Definition dquote : N := 34%N.

(** [bytes.strip()] with no argument: ASCII whitespace. *)
Definition byte_space (c : byte) : bool :=
  let n := Byte.to_N c in
  ((9 <=? n) && (n <=? 13) || (n =? 32))%N.

(** [str.strip()] with no argument: the characters for which
    [str.isspace] holds. *)
Definition unicode_space (c : N) : bool :=
  ((9 <=? c) && (c <=? 13) || (28 <=? c) && (c <=? 32)
   || (c =? 133) || (c =? 160) || (c =? 5760)
   || (8192 <=? c) && (c <=? 8202)
   || (c =? 8232) || (c =? 8233) || (c =? 8239) || (c =? 8287)
   || (c =? 12288))%N.

(** *** UTF-8 *)

Definition byte_of_N (n : N) : byte :=
  match Byte.of_N n with Some x => x | None => x00 end.

Definition is_surrogate (c : N) : bool := ((55296 <=? c) && (c <=? 57343))%N.
Definition is_scalar (c : N) : bool := (c <? 1114112)%N && negb (is_surrogate c).

(** The UTF-8 encoding of one scalar value. *)
Definition utf8_encode_char (c : N) : bytes :=
  (if c <? 128 then [byte_of_N c]
   else if c <? 2048 then
     [byte_of_N (192 + c / 64); byte_of_N (128 + c mod 64)]
   else if c <? 65536 then
     [byte_of_N (224 + c / 4096); byte_of_N (128 + (c / 64) mod 64);
      byte_of_N (128 + c mod 64)]
   else
     [byte_of_N (240 + c / 262144); byte_of_N (128 + (c / 4096) mod 64);
      byte_of_N (128 + (c / 64) mod 64); byte_of_N (128 + c mod 64)])%N.

(** [s.encode('utf-8')]: [None] stands for [UnicodeEncodeError], raised
    on a surrogate (or on a value that is no code point). *)
Fixpoint utf8_encode (s : pystr) : option bytes :=
  match s with
  | [] => Some []
  | c :: s' =>
      if is_scalar c then
        match utf8_encode s' with
        | Some r => Some (utf8_encode_char c ++ r)
        | None => None
        end
      else None
  end.

Definition is_cont (c : N) : bool := ((128 <=? c) && (c <=? 191))%N.

(** [data.decode('utf-8', errors='ignore')].  CPython reports an invalid
    start byte as one bad byte, an invalid continuation after [k] good
    bytes as [k] bad bytes, and a sequence cut off by the end of the data
    as bad up to the end; [errors='ignore'] drops the bad bytes and
    resumes after them. *)
Fixpoint utf8_decode_ignore (l : bytes) : pystr :=
  match l with
  | [] => []
  | b1 :: t1 =>
    let c1 := Byte.to_N b1 in
    (if c1 <? 128 then c1 :: utf8_decode_ignore t1
     else if c1 <? 194 then utf8_decode_ignore t1
     else if c1 <? 224 then
       match t1 with
       | [] => []
       | b2 :: t2 =>
         let c2 := Byte.to_N b2 in
         if is_cont c2
         then ((c1 - 192) * 64 + (c2 - 128)) :: utf8_decode_ignore t2
         else utf8_decode_ignore t1
       end
     else if c1 <? 240 then
       match t1 with
       | [] => []
       | b2 :: t2 =>
         let c2 := Byte.to_N b2 in
         if negb (is_cont c2) || (c1 =? 224) && (c2 <? 160)
            || (c1 =? 237) && (160 <=? c2)
         then utf8_decode_ignore t1
         else
           match t2 with
           | [] => []
           | b3 :: t3 =>
             let c3 := Byte.to_N b3 in
             if is_cont c3
             then ((c1 - 224) * 4096 + (c2 - 128) * 64 + (c3 - 128))
                    :: utf8_decode_ignore t3
             else utf8_decode_ignore t2
           end
       end
     else if c1 <? 245 then
       match t1 with
       | [] => []
       | b2 :: t2 =>
         let c2 := Byte.to_N b2 in
         if negb (is_cont c2) || (c1 =? 240) && (c2 <? 144)
            || (c1 =? 244) && (144 <=? c2)
         then utf8_decode_ignore t1
         else
           match t2 with
           | [] => []
           | b3 :: t3 =>
             let c3 := Byte.to_N b3 in
             if negb (is_cont c3) then utf8_decode_ignore t2
             else
               match t3 with
               | [] => []
               | b4 :: t4 =>
                 let c4 := Byte.to_N b4 in
                 if is_cont c4
                 then ((c1 - 240) * 262144 + (c2 - 128) * 4096
                       + (c3 - 128) * 64 + (c4 - 128))
                        :: utf8_decode_ignore t4
                 else utf8_decode_ignore t3
               end
           end
       end
     else utf8_decode_ignore t1)%N
  end.

End Py.

(** ** MultipartParser: [parse_multipart_form_data] (src/handler.py) *)
Module Multipart.
Import Py.

(** The request body as API Gateway delivers it.  With
    [isBase64Encoded] false the body is text and the handler takes
    [body.encode('utf-8')]; with [isBase64Encoded] true the handler takes
    [base64.b64decode(body)], given here by its result ([None] when
    [b64decode] raises). *)
Inductive Body :=
| BodyText (text : pystr)
| BodyBase64 (decoded : option bytes).

(** The fields of the event the parser reads: [event.get("headers", {})]
    and [event.get("body")] (default: the empty string) with
    [event.get("isBase64Encoded", False)]. *)
Record ApiEvent := {
  headers : gmap string pystr;
  body : Body
}.

(** The returned dict: [{"success": False, "error": ...}] or
    [{"success": True, "pdf_content": ..., "job_description": ...,
    "original_filename": ...}]. *)
Inductive FormData :=
| FormError (error : string)
| FormOk (pdf_content : bytes) (job_description : pystr)
         (original_filename : pystr).

(** [headers.get("content-type")], or else [headers.get("Content-Type")]
    with the empty string as default. *)
Definition content_type_of (h : gmap string pystr) : pystr :=
  match h !! "content-type"%string with
  | Some (c :: s) => c :: s
  | _ => default [] (h !! "Content-Type"%string)
  end.

(** The loop over [content_type.split(";")] that extracts the boundary.
    [None] is Python's [None]. *)
Fixpoint find_boundary (parts : list pystr) : option pystr :=
  match parts with
  | [] => None
  | part :: rest =>
      let part := strip unicode_space part in
      if startswith (str "boundary=") part then
        match split_once (str "=") part with
        | Some (_, value) => Some (strip (one_of [dquote]) value)
        | None => None
        end
      else find_boundary rest
  end.

(** The [re.search] for the filename pattern (the word filename, an
    equals sign, a quote, one or more non-quote characters captured as
    group 1, a quote) in [headers_text]: group 1 of the leftmost match.  At a given position the greedy class takes the whole
    run of non-quote characters, and no shorter run can be followed by a
    quote. *)
Fixpoint until_quote (s : pystr) : pystr * pystr :=
  match s with
  | [] => ([], [])
  | c :: s' =>
      if (c =? dquote)%N then ([], s)
      else let (name, rest) := until_quote s' in (c :: name, rest)
  end.

Definition match_filename_at (s : pystr) : option pystr :=
  if startswith (str "filename=" ++ [dquote]) s then
    match until_quote (drop 10 s) with
    | (c :: name, _ :: _) => Some (c :: name)
    | _ => None
    end
  else None.

Fixpoint search_filename (s : pystr) {struct s} : option pystr :=
  match match_filename_at s with
  | Some name => Some name
  | None => match s with
            | [] => None
            | _ :: s' => search_filename s'
            end
  end.

Definition quoted_name (field : string) : pystr :=
  str "name=" ++ [dquote] ++ str field ++ [dquote].

(** The three variables the loop over the parts assigns. *)
Record Fields := {
  pdf_content : option bytes;
  job_description : option pystr;
  original_filename : pystr
}.

Definition initial_fields : Fields :=
  {| pdf_content := None; job_description := None;
     original_filename := str "unknown.pdf" |}.

(** The characters of [rstrip(b"\r\n--")]: CR, LF and the hyphen. *)
Definition trailer_chars : bytes := CRLF ++ b "--".

(** [headers_section, content = part.split(sep, 1)] for the first of the
    two blank-line separators found in the part. *)
Definition split_headers (part : bytes) : option (bytes * bytes) :=
  if contains (CRLF ++ CRLF) part then split_once (CRLF ++ CRLF) part
  else if contains [LF; LF] part then split_once [LF; LF] part
  else None.

(** One iteration of [for part in parts]. *)
Definition process_part (st : Fields) (part : bytes) : Fields :=
  let stripped := strip byte_space part in
  if bool_decide (stripped = []) || bool_decide (stripped = b "--") then st
  else
    match split_headers part with
    | None => st
    | Some (headers_section, content) =>
        let headers_text := utf8_decode_ignore headers_section in
        if contains (quoted_name "resume") headers_text
           || contains (quoted_name "pdf") headers_text
        then
          {| pdf_content := Some (rstrip (one_of trailer_chars) content);
             job_description := job_description st;
             original_filename :=
               match search_filename headers_text with
               | Some name => name
               | None => original_filename st
               end |}
        else if contains (quoted_name "jobDescription") headers_text
                || contains (quoted_name "job_description") headers_text
        then
          {| pdf_content := pdf_content st;
             job_description :=
               Some (strip unicode_space
                       (utf8_decode_ignore
                          (rstrip (one_of trailer_chars) content)));
             original_filename := original_filename st |}
        else st
    end.

(** The validation of the collected fields at the end of the function. *)
Definition validate_fields (st : Fields) : FormData :=
  match pdf_content st with
  | None | Some [] => FormError "PDF file is required"
  | Some pdf =>
      match job_description st with
      | None | Some [] => FormError "Job description is required"
      | Some jd =>
          if length (strip unicode_space jd) <? 50
          then FormError "Job description must be at least 50 characters"
          else FormOk pdf jd (original_filename st)
      end
  end.

(** [body = base64.b64decode(body)] or [body = body.encode('utf-8')];
    [None] when either raises. *)
Definition body_bytes (bd : Body) : option bytes :=
  match bd with
  | BodyText text => utf8_encode text
  | BodyBase64 decoded => decoded
  end.

(** The body of the [try] block; [None] is an exception reaching
    [except Exception]. *)
Definition parse_body (content_type : pystr) (bd : Body) : option FormData :=
  match body_bytes bd with
  | None => None
  | Some raw =>
      match find_boundary (split (str ";") content_type) with
      | None | Some [] =>
          Some (FormError "No boundary found in Content-Type header")
      | Some boundary =>
          match utf8_encode (str "--" ++ boundary) with
          | None => None
          | Some boundary_bytes =>
              let parts := split boundary_bytes raw in
              Some (validate_fields (fold_left process_part parts initial_fields))
          end
      end
  end.

Definition parse_multipart_form_data (event : ApiEvent) : FormData :=
  let content_type := content_type_of (headers event) in
  if negb (startswith (str "multipart/form-data") content_type)
  then FormError "Content-Type must be multipart/form-data"
  else
    match parse_body content_type (body event) with
    | Some result => result
    | None => FormError "Failed to parse form data"
    end.

End Multipart.

(** ** A synthetic, well-formed multipart request

    The request a browser form produces: a file part named [resume] with a
    filename and a content type, then a text part named [jobDescription],
    each introduced by the dash-boundary line and the body closed by the
    terminating boundary. *)
Module MultipartRequest.
Import Py.

Definition quote_b : byte := x22.

Definition file_part_headers (filename : bytes) : bytes :=
  b "Content-Disposition: form-data; name=" ++ [quote_b] ++ b "resume"
    ++ [quote_b] ++ b "; filename=" ++ [quote_b] ++ filename ++ [quote_b]
    ++ CRLF ++ b "Content-Type: application/pdf".

Definition text_part_headers : bytes :=
  b "Content-Disposition: form-data; name=" ++ [quote_b]
    ++ b "jobDescription" ++ [quote_b].

Definition text_part (boundary text : bytes) : bytes :=
  b "--" ++ boundary ++ CRLF ++ text_part_headers ++ CRLF ++ CRLF
    ++ text ++ CRLF.

Definition file_part (boundary filename file : bytes) : bytes :=
  b "--" ++ boundary ++ CRLF ++ file_part_headers filename ++ CRLF ++ CRLF
    ++ file ++ CRLF.

Definition closing (boundary : bytes) : bytes :=
  b "--" ++ boundary ++ b "--" ++ CRLF.

(** The body with both parts. *)
Definition multipart_body (boundary filename file text : bytes) : bytes :=
  file_part boundary filename file ++ text_part boundary text
    ++ closing boundary.

(** The body with the text part only. *)
Definition text_only_body (boundary text : bytes) : bytes :=
  text_part boundary text ++ closing boundary.

Definition boundary : string := "----WebKitFormBoundary7MA4YWxkTrZu0gW".
Definition filename : string := "resume.pdf".

Definition content_type_header : pystr :=
  str "multipart/form-data; boundary=" ++ str boundary.

(** The event carrying a file and a job description, sent base64-encoded
    as API Gateway does for binary uploads; [text] is the UTF-8 encoding of
    the job description. *)
Definition upload_event (file text : bytes) : Multipart.ApiEvent :=
  {| Multipart.headers := {[ "content-type"%string := content_type_header ]};
     Multipart.body :=
       Multipart.BodyBase64
         (Some (multipart_body (b boundary) (b filename) file text)) |}.

Definition text_only_event (text : bytes) : Multipart.ApiEvent :=
  {| Multipart.headers := {[ "content-type"%string := content_type_header ]};
     Multipart.body :=
       Multipart.BodyBase64 (Some (text_only_body (b boundary) text)) |}.

(** *** The requests of a form in general

    The same request for any boundary, any file name, either name of
    each field and either order of the two parts. *)

(** The names under which the parser accepts the file and the text. *)
Inductive FileField := field_resume | field_pdf.
Inductive TextField := field_jobDescription | field_job_description.

Definition file_field_name (field : FileField) : string :=
  match field with field_resume => "resume" | field_pdf => "pdf" end.

Definition text_field_name (field : TextField) : string :=
  match field with
  | field_jobDescription => "jobDescription"
  | field_job_description => "job_description"
  end.

(** The Content-Disposition header of a form field. *)
Definition disposition (field : string) : bytes :=
  b "Content-Disposition: form-data; name=" ++ [quote_b] ++ b field
    ++ [quote_b].

Definition file_headers (field : FileField) (filename : bytes) : bytes :=
  disposition (file_field_name field) ++ b "; filename=" ++ [quote_b]
    ++ filename ++ [quote_b] ++ CRLF ++ b "Content-Type: application/pdf".

Definition text_headers (field : TextField) : bytes :=
  disposition (text_field_name field).

(** What follows the delimiter line of a part: the end of that line, the
    header block, the blank line, the content and the end of its last
    line. *)
Definition part (headers content : bytes) : bytes :=
  CRLF ++ headers ++ CRLF ++ CRLF ++ content ++ CRLF.

(** The body: each part after a delimiter line, then the closing
    delimiter line. *)
Definition body_of (delimiter : bytes) (parts : list bytes) : bytes :=
  flat_map (fun p => delimiter ++ p) parts ++ delimiter ++ b "--" ++ CRLF.

(** The Content-Type header that declares the boundary. *)
Definition content_type_for (boundary : pystr) : pystr :=
  str "multipart/form-data; boundary=" ++ boundary.

End MultipartRequest.

(** ** JSON values

    The values [json.loads] produces and Lambda events carry.  A float is
    the rational it denotes, an infinity or NaN. *)
Inductive pyfloat :=
| FNaN
| FInf (negative : bool)
| FFin (q : Q).

#[warnings="-register-all"]
Inductive JSON :=
| JNull
| JBool (v : bool)
| JInt (z : Z)
| JFloat (f : pyfloat)
| JStr (s : pystr)
| JList (l : list JSON)
| JDict (d : gmap string JSON).

(** Python truthiness ([if v:], [v and ...]). *)
Definition truthy (v : JSON) : bool :=
  match v with
  | JNull => false
  | JBool v => v
  | JInt z => negb (z =? 0)%Z
  | JFloat FNaN => true
  | JFloat (FInf _) => true
  | JFloat (FFin q) => negb (Qeq_bool q 0)
  | JStr s => negb (bool_decide (s = []))
  | JList l => match l with [] => false | _ => true end
  | JDict d => negb (bool_decide (d = ∅))
  end.

(** ** PIIScrubber: [apply_pii_redaction_to_text] (src/handler.py) and
    [redact_pii_from_text] (infra/pii-redaction-lambda) *)
Module Pii.
Import Py.

(** One element of the [Entities] list of
    [comprehend.detect_pii_entities]. *)
Record Entity := {
  Score : Q;
  BeginOffset : Z;
  EndOffset : Z;
  Type_ : string
}.

(** The dict the handler's function returns. *)
Record Redaction := {
  success : bool;
  text : pystr;
  redacted : bool
}.

(** The literal [0.7] is the binary64 number
    3152519739159347 / 2^52; [0.5] is exact. *)
Definition text_threshold : Q := 3152519739159347 # 4503599627370496.
Definition document_threshold : Q := 1 # 2.

(** Python slice bounds: a negative bound counts from the end, and both
    are clamped to the sequence. *)
Definition slice_bound (i : Z) (len : nat) : nat :=
  if (i <? 0)%Z then Z.to_nat (Z.max 0 (Z.of_nat len + i))
  else Nat.min (Z.to_nat i) len.

(** [s[:i]] and [s[i:]] *)
Definition upto (i : Z) (s : pystr) : pystr := take (slice_bound i (length s)) s.
Definition from (i : Z) (s : pystr) : pystr := drop (slice_bound i (length s)) s.

Definition star : N := 42%N.

(** ['*' * min(pii_length, 8)] *)
Definition mask (pii_length : Z) : pystr :=
  replicate (Z.to_nat (Z.min pii_length 8)) star.

(** [entities.sort(key=lambda x: x['BeginOffset'], reverse=True)]: a
    stable sort, larger offsets first. *)
Fixpoint insert_desc (e : Entity) (l : list Entity) : list Entity :=
  match l with
  | [] => [e]
  | y :: l' =>
      if (BeginOffset e <? BeginOffset y)%Z then y :: insert_desc e l'
      else e :: l
  end.

Definition sort_desc (l : list Entity) : list Entity :=
  foldr insert_desc [] l.

(** The body of [for entity in entities], threading [redacted_text] and
    [redaction_count]. *)
Definition redact_entity (threshold : Q) (st : pystr * nat) (e : Entity)
  : pystr * nat :=
  let (redacted_text, redaction_count) := st in
  if Qle_bool threshold (Score e) then
    let pii_length := (EndOffset e - BeginOffset e)%Z in
    (upto (BeginOffset e) redacted_text ++ mask pii_length
       ++ from (EndOffset e) redacted_text,
     S redaction_count)
  else st.

Definition redact_all (threshold : Q) (entities : list Entity) (t : pystr)
  : pystr * nat :=
  fold_left (redact_entity threshold) (sort_desc entities) (t, 0).

Section Comprehend.

(** [comprehend.detect_pii_entities(Text=..., LanguageCode='en')], then
    [response.get('Entities', [])]; [None] when the call raises. *)
Variable detect_pii_entities : pystr -> option (list Entity).

Definition unchanged (t : pystr) : Redaction :=
  {| success := true; text := t; redacted := false |}.

Definition apply_pii_redaction_to_text (t : pystr) : Redaction :=
  if bool_decide (t = []) || (length (strip unicode_space t) <? 10)
  then unchanged t
  else
    match detect_pii_entities (take 5000 t) with
    | None => unchanged t
    | Some [] => unchanged t
    | Some entities =>
        let (redacted_text, redaction_count) :=
          redact_all text_threshold entities t in
        if 0 <? redaction_count
        then {| success := true; text := redacted_text; redacted := true |}
        else unchanged t
    end.

(** The S3 Object Lambda's variant: the whole text is submitted and the
    lower threshold applies. *)
Definition redact_pii_from_text (t : pystr) : pystr :=
  match detect_pii_entities t with
  | None => t
  | Some [] => t
  | Some entities => fst (redact_all document_threshold entities t)
  end.

End Comprehend.
End Pii.

(** ** AnalysisEngine: [BedrockClient._parse_analysis_response]
    (src/bedrock_client.py) *)
Module Bedrock.
Import Py.

(** What [json.loads] does with the extracted text.  The text handed to
    it starts with an opening brace, so a value it returns is an object. *)
Inductive Loads :=
| Loaded (d : gmap string JSON)
| JSONDecodeError
| LoadsRaised.

(** [{"success": False, "error": ...}] or [{"success": True, "data": ...}] *)
Inductive Parsed :=
| ParseError (error : string)
| ParseOk (data : gmap string JSON).

(** What [float(x)] does. *)
Inductive Converted :=
| Float (f : pyfloat)
| ValueOrTypeError
| OverflowError.

Definition default_suggestions : list JSON :=
  [ JStr (str "Review job description keywords and incorporate relevant ones into your resume");
    JStr (str "Quantify your achievements with specific metrics and numbers");
    JStr (str "Tailor your skills section to match the job requirements") ].

Definition required_fields : list string :=
  [ "missing_keywords"; "missing_skills"; "suggestions";
    "compatibility_score" ]%string.

(** [score < 100] and [m > 0] on floats: false on NaN. *)
Definition float_lt_100 (f : pyfloat) : bool :=
  match f with
  | FNaN => false
  | FInf negative => negative
  | FFin q => negb (Qle_bool 100 q)
  end.

Definition float_gt_0 (f : pyfloat) : bool :=
  match f with
  | FNaN => false
  | FInf negative => negb negative
  | FFin q => negb (Qle_bool q 0)
  end.

(** [max(0, min(100, score))]: [min] and [max] keep their first argument
    unless the second is strictly smaller (larger). *)
Definition clamp_score (score : pyfloat) : JSON :=
  if float_lt_100 score
  then (if float_gt_0 score then JFloat score else JInt 0)
  else JInt 100.

(** [rfind]: index of the last occurrence of a character. *)
Definition rfind_char (c : N) (s : pystr) : option nat :=
  match find [c] (rev s) with
  | None => None
  | Some i => Some (length s - 1 - i)
  end.

Section Runtime.

Variable json_loads : pystr -> Loads.
(** [float] of an integer ([None]: too large for a float) and of a string
    ([None]: not a number). *)
Variable float_of_int : Z -> option pyfloat.
Variable float_of_str : pystr -> option pyfloat.

Definition to_float (v : JSON) : Converted :=
  match v with
  | JInt z => match float_of_int z with
              | Some f => Float f
              | None => OverflowError
              end
  | JFloat f => Float f
  | JBool v => Float (FFin (if v then 1 else 0))
  | JStr s => match float_of_str s with
              | Some f => Float f
              | None => ValueOrTypeError
              end
  | JNull | JList _ | JDict _ => ValueOrTypeError
  end.

(** The first required field missing from the object. *)
Definition missing_field (d : gmap string JSON) : option string :=
  List.find (fun field => bool_decide (d !! field = None)) required_fields.

Definition ensure_list (field : string) (d : gmap string JSON)
  : gmap string JSON :=
  match d !! field with
  | Some (JList _) => d
  | _ => <[field := JList []]> d
  end.

Definition ensure_skills (d : gmap string JSON) : gmap string JSON :=
  match d !! "missing_skills"%string with
  | Some (JDict _) => d
  | _ => <["missing_skills"%string :=
            JDict {[ "technical"%string := JList [];
                     "soft"%string := JList [] ]}]> d
  end.

(** Padding of a short suggestions list: extend by the three defaults,
    keep the first three. *)
Definition pad_suggestions (d : gmap string JSON) : gmap string JSON :=
  match d !! "suggestions"%string with
  | Some (JList l) =>
      if length l <? 3
      then <["suggestions"%string := JList (take 3 (l ++ default_suggestions))]> d
      else d
  | _ => d
  end.

Definition set_default (field : string) (d : gmap string JSON)
  : gmap string JSON :=
  match d !! field with
  | Some _ => d
  | None => <[field := JList []]> d
  end.

(** The validation and repair of the loaded object. *)
Definition repair (d : gmap string JSON) : Parsed :=
  match missing_field d with
  | Some field =>
      ParseError ("Missing required field in analysis: " +:+ field)
  | None =>
      let d := ensure_list "missing_keywords" d in
      let d := ensure_skills d in
      let d := ensure_list "suggestions" d in
      let d := pad_suggestions d in
      match to_float (default JNull (d !! "compatibility_score"%string)) with
      | OverflowError => ParseError "Failed to parse AI analysis response"
      | converted =>
          let d :=
            match converted with
            | Float score =>
                <["compatibility_score"%string := clamp_score score]> d
            | _ => <["compatibility_score"%string := JInt 50]> d
            end in
          let d := set_default "strengths" d in
          let d := set_default "areas_for_improvement" d in
          ParseOk d
      end
  end.

Definition _parse_analysis_response (response_text : pystr) : Parsed :=
  let response_text := strip unicode_space response_text in
  match find (str "{") response_text, rfind_char 125%N response_text with
  | Some start_idx, Some last =>
      let json_text := slice start_idx (last + 1) response_text in
      match json_loads json_text with
      | Loaded d => repair d
      | JSONDecodeError => ParseError "Invalid JSON format in AI response"
      | LoadsRaised => ParseError "Failed to parse AI analysis response"
      end
  | _, _ => ParseError "No valid JSON found in AI response"
  end.

End Runtime.
End Bedrock.

(** ** RequestRouter: [validate_input] (src/handler.py) *)
Module Router.
Import Py.

Inductive EventType :=
| complete_pipeline
| s3_upload
| direct_extraction
| analysis_only.

(** [{"valid": True, "event_type": ...}] or [{"valid": False, "error": ...}] *)
Inductive Validation :=
| Valid (event_type : EventType)
| Invalid (error : string).

Definition has (key : string) (event : gmap string JSON) : bool :=
  bool_decide (is_Some (event !! key)).

(** [not event.get(key, '').strip()]: [None] when the value has no
    [strip] method, which raises [AttributeError]. *)
Definition blank (key : string) (event : gmap string JSON) : option bool :=
  match default (JStr []) (event !! key) with
  | JStr s => Some (bool_decide (strip unicode_space s = []))
  | _ => None
  end.

Definition invalid_format : string :=
  "Invalid event format. Expected: complete pipeline (bucket_name + s3_key + job_description), S3 upload event, direct extraction (bucket_name + s3_key), or analysis only (resume_text + job_description)".

(** The body of the [try] block; [None] is an exception. *)
Definition classify (event : gmap string JSON) : option Validation :=
  if has "bucket_name" event && has "s3_key" event
     && has "job_description" event
  then
    match blank "job_description" event with
    | None => None
    | Some true => Some (Invalid "Job description cannot be empty")
    | Some false => Some (Valid complete_pipeline)
    end
  else if has "Records" event
          && truthy (default JNull (event !! "Records"%string))
  then Some (Valid s3_upload)
  else if has "bucket_name" event && has "s3_key" event
  then Some (Valid direct_extraction)
  else if has "resume_text" event && has "job_description" event
  then
    match blank "resume_text" event with
    | None => None
    | Some true => Some (Invalid "Resume text cannot be empty")
    | Some false =>
        match blank "job_description" event with
        | None => None
        | Some true => Some (Invalid "Job description cannot be empty")
        | Some false => Some (Valid analysis_only)
        end
    end
  else Some (Invalid invalid_format).

Definition validate_input (event : gmap string JSON) : Validation :=
  match classify event with
  | Some result => result
  | None => Invalid "Invalid event structure"
  end.

End Router.

(** ** ContentHasher and DeduplicationCache: src/file_hash_utils.py,
    src/dynamodb_client.py, src/deduplication_service.py *)
Module Dedup.

(** An item of the resume cache table. *)
Record CacheItem := {
  item_file_hash : string;
  extracted_text : pystr;
  original_filename : string;
  ttl : Z
}.

(** The services behind the deduplication layer during one invocation:
    the object store, the digest, the clock, and whether the table's
    [get_item] and [put_item] raise. *)
Record Services := {
  (** [s3_client.get_object(Bucket, Key)['Body'].read()]; [None]: raises *)
  get_object : string -> string -> option bytes;
  (** [hashlib.sha256(content).hexdigest()] *)
  sha256_hexdigest : bytes -> string;
  (** [int(time.time())] *)
  now : Z;
  get_item_raises : bool;
  put_item_raises : bool
}.

(** [calculate_file_hash]: [None] is the [ValueError] on empty content. *)
Definition calculate_file_hash (sv : Services) (file_content : bytes)
  : option string :=
  match file_content with
  | [] => None
  | _ => Some (sha256_hexdigest sv file_content)
  end.

(** [calculate_s3_file_hash]: every exception becomes [None]. *)
Definition calculate_s3_file_hash (sv : Services) (bucket_name s3_key : string)
  : option string :=
  match get_object sv bucket_name s3_key with
  | None => None
  | Some file_content => calculate_file_hash sv file_content
  end.

(** [DynamoDBClient.put_resume_cache]: the flag returned and the table
    afterwards. *)
Definition put_resume_cache (sv : Services) (table : gmap string CacheItem)
    (file_hash : string) (text : pystr) (filename : string) (ttl_hours : Z)
  : bool * gmap string CacheItem :=
  if put_item_raises sv then (false, table)
  else
    let item := {| item_file_hash := file_hash; extracted_text := text;
                   original_filename := filename;
                   ttl := now sv + ttl_hours * 60 * 60 |} in
    (true, <[file_hash := item]> table).

(** [DynamoDBClient.get_resume_cache] *)
Definition get_resume_cache (sv : Services) (table : gmap string CacheItem)
    (file_hash : string) : option CacheItem :=
  if get_item_raises sv then None else table !! file_hash.

(** The dict [check_file_deduplication] returns. *)
Record Check := {
  is_duplicate : bool;
  file_hash : option string;
  cached_data : option CacheItem;
  message : string;
  error : option string
}.

(** The optional file name only feeds the local [filename], which is
    never read.  The helpers absorb their own exceptions, so the function's
    outer handler is not reached. *)
Definition check_file_deduplication (sv : Services)
    (table : gmap string CacheItem) (bucket_name s3_key : string)
    (filename : option string) : Check :=
  match calculate_s3_file_hash sv bucket_name s3_key with
  | None | Some EmptyString =>
      {| is_duplicate := false; file_hash := None; cached_data := None;
         message := "Failed to calculate file hash";
         error := Some "Hash calculation failed"%string |}
  | Some h =>
      match get_resume_cache sv table h with
      | Some cached =>
          {| is_duplicate := true; file_hash := Some h;
             cached_data := Some cached;
             message := "Resume already processed - using existing data from "
                          +:+ original_filename cached;
             error := None |}
      | None =>
          {| is_duplicate := false; file_hash := Some h; cached_data := None;
             message := "File is unique - proceeding with processing";
             error := None |}
      end
  end.

(** [store_processed_file]: the default [ttl_hours=12] applies. *)
Definition store_processed_file (sv : Services) (table : gmap string CacheItem)
    (file_hash : string) (text : pystr) (filename : string)
  : bool * gmap string CacheItem :=
  put_resume_cache sv table file_hash text filename 12.

End Dedup.

(** ** Orchestrator: [handle_complete_pipeline] and
    [handle_complete_analysis] (src/handler.py) *)
Module Pipeline.
Import Py.

(** What the collaborator objects passed to the handlers return. *)
Inductive Extraction :=
| ExtractOk (text : pystr)
| ExtractFailed (error : string).

Inductive Analysis :=
| AnalysisOk (analysis : gmap string JSON)
| AnalysisFailed (error : string).

Record Link := {
  s3_key_of : string;
  download_url : string;
  expires_at : string
}.

Record Package := {
  report_id : string;
  timestamp : string;
  package_metadata : JSON;
  markdown : Link;
  html : Link
}.

Inductive Report :=
| ReportOk (package : Package)
| ReportFailed (error : string)
| ReportRaised (what : string).

Record Collaborators := {
  (** [textract_client.extract_text_from_s3_pdf(bucket_name, s3_key)] *)
  extract_text_from_s3_pdf : string -> string -> Extraction;
  (** the Comprehend call inside [apply_pii_redaction_to_text] *)
  detect_pii_entities : pystr -> option (list Pii.Entity);
  (** [bedrock_client.analyze_resume_vs_job_description(text, job_description)] *)
  analyze_resume_vs_job_description : pystr -> pystr -> Analysis;
  (** [report_generator.create_complete_report_package(analysis_data,
      bucket, filename, job_title)] *)
  create_complete_report_package :
    gmap string JSON -> string -> string -> string -> Report;
  (** [os.environ.get("REPORTS_BUCKET")] *)
  REPORTS_BUCKET : option string
}.

(** The fields of the event the two handlers read; [None] is an absent
    key. *)
Record Event := {
  bucket_name : option string;
  s3_key : option string;
  job_description : option pystr;
  resume_text : option pystr;
  reports_bucket : option string;
  resume_filename : option string;
  job_title : option string
}.

Record Summary := {
  compatibility_score : JSON;
  missing_keywords_count : nat;
  suggestions_count : nat;
  strengths_count : nat
}.

(** The [reports] entry of a success body: the stored package, or the
    note that stands in for it. *)
Inductive Reports :=
| Stored (package : Package)
| NotStored (local_report_id : string) (local_timestamp : string)
            (note : string) (error : option string).

Inductive Metadata :=
| PackageMetadata (m : JSON)
| LocalMetadata (execution_mode : string) (s3_available : bool).

Record PipelineData := {
  pipeline_status : string;
  step_deduplication_check : string;
  step_text_extraction : string;
  step_ai_analysis : string;
  step_report_generation : string;
  deduplication_status : string;
  deduplication_message : string;
  deduplication_file_hash : string;
  resume_file : string;
  input_resume_filename : string;
  input_job_title : string;
  extracted_text_length : nat;
  job_description_length : nat;
  pipeline_summary : Summary;
  pipeline_reports : Reports;
  pipeline_metadata : Metadata
}.

Record AnalysisData := {
  processing_type : string;
  analysis_summary : Summary;
  reports : Reports;
  metadata : Metadata
}.

(** The JSON body of a response before [json.dumps]. *)
Inductive Body :=
| Failure (error : string)
| PipelineSuccess (data : PipelineData)
| AnalysisSuccess (data : AnalysisData).

Record Response := {
  statusCode : Z;
  body : Body
}.

Definition success (r : Response) : bool :=
  match body r with Failure _ => false | _ => true end.

Definition create_error_response (status_code : Z) (error_message : string)
  : Response :=
  {| statusCode := status_code; body := Failure error_message |}.

Definition create_success_response (data : Body) : Response :=
  {| statusCode := 200; body := data |}.

(** Exceptions inside a handler. *)
Inductive exn :=
| KeyError (key : string)
| Exception.

Definition M (A : Type) : Type := exn + A.
Definition ret {A} (a : A) : M A := inr a.
Definition raise {A} (e : exn) : M A := inl e.
Definition bind {A B} (m : M A) (k : A -> M B) : M B :=
  match m with inl e => inl e | inr a => k a end.

Notation "'let*' x ':=' m 'in' k" := (bind m (fun x => k))
  (at level 10, x name, m at level 100, k at level 200).

(** [d[key]] *)
Definition item {A} (key : string) (v : option A) : M A :=
  match v with Some a => ret a | None => raise (KeyError key) end.

(** [len(v)]; [TypeError] on a value without a length. *)
Definition py_len (v : JSON) : M nat :=
  match v with
  | JStr s => ret (length s)
  | JList l => ret (length l)
  | JDict d => ret (size d)
  | _ => raise Exception
  end.

Definition summarize (analysis_data : gmap string JSON) : M Summary :=
  let* score := item "compatibility_score"
                     (analysis_data !! "compatibility_score"%string) in
  let* k := py_len (default (JList []) (analysis_data !! "missing_keywords"%string)) in
  let* s := py_len (default (JList []) (analysis_data !! "suggestions"%string)) in
  let* t := py_len (default (JList []) (analysis_data !! "strengths"%string)) in
  ret {| compatibility_score := score; missing_keywords_count := k;
         suggestions_count := s; strengths_count := t |}.

(** [s3_key.split("/")[-1]] *)
Definition basename (s3_key : string) : string :=
  string_of_list_ascii
    (List.last (split ["/"%char] (list_ascii_of_string s3_key)) []).

(** [h[:8] + "..." if h else "unknown"] *)
Definition short_hash (h : option string) : string :=
  match h with
  | None | Some EmptyString => "unknown"
  | Some h => substring 0 8 h +:+ "..."
  end.

(** The body of [handle_complete_pipeline]'s [try] block, with the cache
    table threaded through. *)
Definition complete_pipeline_steps (c : Collaborators) (sv : Dedup.Services)
    (table : gmap string Dedup.CacheItem) (event : Event)
  : M Response * gmap string Dedup.CacheItem :=
  match bucket_name event, s3_key event, job_description event with
  | None, _, _ => (raise (KeyError "bucket_name"), table)
  | Some _, None, _ => (raise (KeyError "s3_key"), table)
  | Some _, Some _, None => (raise (KeyError "job_description"), table)
  | Some bucket, Some key, Some jd =>
    let reports_bucket :=
      default (default bucket (REPORTS_BUCKET c)) (reports_bucket event) in
    let resume_filename := default (basename key) (resume_filename event) in
    let job_title := default "Position"%string (job_title event) in
    (* Step 1: deduplication check *)
    let dedup_result :=
      Dedup.check_file_deduplication sv table bucket key (Some resume_filename) in
    let extracted :=
      if Dedup.is_duplicate dedup_result then
        match Dedup.cached_data dedup_result with
        | Some cached =>
            inr (Dedup.extracted_text cached, "deduplicated"%string, table)
        | None => inl (raise Exception, table)
        end
      else
        (* Step 2: extraction, PII redaction, cache store *)
        match extract_text_from_s3_pdf c bucket key with
        | ExtractFailed error =>
            inl (ret (create_error_response 422
                        ("Text extraction failed: " +:+ error)), table)
        | ExtractOk text =>
            let pii_result :=
              Pii.apply_pii_redaction_to_text (detect_pii_entities c) text in
            let text :=
              if Pii.success pii_result then Pii.text pii_result else text in
            let table :=
              match Dedup.file_hash dedup_result with
              | None | Some EmptyString => table
              | Some h =>
                  snd (Dedup.store_processed_file sv table h text resume_filename)
              end in
            inr (text, "processed"%string, table)
        end in
    match extracted with
    | inl early => early
    | inr (extracted_text, processing_status, table) =>
      (* Step 3: analysis *)
      match analyze_resume_vs_job_description c extracted_text jd with
      | AnalysisFailed error =>
          (ret (create_error_response 422 ("AI analysis failed: " +:+ error)),
           table)
      | AnalysisOk analysis_data =>
        match analysis_data !! "compatibility_score"%string with
        | None => (raise (KeyError "compatibility_score"), table)
        | Some _ =>
          (* Step 4: reports *)
          match create_complete_report_package c analysis_data reports_bucket
                  resume_filename job_title with
          | ReportRaised _ => (raise Exception, table)
          | ReportFailed error =>
              (ret (create_error_response 500
                      ("Report generation failed: " +:+ error)), table)
          | ReportOk package =>
              (* Step 5: the response *)
              (let* summary := summarize analysis_data in
               ret (create_success_response (PipelineSuccess
                 {| pipeline_status := "completed";
                    step_deduplication_check := "success";
                    step_text_extraction := processing_status;
                    step_ai_analysis := "success";
                    step_report_generation := "success";
                    deduplication_status := processing_status;
                    deduplication_message := Dedup.message dedup_result;
                    deduplication_file_hash :=
                      short_hash (Dedup.file_hash dedup_result);
                    resume_file := "s3://" +:+ bucket +:+ "/" +:+ key;
                    input_resume_filename := resume_filename;
                    input_job_title := job_title;
                    extracted_text_length := length extracted_text;
                    job_description_length := length jd;
                    pipeline_summary := summary;
                    pipeline_reports := Stored package;
                    pipeline_metadata :=
                      PackageMetadata (package_metadata package) |})),
               table)
          end
        end
      end
    end
  end.

(** [str(e)] of a [KeyError] quotes the key. *)
Definition missing_parameter (key : string) : string :=
  "Missing required parameter: '" +:+ key +:+ "'".

Definition handle_complete_pipeline (c : Collaborators) (sv : Dedup.Services)
    (table : gmap string Dedup.CacheItem) (event : Event)
  : Response * gmap string Dedup.CacheItem :=
  match complete_pipeline_steps c sv table event with
  | (inr response, table) => (response, table)
  | (inl (KeyError key), table) =>
      (create_error_response 400 (missing_parameter key), table)
  | (inl Exception, table) =>
      (create_error_response 500 "Failed to complete processing pipeline", table)
  end.

(** The success body of the analysis-only path without stored reports. *)
Definition local_response (summary : Summary) (resume_filename job_title : string)
    (note : string) (error : option string) (mode : string) : Response :=
  create_success_response (AnalysisSuccess
    {| processing_type := "analysis_only";
       analysis_summary := summary;
       reports := NotStored ("local-" +:+ resume_filename +:+ "-" +:+ job_title)
                            "local-execution" note error;
       metadata := LocalMetadata mode false |}).

Definition not_saved : string :=
  "Analysis completed successfully but reports were not saved to S3".

(** The body of [handle_complete_analysis]'s [try] block. *)
Definition complete_analysis_steps (c : Collaborators) (event : Event)
  : M Response :=
  let* resume_text := item "resume_text" (resume_text event) in
  let* jd := item "job_description" (job_description event) in
  let reports_bucket :=
    default (default "ats-buddy-reports"%string (REPORTS_BUCKET c))
            (reports_bucket event) in
  let resume_filename := default "resume.txt"%string (resume_filename event) in
  let job_title := default "Position"%string (job_title event) in
  match analyze_resume_vs_job_description c resume_text jd with
  | AnalysisFailed error =>
      ret (create_error_response 422 ("AI analysis failed: " +:+ error))
  | AnalysisOk analysis_data =>
    let* _ := item "compatibility_score"
                   (analysis_data !! "compatibility_score"%string) in
    let should_generate_reports :=
      negb (bool_decide (reports_bucket = EmptyString))
      && negb (bool_decide (reports_bucket = "ats-buddy-reports"%string))
      && negb (String.prefix "local-" reports_bucket) in
    (* every branch below builds the same analysis summary; when that
       raises inside the inner [try], the inner handler raises again *)
    let* summary := summarize analysis_data in
    if should_generate_reports then
      match create_complete_report_package c analysis_data reports_bucket
              resume_filename job_title with
      | ReportOk package =>
          ret (create_success_response (AnalysisSuccess
            {| processing_type := "analysis_only";
               analysis_summary := summary;
               reports := Stored package;
               metadata := PackageMetadata (package_metadata package) |}))
      | ReportFailed error =>
          ret (local_response summary resume_filename job_title not_saved
                 (Some error) "local_fallback")
      | ReportRaised what =>
          ret (local_response summary resume_filename job_title not_saved
                 (Some what) "local_fallback")
      end
    else
      ret (local_response summary resume_filename job_title
             "Analysis completed successfully (local mode - no S3 storage)"
             None "local")
  end.

Definition handle_complete_analysis (c : Collaborators) (event : Event)
  : Response :=
  match complete_analysis_steps c event with
  | inr response => response
  | inl (KeyError key) => create_error_response 400 (missing_parameter key)
  | inl Exception =>
      create_error_response 500 "Failed to complete analysis pipeline"
  end.

End Pipeline.

(** ** TextExtractor: [TextractClient._extract_text_async]
    (src/textract_client.py) *)
Module Textract.
Import Py.

Inductive ServiceError :=
| ClientError (code message : string)
| OtherError.

(** A response of [get_document_text_detection] while polling. *)
Inductive Poll :=
| Status (JobStatus : string) (StatusMessage : option string)
| PollRaised (e : ServiceError).

Record Block := {
  BlockType : string;
  Text : pystr
}.

(** A response of [get_document_text_detection] while reading results. *)
Record Page := {
  Blocks : list Block;
  NextToken : option string
}.

(** The Textract service during one call: the answer to
    [start_document_text_detection] (the job id, or an exception), the
    answer to the k-th status poll, and the answers to the result
    requests in order ([None], or running out of answers, is an
    exception). *)
Record Service := {
  start_document_text_detection : ServiceError + string;
  get_document_text_detection : nat -> Poll;
  result_pages : list (option Page)
}.

(** [{"success": True, "text": ...}] or
    [{"success": False, "error": ..., "suggestion": ...}] *)
Inductive Result :=
| Extracted (text : pystr)
| Failed (error : string) (suggestion : option string).

(** A finished call: what it returned, the seconds passed to
    [time.sleep] in total, and the number of status polls made. *)
Record Run := {
  outcome : Result;
  slept : Z;
  polled : nat
}.

Definition max_wait_time : Z := 300.
Definition poll_interval : Z := 5.

Definition lines_of (page : Page) : list pystr :=
  map Text (filter (fun blk => BlockType blk = "LINE"%string) (Blocks page)).

(** The pagination loop of [_parse_async_textract_response]; an exception
    keeps what was read so far. *)
Fixpoint read_pages (responses : list (option Page)) (text_blocks : list pystr)
  : list pystr :=
  match responses with
  | [] | None :: _ => text_blocks
  | Some page :: rest =>
      let text_blocks := text_blocks ++ lines_of page in
      match NextToken page with
      | None | Some EmptyString => text_blocks
      | Some _ => read_pages rest text_blocks
      end
  end.

(** ["\n".join(text_blocks)] *)
Fixpoint join_lines (text_blocks : list pystr) : pystr :=
  match text_blocks with
  | [] => []
  | [l] => l
  | l :: rest => l ++ 10%N :: join_lines rest
  end.

Definition _parse_async_textract_response (sv : Service) : pystr :=
  join_lines (read_pages (result_pages sv) []).

Definition no_text : string :=
  "No text could be extracted from the PDF. The file may be corrupted or password-protected.".

Definition timed_out : string :=
  "Textract job timed out after 300 seconds. Large PDFs may take longer to process.".

(** The two [except] clauses of [_extract_text_async]. *)
Definition handle_error (e : ServiceError) : Result :=
  match e with
  | ClientError code message =>
      if String.eqb code "AccessDeniedException" then
        Failed ("Access denied to Textract async API. Error: " +:+ message)
               (Some "Check IAM permissions for start_document_text_detection and get_document_text_detection"%string)
      else if String.eqb code "InvalidS3ObjectException" then
        Failed "Invalid PDF file. The file may be corrupted or password-protected." None
      else if String.eqb code "UnsupportedDocumentException" then
        Failed "PDF format not supported by Textract. Try converting to a standard PDF format." None
      else
        Failed ("Textract service error: " +:+ code +:+ " - " +:+ message) None
  | OtherError => Failed "PDF processing failed due to unexpected error." None
  end.

(** The [while elapsed_time < max_wait_time] loop.  [fuel] bounds the
    iterations of the model; [None] is fuel running out. *)
Fixpoint poll_loop (sv : Service) (fuel : nat) (elapsed_time : Z) (polls : nat)
  : option Run :=
  if (elapsed_time <? max_wait_time)%Z then
    match fuel with
    | O => None
    | S fuel' =>
        (* time.sleep(poll_interval); elapsed_time += poll_interval *)
        let elapsed_time := (elapsed_time + poll_interval)%Z in
        let done result :=
          Some {| outcome := result; slept := elapsed_time;
                  polled := S polls |} in
        match get_document_text_detection sv polls with
        | PollRaised e => done (handle_error e)
        | Status job_status status_message =>
            if String.eqb job_status "SUCCEEDED" then
              let extracted_text := _parse_async_textract_response sv in
              if bool_decide (strip unicode_space extracted_text = [])
              then done (Failed no_text None)
              else done (Extracted extracted_text)
            else if String.eqb job_status "FAILED" then
              done (Failed ("Textract job failed: "
                              +:+ default "Unknown error"%string status_message)
                           None)
            else if String.eqb job_status "IN_PROGRESS"
                    || String.eqb job_status "PARTIAL_SUCCESS" then
              poll_loop sv fuel' elapsed_time (S polls)
            else
              done (Failed ("Unexpected job status: " +:+ job_status) None)
        end
    end
  else
    Some {| outcome := Failed timed_out None; slept := elapsed_time;
            polled := polls |}.

(** The whole call with a given amount of fuel for the loop. *)
Definition extract_text_async_fuel (sv : Service) (fuel : nat) : option Run :=
  match start_document_text_detection sv with
  | inl e => Some {| outcome := handle_error e; slept := 0; polled := 0 |}
  | inr job_id => poll_loop sv fuel 0 0
  end.

(** The loop makes at most [max_wait_time / poll_interval] iterations
    ([poll_loop_total] below), so this much fuel never runs out. *)
Definition poll_budget : nat := Z.to_nat (max_wait_time / poll_interval).

Definition _extract_text_async (sv : Service) : option Run :=
  extract_text_async_fuel sv poll_budget.

End Textract.

(** ** Dynamic operations on JSON values

    The Python operations the handlers apply to values of unknown type:
    membership, subscription, [len], with the exceptions they raise. *)
Module Dyn.
Import Py.

(** An exception: a [KeyError], with the text [str(e)] shows, or any
    other one ([TypeError], [IndexError], [AttributeError], ...). *)
Inductive Raised :=
| KeyError (shown : string)
| Other.

Definition M (A : Type) : Type := Raised + A.
Definition ret {A} (a : A) : M A := inr a.
Definition raise {A} (e : Raised) : M A := inl e.
Definition bind {A B} (m : M A) (k : A -> M B) : M B :=
  match m with inl e => inl e | inr a => k a end.

(** [repr(key)] of a key without quotes or escapes. *)
Definition repr (key : string) : string := "'" +:+ key +:+ "'".

(** [key in v] for a string [key]: a key of a dict, an element of a
    list, a substring of a string; [TypeError] otherwise. *)
Definition is_str (key : string) (v : JSON) : bool :=
  match v with
  | JStr s => bool_decide (s = str key)
  | _ => false
  end.

Definition py_in (key : string) (v : JSON) : M bool :=
  match v with
  | JDict d => ret (bool_decide (is_Some (d !! key)))
  | JList l => ret (existsb (is_str key) l)
  | JStr s => ret (contains (str key) s)
  | _ => raise Other
  end.

(** [v[key]] for a string [key]: only a dict can be subscripted by a
    string; a missing key is a [KeyError]. *)
Definition subscript (key : string) (v : JSON) : M JSON :=
  match v with
  | JDict d =>
      match d !! key with
      | Some x => ret x
      | None => raise (KeyError (repr key))
      end
  | _ => raise Other
  end.

(** [v[0]]: the first element of a list, the first character of a
    string; on a dict, whose keys are strings, a [KeyError]. *)
Definition first (v : JSON) : M JSON :=
  match v with
  | JList (x :: _) => ret x
  | JStr (c :: _) => ret (JStr [c])
  | JDict _ => raise (KeyError "0")
  | _ => raise Other
  end.

(** [len(v)] *)
Definition len (v : JSON) : M nat :=
  match v with
  | JStr s => ret (length s)
  | JList l => ret (length l)
  | JDict d => ret (size d)
  | _ => raise Other
  end.

End Dyn.

Notation "x <- m ;; k" := (Dyn.bind m (fun x => k))
  (at level 20, m at level 99, k at level 200, only parsing).

(** ** StorageEvents: [S3Handler.handle_s3_upload_event]
    (src/s3_handler.py) *)
Module S3Handler.
Import Py Dyn.

(** [{"success": True, "bucket_name": ..., "s3_key": ...}] or
    [{"success": False, "error": ...}] *)
Inductive Located :=
| Location (bucket_name s3_key : JSON)
| NoLocation (error : string).

(** The body of the [try] block. *)
Definition locate (event : gmap string JSON) : M Located :=
  match event !! "Records"%string with
  | None => ret (NoLocation "Invalid event format - no Records found")
  | Some records =>
      record <- first records ;;
      has_s3 <- py_in "s3" record ;;
      if negb has_s3
      then ret (NoLocation "Invalid event format - no S3 information found")
      else
        s3 <- subscript "s3" record ;;
        bucket <- subscript "bucket" s3 ;;
        bucket_name <- subscript "name" bucket ;;
        s3 <- subscript "s3" record ;;
        object <- subscript "object" s3 ;;
        s3_key <- subscript "key" object ;;
        ret (Location bucket_name s3_key)
  end.

Definition handle_s3_upload_event (event : gmap string JSON) : Located :=
  match locate event with
  | inr result => result
  | inl (KeyError shown) =>
      NoLocation ("Invalid S3 event structure: missing " +:+ shown)
  | inl Other => NoLocation "Failed to process S3 upload event"
  end.

End S3Handler.

(** ** AnalysisEngine: [BedrockClient.analyze_resume_vs_job_description]
    (src/bedrock_client.py) *)
Module BedrockClient.
Import Py Dyn.

(** What [bedrock.invoke_model(...)] followed by
    [json.loads(response["body"].read())] does: the decoded response
    body, a [ClientError] with its error code, a [BotoCoreError], or any
    other exception (a body that is no JSON among them). *)
Inductive Invoked :=
| Replied (response_body : JSON)
| ClientError (code : string)
| BotoCoreError
| InvokeRaised.

(** The [except ClientError] clause. *)
Definition client_error (code : string) : string :=
  if String.eqb code "AccessDeniedException" then
    "Access denied to Bedrock service. Check IAM permissions."
  else if String.eqb code "ValidationException" then
    "Invalid request parameters for AI analysis."
  else if String.eqb code "ModelNotReadyException" then
    "AI model is not available. Please try again later."
  else if String.eqb code "ThrottlingException" then
    "Analysis service is busy. Please try again later."
  else "Analysis service unavailable due to service error.".

(** The extraction of the model's text from the response body:
    [Some text] is [message["content"][0]["text"]], [None] stands for the
    two branches that report an invalid response format. *)
Definition analysis_text (response_body : JSON) : M (option JSON) :=
  has_output <- py_in "output" response_body ;;
  has_message <-
    (if has_output
     then output <- subscript "output" response_body ;; py_in "message" output
     else ret false) ;;
  if negb has_message then ret None
  else
    output <- subscript "output" response_body ;;
    message <- subscript "message" output ;;
    has_content <- py_in "content" message ;;
    filled <-
      (if has_content
       then content <- subscript "content" message ;;
            n <- len content ;;
            ret (0 <? n)
       else ret false) ;;
    if negb filled then ret None
    else
      content <- subscript "content" message ;;
      block <- first content ;;
      text <- subscript "text" block ;;
      ret (Some text).

Section Runtime.

(** The model behind the request built from the two texts. *)
Variable invoke_model : pystr -> pystr -> Invoked.
Variable json_loads : pystr -> Bedrock.Loads.
Variable float_of_int : Z -> option pyfloat.
Variable float_of_str : pystr -> option pyfloat.

(** [self._parse_analysis_response(analysis_text)]: a value that is no
    string has no [strip], and the [AttributeError] is caught inside. *)
Definition parse (analysis_text : JSON) : Bedrock.Parsed :=
  match analysis_text with
  | JStr s =>
      Bedrock._parse_analysis_response json_loads float_of_int float_of_str s
  | _ => Bedrock.ParseError "Failed to parse AI analysis response"
  end.

Definition analyze_resume_vs_job_description (resume_text job_description : pystr)
  : Pipeline.Analysis :=
  if bool_decide (resume_text = [])
     || bool_decide (strip unicode_space resume_text = [])
  then Pipeline.AnalysisFailed "Resume text is empty or invalid"
  else if bool_decide (job_description = [])
          || bool_decide (strip unicode_space job_description = [])
  then Pipeline.AnalysisFailed "Job description is empty or invalid"
  else
    match invoke_model resume_text job_description with
    | Replied response_body =>
        match analysis_text response_body with
        | inr (Some text) =>
            match parse text with
            | Bedrock.ParseOk data => Pipeline.AnalysisOk data
            | Bedrock.ParseError error => Pipeline.AnalysisFailed error
            end
        | inr None =>
            Pipeline.AnalysisFailed "Invalid response format from AI model"
        | inl _ =>
            Pipeline.AnalysisFailed "Analysis failed due to unexpected error."
        end
    | ClientError code => Pipeline.AnalysisFailed (client_error code)
    | BotoCoreError =>
        Pipeline.AnalysisFailed
          "Analysis service unavailable due to connection error."
    | InvokeRaised =>
        Pipeline.AnalysisFailed "Analysis failed due to unexpected error."
    end.

End Runtime.
End BedrockClient.

(** ** TextExtractor: [TextractClient.extract_text_from_s3_pdf]
    (src/textract_client.py) *)
Module TextractClient.
Import Py.

(** An exception of an AWS call: a [ClientError] with the code and the
    message of its response, a [BotoCoreError], or any other one. *)
Inductive Raised :=
| ClientError (code message : string)
| BotoCoreError
| Unexpected.

(** What the error message reads of
    [pdf_validator.get_detailed_file_info]: [size_mb] and [content_type],
    or neither when the call put an [error] entry in their place. *)
Inductive FileInfo :=
| Info (size_mb : Q) (content_type : string)
| NoInfo.

Record Client := {
  (** [os.environ.get("PII_REDACTED_ACCESS_POINT")] *)
  pii_access_point : option string;
  (** [s3.head_object(Bucket, Key)]: [None] when it returns *)
  head_object : string -> string -> option Raised;
  (** [textract.detect_document_text] on an S3 object, then
      [response.get("Blocks", [])] *)
  detect_document_text : string -> string -> Raised + list Textract.Block;
  (** the asynchronous API for an S3 object *)
  text_detection : string -> string -> Textract.Service;
  get_detailed_file_info : string -> string -> FileInfo;
  (** [str] of a float, in an f-string *)
  format_float : Q -> string
}.

(** [c.lower()] of an ASCII character. *)
Definition lower_ascii (c : ascii) : ascii :=
  let n := nat_of_ascii c in
  if (65 <=? n) && (n <=? 90) then ascii_of_nat (n + 32) else c.

(** [s3_key.lower().endswith(".pdf")].  A key is held as its bytes; no
    character outside ASCII lower-cases to one of the four of the
    suffix, so the test only concerns the last four bytes. *)
Definition endswith_pdf (s3_key : string) : bool :=
  startswith (rev (list_ascii_of_string ".pdf"))
             (rev (map lower_ascii (list_ascii_of_string s3_key))).

(** The bucket and the name of the S3 object handed to Textract. *)
Definition _get_s3_reference (cl : Client) (bucket_name s3_key : string)
    (use_pii_redaction : bool) : string * string :=
  match use_pii_redaction, pii_access_point cl with
  | true, Some (String a point) => (String a point, s3_key)
  | _, _ => (bucket_name, s3_key)
  end.

Definition _parse_textract_response (blocks : list Textract.Block) : pystr :=
  Textract.join_lines
    (map Textract.Text
       (filter (fun blk => Textract.BlockType blk = "LINE"%string) blocks)).

(** [" | ".join(l)] *)
Fixpoint join_bar (l : list string) : string :=
  match l with
  | [] => EmptyString
  | [s] => s
  | s :: rest => s +:+ " | " +:+ join_bar rest
  end.

Definition suggestions (info : FileInfo) : list string :=
  (match info with
   | Info size_mb _ =>
       if Qle_bool size_mb 5 then [] else ["Try reducing the file size"%string]
   | NoInfo => []
   end)
  ++ (match info with
      | Info _ content_type =>
          if String.eqb content_type "application/pdf" then []
          else ["Ensure the file is saved as a proper PDF"%string]
      | NoInfo => ["Ensure the file is saved as a proper PDF"%string]
      end)
  ++ [ "Try re-saving the PDF from the original application";
       "Convert to PDF/A format if possible";
       "Remove any password protection or encryption" ]%string.

(** The error of the branch that inspects the file.  The returned dict
    has two more entries, [file_info] and [textract_error], which no
    caller reads; they are not represented. *)
Definition unsupported (cl : Client) (info : FileInfo) : Textract.Result :=
  Textract.Failed
    ("Textract cannot process this PDF format. File: "
       +:+ (match info with
            | Info size_mb _ => format_float cl size_mb
            | NoInfo => "0"
            end)
       +:+ "MB, Type: "
       +:+ (match info with
            | Info _ content_type => content_type
            | NoInfo => "unknown"
            end))
    (Some ("Try: " +:+ join_bar (take 3 (suggestions info)))).

(** The three outer [except] clauses. *)
Definition report (cl : Client) (bucket_name s3_key : string) (e : Raised)
  : Textract.Result :=
  match e with
  | ClientError code _ =>
      if String.eqb code "InvalidS3ObjectException" then
        Textract.Failed
          "Invalid PDF file. The file may be corrupted or password-protected."
          None
      else if String.eqb code "UnsupportedDocumentException" then
        unsupported cl (get_detailed_file_info cl bucket_name s3_key)
      else if String.eqb code "AccessDenied" then
        Textract.Failed "Access denied to S3 object or Textract service." None
      else Textract.Failed "PDF processing failed due to service error." None
  | BotoCoreError =>
      Textract.Failed "PDF processing failed due to connection error." None
  | Unexpected =>
      Textract.Failed "PDF processing failed due to unexpected error." None
  end.

(** [None] is the asynchronous call running out of fuel, which does not
    happen ([extract_text_returns] below). *)
Definition extract_text_from_s3_pdf (cl : Client) (bucket_name s3_key : string)
    (use_pii_redaction : bool) : option Textract.Result :=
  if negb (endswith_pdf s3_key) then
    Some (Textract.Failed
            "Unsupported file format. Only PDF files are supported." None)
  else
    match head_object cl bucket_name s3_key with
    | Some (ClientError code message) =>
        if String.eqb code "404"
        then Some (Textract.Failed "File not found in S3." None)
        else Some (report cl bucket_name s3_key (ClientError code message))
    | Some e => Some (report cl bucket_name s3_key e)
    | None =>
        let (document_bucket, name) :=
          _get_s3_reference cl bucket_name s3_key use_pii_redaction in
        match detect_document_text cl document_bucket name with
        | inl (ClientError code message) =>
            if String.eqb code "UnsupportedDocumentException" then
              Textract.outcome
                <$> Textract._extract_text_async
                      (text_detection cl document_bucket name)
            else Some (report cl bucket_name s3_key (ClientError code message))
        | inl e => Some (report cl bucket_name s3_key e)
        | inr blocks =>
            let extracted_text := _parse_textract_response blocks in
            if bool_decide (strip unicode_space extracted_text = [])
            then Some (Textract.Failed Textract.no_text None)
            else Some (Textract.Extracted extracted_text)
        end
    end.

End TextractClient.

(** ** ReportBuilder: [ReportGenerator.store_report_in_s3],
    [generate_presigned_download_url] and
    [create_complete_report_package] (src/report_generator.py) *)
Module ReportGenerator.
Import Py.

(** A successful result of [generate_report]. *)
Record Generated := {
  report_id : string;
  timestamp : string;
  markdown_content : pystr;
  html_content : pystr;
  metadata : JSON
}.

(** An exception of [s3.put_object]: a [ClientError] with its code, or
    any other one. *)
Inductive PutError :=
| PutClientError (code : string)
| PutRaised.

(** An object as [put_object] stores it. *)
Record Object := {
  Body : bytes;
  ContentType : string;
  metadata_report_id : string;
  metadata_format : string;
  metadata_generated_at : string
}.

(** The objects of all buckets, by bucket and key. *)
Abbreviation Objects := (gmap (string * string) Object).

(** What the generator's environment does during one call. *)
Record World := {
  (** [generate_report(analysis_data, resume_filename, job_title)], which
      renders the two documents; [None] is its failure result *)
  generate_report : gmap string JSON -> string -> string -> option Generated;
  (** [str(uuid.uuid4())] when a report of the given format is stored
      without an identifier *)
  uuid4 : string -> string;
  (** the clock when the report of the given format is stored:
      [strftime("%Y%m%d_%H%M%S")] and [isoformat()] *)
  strftime_now : string -> string;
  isoformat_now : string -> string;
  (** whether [put_object] raises for a bucket and a key *)
  put_object_raises : string -> string -> option PutError;
  (** [s3.generate_presigned_url] for a bucket and a key ([None]: it
      raises), and the expiry computed after it *)
  generate_presigned_url : string -> string -> option string;
  expires_at_now : string -> string
}.

(** [{"success": True, "s3_key": ..., "report_id": ..., ...}] or
    [{"success": False, "error": ...}] *)
Inductive Storage :=
| StoredAt (s3_key : string) (report_id : string)
| StorageFailed (error : string).

Definition s3_key_for (timestamp report_id file_extension : string) : string :=
  "reports/" +:+ timestamp +:+ "_" +:+ report_id +:+ "." +:+ file_extension.

Definition store_report_in_s3 (w : World) (objects : Objects)
    (bucket_name : string) (report_content : pystr)
    (report_format report_id : string) : Storage * Objects :=
  let report_id :=
    if String.eqb report_id EmptyString then uuid4 w report_format
    else report_id in
  let timestamp := strftime_now w report_format in
  let file_extension :=
    if String.eqb report_format "markdown" then "md"%string else "html"%string in
  let s3_key := s3_key_for timestamp report_id file_extension in
  let content_type :=
    if String.eqb report_format "markdown"
    then "text/markdown"%string else "text/html"%string in
  match utf8_encode report_content with
  | None => (StorageFailed "Unexpected error storing report.", objects)
  | Some body =>
      match put_object_raises w bucket_name s3_key with
      | Some (PutClientError code) =>
          (StorageFailed
             (if String.eqb code "AccessDenied"
              then "Access denied to S3 bucket. Check IAM permissions."
              else if String.eqb code "NoSuchBucket"
              then "S3 bucket does not exist."
              else "Failed to store report in S3."),
           objects)
      | Some PutRaised =>
          (StorageFailed "Unexpected error storing report.", objects)
      | None =>
          (StoredAt s3_key report_id,
           <[(bucket_name, s3_key) :=
               {| Body := body; ContentType := content_type;
                  metadata_report_id := report_id;
                  metadata_format := report_format;
                  metadata_generated_at := isoformat_now w report_format |}]>
             objects)
      end
  end.

(** [generate_presigned_download_url] with the default expiration: the
    link, or [None] for its failure results. *)
Definition generate_presigned_download_url (w : World)
    (bucket_name s3_key : string) : option (string * string) :=
  match generate_presigned_url w bucket_name s3_key with
  | Some url => Some (url, expires_at_now w s3_key)
  | None => None
  end.

(** The result and the objects afterwards.  The functions called absorb
    their own exceptions, so the outer handler is not reached. *)
Definition create_complete_report_package (w : World) (objects : Objects)
    (analysis_data : gmap string JSON) (bucket_name resume_filename job_title : string)
  : Pipeline.Report * Objects :=
  match generate_report w analysis_data resume_filename job_title with
  | None => (Pipeline.ReportFailed "Failed to generate analysis report", objects)
  | Some report_result =>
      let (markdown_storage, objects) :=
        store_report_in_s3 w objects bucket_name
          (markdown_content report_result) "markdown" (report_id report_result) in
      let (html_storage, objects) :=
        store_report_in_s3 w objects bucket_name
          (html_content report_result) "html" (report_id report_result) in
      match markdown_storage, html_storage with
      | StoredAt markdown_key _, StoredAt html_key _ =>
          let markdown_url :=
            generate_presigned_download_url w bucket_name markdown_key in
          let html_url :=
            generate_presigned_download_url w bucket_name html_key in
          match markdown_url, html_url with
          | Some (markdown_link, markdown_expiry), Some (html_link, html_expiry) =>
              (Pipeline.ReportOk
                 {| Pipeline.report_id := report_id report_result;
                    Pipeline.timestamp := timestamp report_result;
                    Pipeline.package_metadata := metadata report_result;
                    Pipeline.markdown :=
                      {| Pipeline.s3_key_of := markdown_key;
                         Pipeline.download_url := markdown_link;
                         Pipeline.expires_at := markdown_expiry |};
                    Pipeline.html :=
                      {| Pipeline.s3_key_of := html_key;
                         Pipeline.download_url := html_link;
                         Pipeline.expires_at := html_expiry |} |},
               objects)
          | _, _ =>
              (Pipeline.ReportFailed "Failed to generate download URLs", objects)
          end
      | _, _ => (Pipeline.ReportFailed "Failed to store reports in S3", objects)
      end
  end.

End ReportGenerator.

(** ** HttpUpload: [handle_analyze_endpoint] and [create_cors_response]
    (src/handler.py) *)
Module Web.
Import Py.

Record Deduplication := {
  status : string;
  message : string;
  fileHash : string;
  originalFilename : pystr
}.

Record AnalysisInfo := {
  textLength : nat;
  jobDescriptionLength : nat;
  processingTime : string
}.

Record ReportLink := {
  downloadUrl : string;
  expiresAt : string
}.

(** [response_data] of the analysis endpoint. *)
Record Analysed := {
  sessionId : string;
  resumeFilename : pystr;
  compatibilityScore : JSON;
  missingKeywords : JSON;
  missingSkills_technical : JSON;
  missingSkills_soft : JSON;
  suggestions : JSON;
  strengths : JSON;
  deduplicationStatus : string;
  deduplication : Deduplication;
  analysis : AnalysisInfo;
  enhancementAvailable : bool;
  originalResumeText : pystr;
  (** the Markdown and the HTML link; absent without a stored package *)
  reports : option (ReportLink * ReportLink)
}.

(** The data serialised into the body of a response. *)
Inductive Data :=
| Message (message : string)
| Error (error : string)
| Analysis (data : Analysed).

(** The response of [create_cors_response]; its headers are constant. *)
Record Response := {
  statusCode : Z;
  body : Data
}.

Definition create_cors_response (status_code : Z) (data : Data) : Response :=
  {| statusCode := status_code; body := data |}.

(** [s3_handler.upload_file_content]'s result. *)
Inductive Upload :=
| Uploaded
| UploadFailed (error : string).

(** What the endpoint's collaborators and environment do. *)
Record Services := {
  (** whether the five clients can be constructed; the constructor of
      the cache client raises without its table name *)
  clients_available : bool;
  (** [os.environ.get] of the two bucket names *)
  RESUMES_BUCKET : option string;
  REPORTS_BUCKET : option string;
  (** [upload_file_content(bucket_name, s3_key, pdf_content,
      "application/pdf")] *)
  upload_file_content : option string -> pystr -> bytes -> Upload;
  extract_text_from_s3_pdf : option string -> pystr -> Pipeline.Extraction;
  detect_pii_entities : pystr -> option (list Pii.Entity);
  analyze_resume_vs_job_description : pystr -> pystr -> Pipeline.Analysis;
  (** [create_complete_report_package(analysis_data, reports_bucket,
      original_filename, "Web Analysis")] *)
  create_complete_report_package :
    gmap string JSON -> option string -> pystr -> string -> Pipeline.Report
}.

(** A name as the cache table holds it: its UTF-8 bytes.  (A name taken
    from decoded headers holds scalar values only.) *)
Definition stored_name (name : pystr) : string :=
  string_of_list_byte (flat_map utf8_encode_char name).

(** [content_hash[:8]] *)
Definition hash_prefix (content_hash : string) : string :=
  substring 0 8 content_hash.

Definition upload_key (content_hash : string) (original_filename : pystr)
  : pystr :=
  str "web-uploads/" ++ str (hash_prefix content_hash) ++ str "/"
    ++ original_filename.

Definition failed : Response :=
  create_cors_response 500 (Error "Analysis processing failed").

Definition link (l : Pipeline.Link) : ReportLink :=
  {| downloadUrl := Pipeline.download_url l;
     expiresAt := Pipeline.expires_at l |}.

(** The second half of [handle_analyze_endpoint], from the analysis on,
    for the text and the processing status the first half arrived at. *)
Definition analyse_and_respond (sv : Services) (content_hash : string)
    (job_description original_filename extracted_text : pystr)
    (processing_status : string) : Response :=
  match analyze_resume_vs_job_description sv extracted_text
          job_description with
  | Pipeline.AnalysisFailed error =>
      create_cors_response 422 (Error ("AI analysis failed: " +:+ error))
  | Pipeline.AnalysisOk analysis_data =>
    match create_complete_report_package sv analysis_data
            (REPORTS_BUCKET sv) original_filename "Web Analysis" with
    | Pipeline.ReportRaised _ => failed
    | report_package =>
      match analysis_data !! "compatibility_score"%string with
      | None => failed
      | Some score =>
          create_cors_response 200 (Analysis
            {| sessionId := hash_prefix content_hash;
               resumeFilename := original_filename;
               compatibilityScore := score;
               missingKeywords :=
                 default (JList []) (analysis_data !! "missing_keywords"%string);
               missingSkills_technical :=
                 default (JList [])
                   (analysis_data !! "missing_technical_skills"%string);
               missingSkills_soft :=
                 default (JList [])
                   (analysis_data !! "missing_soft_skills"%string);
               suggestions :=
                 default (JList []) (analysis_data !! "suggestions"%string);
               strengths :=
                 default (JList []) (analysis_data !! "strengths"%string);
               deduplicationStatus := processing_status;
               deduplication :=
                 {| status := processing_status;
                    message :=
                      "File processed with content-based deduplication";
                    fileHash := hash_prefix content_hash +:+ "...";
                    originalFilename := original_filename |};
               analysis :=
                 {| textLength := length extracted_text;
                    jobDescriptionLength := length job_description;
                    processingTime := "completed" |};
               enhancementAvailable := true;
               originalResumeText := extracted_text;
               reports :=
                 match report_package with
                 | Pipeline.ReportOk package =>
                     Some (link (Pipeline.markdown package),
                           link (Pipeline.html package))
                 | _ => None
                 end |})
      end
    end
  end.

(** The response and the cache table afterwards.  An exception inside
    the function is answered with [failed]. *)
Definition handle_analyze_endpoint (sv : Services) (cache : Dedup.Services)
    (table : gmap string Dedup.CacheItem) (event : Multipart.ApiEvent)
  : Response * gmap string Dedup.CacheItem :=
  match Multipart.parse_multipart_form_data event with
  | Multipart.FormError error =>
      (create_cors_response 400 (Error error), table)
  | Multipart.FormOk pdf_content job_description original_filename =>
    if negb (clients_available sv) then (failed, table)
    else
      let content_hash := Dedup.sha256_hexdigest cache pdf_content in
      match Dedup.get_resume_cache cache table content_hash with
      | Some cached_data =>
          (analyse_and_respond sv content_hash job_description
             original_filename (Dedup.extracted_text cached_data)
             "deduplicated",
           table)
      | None =>
          let bucket_name := RESUMES_BUCKET sv in
          let s3_key := upload_key content_hash original_filename in
          match upload_file_content sv bucket_name s3_key pdf_content with
          | UploadFailed error =>
              (create_cors_response 500
                 (Error ("Failed to upload PDF: " +:+ error)), table)
          | Uploaded =>
              match extract_text_from_s3_pdf sv bucket_name s3_key with
              | Pipeline.ExtractFailed error =>
                  (create_cors_response 422
                     (Error ("Text extraction failed: " +:+ error)), table)
              | Pipeline.ExtractOk text =>
                  let pii_result :=
                    Pii.apply_pii_redaction_to_text
                      (detect_pii_entities sv) text in
                  let text :=
                    if Pii.success pii_result then Pii.text pii_result
                    else text in
                  let table :=
                    snd (Dedup.store_processed_file cache table content_hash
                           text (stored_name original_filename)) in
                  (analyse_and_respond sv content_hash job_description
                     original_filename text "processed",
                   table)
              end
          end
      end
  end.

End Web.

(** ** Extraction handlers: [handle_s3_upload] and
    [handle_direct_invocation] (src/handler.py) *)
Module Extraction.
Import Py Dyn.

(** The data of a success response. *)
Record Extracted := {
  processing_type : string;
  bucket_name : JSON;
  s3_key : JSON;
  extracted_text : pystr;
  text_length : nat;
  pii_redacted : bool;
  next_steps : string
}.

Inductive Body :=
| Failure (error : string)
| Success (data : Extracted).

Record Response := {
  statusCode : Z;
  body : Body
}.

Definition create_error_response (status_code : Z) (error_message : string)
  : Response :=
  {| statusCode := status_code; body := Failure error_message |}.

Definition create_success_response (data : Extracted) : Response :=
  {| statusCode := 200; body := Success data |}.

(** The collaborators of the two handlers.  The bucket and the key are
    whatever values the event holds. *)
Record Clients := {
  (** [textract_client.extract_text_from_s3_pdf(bucket_name, s3_key)];
      [None] when it raises *)
  extract_text_from_s3_pdf : JSON -> JSON -> option Pipeline.Extraction;
  (** the Comprehend call inside [apply_pii_redaction_to_text] *)
  detect_pii_entities : pystr -> option (list Pii.Entity)
}.

(** What both handlers do once the location is known; [None] is an
    exception. *)
Definition extract (cl : Clients) (processing : string)
    (bucket_name s3_key : JSON) : option Response :=
  match extract_text_from_s3_pdf cl bucket_name s3_key with
  | None => None
  | Some (Pipeline.ExtractFailed error) =>
      Some (create_error_response 422 ("Text extraction failed: " +:+ error))
  | Some (Pipeline.ExtractOk text) =>
      let pii_result :=
        Pii.apply_pii_redaction_to_text (detect_pii_entities cl) text in
      let text := if Pii.success pii_result then Pii.text pii_result else text in
      Some (create_success_response
              {| processing_type := processing;
                 bucket_name := bucket_name;
                 s3_key := s3_key;
                 extracted_text := text;
                 text_length := length text;
                 pii_redacted := Pii.redacted pii_result;
                 next_steps :=
                   "Text extracted successfully. Use this text with a job description for analysis." |})
  end.

Definition handle_s3_upload (cl : Clients) (event : gmap string JSON)
  : Response :=
  match S3Handler.handle_s3_upload_event event with
  | S3Handler.NoLocation error => create_error_response 400 error
  | S3Handler.Location bucket_name s3_key =>
      match extract cl "s3_upload" bucket_name s3_key with
      | Some response => response
      | None => create_error_response 500 "Failed to process S3 upload event"
      end
  end.

Definition handle_direct_invocation (cl : Clients) (event : gmap string JSON)
  : Response :=
  match event !! "bucket_name"%string, event !! "s3_key"%string with
  | None, _ =>
      create_error_response 400
        ("Missing required parameter: " +:+ repr "bucket_name")
  | Some _, None =>
      create_error_response 400
        ("Missing required parameter: " +:+ repr "s3_key")
  | Some bucket_name, Some s3_key =>
      match extract cl "direct_extraction" bucket_name s3_key with
      | Some response => response
      | None => create_error_response 500 "Failed to process direct invocation"
      end
  end.

End Extraction.

(** ** RequestRouter: [is_api_gateway_request],
    [handle_api_gateway_request] and [lambda_handler] (src/handler.py) *)
Module Gateway.
Import Py Dyn.

(** [v.get(key, fallback)]: only a dict has [get]. *)
Definition get_or (key : string) (fallback : JSON) (v : JSON) : M JSON :=
  match v with
  | JDict d => ret (default fallback (d !! key))
  | _ => raise Other
  end.

(** [event.get("requestContext", {})] *)
Definition request_context (event : gmap string JSON) : JSON :=
  default (JDict ∅) (event !! "requestContext"%string).

Definition is_api_gateway_request (event : gmap string JSON) : M bool :=
  http_api <-
    (if Router.has "requestContext" event then
       has_http <- py_in "http" (request_context event) ;;
       if has_http then
         http <- get_or "http" (JDict ∅) (request_context event) ;;
         py_in "method" http
       else ret false
     else ret false) ;;
  if http_api then ret true
  else ret (Router.has "httpMethod" event && Router.has "headers" event).

(** [event.get(key) or
    event.get("requestContext", {}).get("http", {}).get(nested, ...)] *)
Definition first_or_nested (key nested : string) (fallback : JSON)
    (event : gmap string JSON) : M JSON :=
  let direct := default JNull (event !! key) in
  if truthy direct then ret direct
  else
    http <- get_or "http" (JDict ∅) (request_context event) ;;
    get_or nested fallback http.

(** The replies of the entry point: those of the pipeline handlers, of
    the extraction handlers and of the web handlers. *)
Inductive Reply :=
| Direct (response : Pipeline.Response)
| Extracted (response : Extraction.Response)
| Http (response : Web.Response).

Section Handlers.

(** The two endpoint handlers and the four handlers of direct
    invocations, each with its clients; they absorb their exceptions. *)
Variable handle_analyze_endpoint : gmap string JSON -> Web.Response.
Variable handle_enhance_endpoint : gmap string JSON -> Web.Response.
Variable handle_complete_pipeline : gmap string JSON -> Pipeline.Response.
Variable handle_s3_upload : gmap string JSON -> Extraction.Response.
Variable handle_direct_invocation : gmap string JSON -> Extraction.Response.
Variable handle_complete_analysis : gmap string JSON -> Pipeline.Response.
(** Whether the five clients can be constructed. *)
Variable clients_available : bool.

(** The body of [handle_api_gateway_request]'s [try] block. *)
Definition route (event : gmap string JSON) : M Web.Response :=
  http_method <- first_or_nested "httpMethod" "method" JNull event ;;
  path <- first_or_nested "path" "path" (JStr []) event ;;
  if is_str "OPTIONS" http_method then
    ret (Web.create_cors_response 200 (Web.Message "CORS preflight"))
  else if is_str "POST" http_method && is_str "/analyze" path then
    ret (handle_analyze_endpoint event)
  else if is_str "POST" http_method && is_str "/enhance" path then
    ret (handle_enhance_endpoint event)
  else ret (Web.create_cors_response 404 (Web.Error "Endpoint not found")).

Definition handle_api_gateway_request (event : gmap string JSON)
  : Web.Response :=
  match route event with
  | inr response => response
  | inl _ => Web.create_cors_response 500 (Web.Error "Internal server error")
  end.

Definition internal_error : Reply :=
  Direct (Pipeline.create_error_response 500
            "Internal server error during processing").

Definition lambda_handler (event : gmap string JSON) : Reply :=
  match is_api_gateway_request event with
  | inl _ => internal_error
  | inr true => Http (handle_api_gateway_request event)
  | inr false =>
      match Router.validate_input event with
      | Router.Invalid error =>
          Direct (Pipeline.create_error_response 400 error)
      | Router.Valid event_type =>
          if negb clients_available then internal_error
          else
            match event_type with
            | Router.complete_pipeline =>
                Direct (handle_complete_pipeline event)
            | Router.s3_upload => Extracted (handle_s3_upload event)
            | Router.direct_extraction =>
                Extracted (handle_direct_invocation event)
            | Router.analysis_only => Direct (handle_complete_analysis event)
            end
      end
  end.

End Handlers.
End Gateway.

(** ** Vocabulary of the properties

    The notions the design specification uses to state its properties,
    defined from its words. *)
Module Spec.
Import Py.

(** A status poll that reports a job still running. *)
Definition in_progress (p : Textract.Poll) : Prop :=
  exists m, p = Textract.Status "IN_PROGRESS" m
            \/ p = Textract.Status "PARTIAL_SUCCESS" m.

(** The facts about a finished extraction run that the polling loop
    maintains from poll [k] on. *)
Definition well_timed (k : nat) (run : Textract.Run) : Prop :=
  (k <= Textract.polled run)%nat /\
  (Textract.polled run <= Textract.poll_budget)%nat /\
  Textract.slept run
    = (Textract.poll_interval * Z.of_nat (Textract.polled run))%Z /\
  (Textract.slept run <= Textract.max_wait_time)%Z.

(** The structural condition of each pipeline shape. *)
Definition shape_matches (shape : Router.EventType) (event : gmap string JSON)
  : Prop :=
  match shape with
  | Router.complete_pipeline =>
      is_Some (event !! "bucket_name"%string)
      /\ is_Some (event !! "s3_key"%string)
      /\ is_Some (event !! "job_description"%string)
  | Router.s3_upload =>
      exists records, event !! "Records"%string = Some records
                      /\ truthy records = true
  | Router.direct_extraction =>
      is_Some (event !! "bucket_name"%string)
      /\ is_Some (event !! "s3_key"%string)
  | Router.analysis_only =>
      is_Some (event !! "resume_text"%string)
      /\ is_Some (event !! "job_description"%string)
  end.

(** The place of a shape in the precedence order. *)
Definition rank (shape : Router.EventType) : nat :=
  match shape with
  | Router.complete_pipeline => 0
  | Router.s3_upload => 1
  | Router.direct_extraction => 2
  | Router.analysis_only => 3
  end.

(** [shape] is the first shape, in precedence order, that the event
    matches. *)
Definition first_match (shape : Router.EventType) (event : gmap string JSON)
  : Prop :=
  shape_matches shape event /\
  forall earlier, (rank earlier < rank shape)%nat -> ~ shape_matches earlier event.

(** The text fields a shape requires. *)
Definition required_text (shape : Router.EventType) : list string :=
  match shape with
  | Router.complete_pipeline => ["job_description"%string]
  | Router.analysis_only => ["resume_text"%string; "job_description"%string]
  | _ => []
  end.

(** The field holds a string that is non-empty after trimming. *)
Definition non_blank (event : gmap string JSON) (key : string) : Prop :=
  exists s, event !! key = Some (JStr s) /\ strip unicode_space s <> [].

(** The test the router makes for each shape. *)
Definition tested (shape : Router.EventType) (event : gmap string JSON) : bool :=
  match shape with
  | Router.complete_pipeline =>
      Router.has "bucket_name" event && Router.has "s3_key" event
      && Router.has "job_description" event
  | Router.s3_upload =>
      Router.has "Records" event && truthy (default JNull (event !! "Records"%string))
  | Router.direct_extraction => Router.has "bucket_name" event && Router.has "s3_key" event
  | Router.analysis_only => Router.has "resume_text" event && Router.has "job_description" event
  end.

(** A compatibility score within 0..100. *)
Definition score_in_range (v : JSON) : Prop :=
  match v with
  | JInt z => (0 <= z <= 100)%Z
  | JFloat (FFin q) => (0 <= q)%Q /\ (q <= 100)%Q
  | _ => False
  end.

(** The invariant of an analysis result. *)
Definition analysis_invariant (data : gmap string JSON) : Prop :=
  (exists score, data !! "compatibility_score"%string = Some score
                 /\ score_in_range score)
  /\ (exists l, data !! "suggestions"%string = Some (JList l)
                /\ (3 <= length l)%nat).

(** A detected span is a non-empty range of the submitted text, whose
    length is [n]. *)
Definition span_within (n : nat) (e : Pii.Entity) : Prop :=
  (0 <= Pii.BeginOffset e)%Z /\ (Pii.BeginOffset e < Pii.EndOffset e)%Z
  /\ (Pii.EndOffset e <= Z.of_nat n)%Z.

(** Two spans do not overlap. *)
Definition disjoint_spans (e1 e2 : Pii.Entity) : Prop :=
  (Pii.EndOffset e1 <= Pii.BeginOffset e2)%Z
  \/ (Pii.EndOffset e2 <= Pii.BeginOffset e1)%Z.

Fixpoint pairwise_disjoint (l : list Pii.Entity) : Prop :=
  match l with
  | [] => True
  | e :: l' => Forall (disjoint_spans e) l' /\ pairwise_disjoint l'
  end.

(** The detector's answer for a text of length [n] is a list of
    non-empty spans of that text that do not overlap one another. *)
Definition spans_ok (n : nat) (entities : list Pii.Entity) : Prop :=
  Forall (span_within n) entities /\ pairwise_disjoint entities.

(** A list sorted by descending offset in which every span ends where
    the one before it begins, or earlier, and the first ends by [bound]. *)
Fixpoint separated (bound : Z) (l : list Pii.Entity) : Prop :=
  match l with
  | [] => True
  | e :: l' =>
      (0 <= Pii.BeginOffset e)%Z /\ (Pii.BeginOffset e < Pii.EndOffset e)%Z
      /\ (Pii.EndOffset e <= bound)%Z /\ separated (Pii.BeginOffset e) l'
  end.

(** The collaborators with another report generator. *)
Definition with_report_generator (c : Pipeline.Collaborators)
    (generator : gmap string JSON -> string -> string -> string -> Pipeline.Report)
  : Pipeline.Collaborators :=
  {| Pipeline.extract_text_from_s3_pdf := Pipeline.extract_text_from_s3_pdf c;
     Pipeline.detect_pii_entities := Pipeline.detect_pii_entities c;
     Pipeline.analyze_resume_vs_job_description :=
       Pipeline.analyze_resume_vs_job_description c;
     Pipeline.create_complete_report_package := generator;
     Pipeline.REPORTS_BUCKET := Pipeline.REPORTS_BUCKET c |}.

(** Report-package generation fails on every request: it returns a
    failure or raises. *)
Definition reports_fail (c : Pipeline.Collaborators) : Prop :=
  forall analysis_data bucket filename title package,
    Pipeline.create_complete_report_package c analysis_data bucket filename title
    <> Pipeline.ReportOk package.

(** The degraded note of an analysis-only success: no stored package, a
    message that says so, and metadata that reports storage as
    unavailable. *)
Definition report_unavailable (d : Pipeline.AnalysisData) : Prop :=
  exists id stamp note error mode,
    Pipeline.reports d = Pipeline.NotStored id stamp note error
    /\ Pipeline.metadata d = Pipeline.LocalMetadata mode false
    /\ (note = Pipeline.not_saved
        \/ note = "Analysis completed successfully (local mode - no S3 storage)"%string).

(** A response with the deduplication message and hash prefix blanked:
    what is left is the content that must not depend on how the
    deduplication layer fared. *)
Definition erase_dedup_note (r : Pipeline.Response) : Pipeline.Response :=
  match Pipeline.body r with
  | Pipeline.PipelineSuccess d =>
      {| Pipeline.statusCode := Pipeline.statusCode r;
         Pipeline.body := Pipeline.PipelineSuccess
           {| Pipeline.pipeline_status := Pipeline.pipeline_status d;
              Pipeline.step_deduplication_check := Pipeline.step_deduplication_check d;
              Pipeline.step_text_extraction := Pipeline.step_text_extraction d;
              Pipeline.step_ai_analysis := Pipeline.step_ai_analysis d;
              Pipeline.step_report_generation := Pipeline.step_report_generation d;
              Pipeline.deduplication_status := Pipeline.deduplication_status d;
              Pipeline.deduplication_message := EmptyString;
              Pipeline.deduplication_file_hash := EmptyString;
              Pipeline.resume_file := Pipeline.resume_file d;
              Pipeline.input_resume_filename := Pipeline.input_resume_filename d;
              Pipeline.input_job_title := Pipeline.input_job_title d;
              Pipeline.extracted_text_length := Pipeline.extracted_text_length d;
              Pipeline.job_description_length := Pipeline.job_description_length d;
              Pipeline.pipeline_summary := Pipeline.pipeline_summary d;
              Pipeline.pipeline_reports := Pipeline.pipeline_reports d;
              Pipeline.pipeline_metadata := Pipeline.pipeline_metadata d |} |}
  | _ => r
  end.

(** The fingerprint cannot be computed, or the cache lookup raises. *)
Definition lookup_fault (sv : Dedup.Services) (bucket key : string) : Prop :=
  Dedup.calculate_s3_file_hash sv bucket key = None
  \/ Dedup.get_item_raises sv = true.

(** The last byte, if any, is none of CR, LF and the hyphen. *)
Definition ends_clean (s : bytes) : Prop :=
  forall c, last s = Some c -> one_of Multipart.trailer_chars c = false.

(** No leading and no trailing whitespace. *)
Definition trimmed (s : pystr) : Prop :=
  (forall c, head s = Some c -> unicode_space c = false)
  /\ (forall c, last s = Some c -> unicode_space c = false).

(** The header block of the part names the file field. *)
Definition names_file_part (part : bytes) : bool :=
  match Multipart.split_headers part with
  | Some (headers_section, _) =>
      contains (Multipart.quoted_name "resume")
               (utf8_decode_ignore headers_section)
      || contains (Multipart.quoted_name "pdf")
                  (utf8_decode_ignore headers_section)
  | None => false
  end.

(** What the content of a text part strips to: trailing CR, LF and
    hyphens removed, decoded, trimmed. *)
Definition text_value (content : bytes) : pystr :=
  strip unicode_space
    (utf8_decode_ignore (rstrip (one_of Multipart.trailer_chars) content)).

(** The collaborators with another text extractor and another PII
    detector. *)
Definition with_extraction (c : Pipeline.Collaborators)
    (extractor : string -> string -> Pipeline.Extraction)
    (detector : pystr -> option (list Pii.Entity))
  : Pipeline.Collaborators :=
  {| Pipeline.extract_text_from_s3_pdf := extractor;
     Pipeline.detect_pii_entities := detector;
     Pipeline.analyze_resume_vs_job_description :=
       Pipeline.analyze_resume_vs_job_description c;
     Pipeline.create_complete_report_package :=
       Pipeline.create_complete_report_package c;
     Pipeline.REPORTS_BUCKET := Pipeline.REPORTS_BUCKET c |}.

(** The cache item the complete pipeline writes for a file whose
    fingerprint is [h]: the scrubbed text under the file name of the
    request, expiring twelve hours after the write. *)
Definition pipeline_item (c : Pipeline.Collaborators) (sv : Dedup.Services)
    (event : Pipeline.Event) (key h : string) (extracted : pystr)
  : Dedup.CacheItem :=
  {| Dedup.item_file_hash := h;
     Dedup.extracted_text :=
       Pii.text (Pii.apply_pii_redaction_to_text
                   (Pipeline.detect_pii_entities c) extracted);
     Dedup.original_filename :=
       default (Pipeline.basename key) (Pipeline.resume_filename event);
     Dedup.ttl := (Dedup.now sv + 43200)%Z |}.

(** The bucket the analysis-only path resolves for its reports: the
    event's, else the environment's, else the placeholder name. *)
Definition analysis_reports_bucket (c : Pipeline.Collaborators)
    (event : Pipeline.Event) : string :=
  default (default "ats-buddy-reports"%string (Pipeline.REPORTS_BUCKET c))
          (Pipeline.reports_bucket event).

(** A bucket name that stands for local execution. *)
Definition local_bucket (bucket : string) : Prop :=
  bucket = EmptyString \/ bucket = "ats-buddy-reports"%string
  \/ String.prefix "local-" bucket = true.

(** What the parser's loop over the parts maintains about the fields
    collected so far. *)
Definition collected (st : Multipart.Fields) : Prop :=
  (forall pdf, Multipart.pdf_content st = Some pdf -> ends_clean pdf)
  /\ (forall jd, Multipart.job_description st = Some jd -> trimmed jd)
  /\ (Multipart.original_filename st = str "unknown.pdf"
      \/ (Multipart.original_filename st <> [] /\ dquote ∉ Multipart.original_filename st)).

(** The first record of the event names a bucket and a key: [Records] is
    a list, its first element an object, and the path through [s3] to
    [bucket]/[name] and to [object]/[key] exists. *)
Definition first_record_names (event : gmap string JSON)
    (bucket_name s3_key : JSON) : Prop :=
  exists rest record s3 bucket object,
    event !! "Records"%string = Some (JList (JDict record :: rest))
    /\ record !! "s3"%string = Some (JDict s3)
    /\ s3 !! "bucket"%string = Some (JDict bucket)
    /\ bucket !! "name"%string = Some bucket_name
    /\ s3 !! "object"%string = Some (JDict object)
    /\ object !! "key"%string = Some s3_key.

(** The fixed error texts of the analysis engine. *)
Definition engine_errors : list string :=
  [ "Resume text is empty or invalid";
    "Job description is empty or invalid";
    "Invalid response format from AI model";
    "Access denied to Bedrock service. Check IAM permissions.";
    "Invalid request parameters for AI analysis.";
    "AI model is not available. Please try again later.";
    "Analysis service is busy. Please try again later.";
    "Analysis service unavailable due to service error.";
    "Analysis service unavailable due to connection error.";
    "Analysis failed due to unexpected error.";
    "No valid JSON found in AI response";
    "Invalid JSON format in AI response";
    "Failed to parse AI analysis response" ]%string.

(** The collaborators with another analysis engine. *)
Definition with_engine (c : Pipeline.Collaborators)
    (engine : pystr -> pystr -> Pipeline.Analysis) : Pipeline.Collaborators :=
  {| Pipeline.extract_text_from_s3_pdf := Pipeline.extract_text_from_s3_pdf c;
     Pipeline.detect_pii_entities := Pipeline.detect_pii_entities c;
     Pipeline.analyze_resume_vs_job_description := engine;
     Pipeline.create_complete_report_package :=
       Pipeline.create_complete_report_package c;
     Pipeline.REPORTS_BUCKET := Pipeline.REPORTS_BUCKET c |}.

(** The shape of a repaired analysis: the four required entries with
    their types and the two optional ones. *)
Definition analysis_shape (data : gmap string JSON) : Prop :=
  (exists l, data !! "missing_keywords"%string = Some (JList l))
  /\ (exists skills, data !! "missing_skills"%string = Some (JDict skills))
  /\ is_Some (data !! "strengths"%string)
  /\ is_Some (data !! "areas_for_improvement"%string).

(** The extraction client in an environment with another PII access
    point. *)
Definition with_access_point (cl : TextractClient.Client)
    (point : option string) : TextractClient.Client :=
  {| TextractClient.pii_access_point := point;
     TextractClient.head_object := TextractClient.head_object cl;
     TextractClient.detect_document_text :=
       TextractClient.detect_document_text cl;
     TextractClient.text_detection := TextractClient.text_detection cl;
     TextractClient.get_detailed_file_info :=
       TextractClient.get_detailed_file_info cl;
     TextractClient.format_float := TextractClient.format_float cl |}.

(** The result reports the file's size and type: the error of the branch
    that inspects the file. *)
Definition inspects_file (result : Textract.Result) : bool :=
  match result with
  | Textract.Failed error _ =>
      String.prefix "Textract cannot process this PDF format." error
  | Textract.Extracted _ => false
  end.

(** The error texts of a failed report package. *)
Definition package_errors : list string :=
  [ "Failed to generate analysis report";
    "Failed to store reports in S3";
    "Failed to generate download URLs" ]%string.

(** The key under which a report of the given format and identifier is
    stored. *)
Definition report_key (w : ReportGenerator.World) (format report_id : string)
  : string :=
  ReportGenerator.s3_key_for (ReportGenerator.strftime_now w format)
    (if String.eqb report_id EmptyString
     then ReportGenerator.uuid4 w format else report_id)
    (if String.eqb format "markdown" then "md" else "html").

(** The web services with another report generator, and with another
    upload, extraction and PII detection. *)
Definition with_web_reports (sv : Web.Services)
    (generator : gmap string JSON -> option string -> pystr -> string
                 -> Pipeline.Report) : Web.Services :=
  {| Web.clients_available := Web.clients_available sv;
     Web.RESUMES_BUCKET := Web.RESUMES_BUCKET sv;
     Web.REPORTS_BUCKET := Web.REPORTS_BUCKET sv;
     Web.upload_file_content := Web.upload_file_content sv;
     Web.extract_text_from_s3_pdf := Web.extract_text_from_s3_pdf sv;
     Web.detect_pii_entities := Web.detect_pii_entities sv;
     Web.analyze_resume_vs_job_description :=
       Web.analyze_resume_vs_job_description sv;
     Web.create_complete_report_package := generator |}.

Definition with_web_extraction (sv : Web.Services)
    (bucket : option string)
    (upload : option string -> pystr -> bytes -> Web.Upload)
    (extractor : option string -> pystr -> Pipeline.Extraction)
    (detector : pystr -> option (list Pii.Entity)) : Web.Services :=
  {| Web.clients_available := Web.clients_available sv;
     Web.RESUMES_BUCKET := bucket;
     Web.REPORTS_BUCKET := Web.REPORTS_BUCKET sv;
     Web.upload_file_content := upload;
     Web.extract_text_from_s3_pdf := extractor;
     Web.detect_pii_entities := detector;
     Web.analyze_resume_vs_job_description :=
       Web.analyze_resume_vs_job_description sv;
     Web.create_complete_report_package :=
       Web.create_complete_report_package sv |}.

(** A web response with the report links taken out. *)
Definition without_reports (r : Web.Response) : Web.Response :=
  match Web.body r with
  | Web.Analysis d =>
      {| Web.statusCode := Web.statusCode r;
         Web.body := Web.Analysis
           {| Web.sessionId := Web.sessionId d;
              Web.resumeFilename := Web.resumeFilename d;
              Web.compatibilityScore := Web.compatibilityScore d;
              Web.missingKeywords := Web.missingKeywords d;
              Web.missingSkills_technical := Web.missingSkills_technical d;
              Web.missingSkills_soft := Web.missingSkills_soft d;
              Web.suggestions := Web.suggestions d;
              Web.strengths := Web.strengths d;
              Web.deduplicationStatus := Web.deduplicationStatus d;
              Web.deduplication := Web.deduplication d;
              Web.analysis := Web.analysis d;
              Web.enhancementAvailable := Web.enhancementAvailable d;
              Web.originalResumeText := Web.originalResumeText d;
              Web.reports := None |} |}
  | _ => r
  end.

(** A report generator that returns a result on every request. *)
Definition returns (generator : gmap string JSON -> option string -> pystr
                                -> string -> Pipeline.Report) : Prop :=
  forall analysis_data bucket filename title what,
    generator analysis_data bucket filename title <> Pipeline.ReportRaised what.


(** The characters of a boundary (RFC 2046, the space apart): digits,
    letters and the punctuation [' ( ) + _ , - . / : = ?]. *)
Definition boundary_char (c : N) : bool :=
  ((48 <=? c) && (c <=? 57) || (65 <=? c) && (c <=? 90)
   || (97 <=? c) && (c <=? 122))%N
  || one_of (str "'()+_,-./:=?") c.

(** The delimiter line of a boundary: two hyphens and the boundary. *)
Definition delimiter_of (boundary : pystr) : bytes :=
  b "--" ++ map byte_of_N boundary.

(** The two parts in the order of the request. *)
Definition in_order (file_first : bool) (file_part text_part : bytes)
  : list bytes :=
  if file_first then [file_part; text_part] else [text_part; file_part].

(** A well-formed upload of the file [file] under the name [filename]
    with the text [text]: the Content-Type header declares a boundary;
    the body, sent as text or base64, holds a file part and a text part
    in either order, each after the delimiter line, and the closing
    delimiter line; the file name is not empty and has no quote and no
    line break; the delimiter line occurs in none of the file name, the
    file and the text. *)
Definition well_formed_upload (event : Multipart.ApiEvent) (filename : pystr)
    (file text : bytes) : Prop :=
  exists (boundary : pystr) (file_field : MultipartRequest.FileField)
         (text_field : MultipartRequest.TextField) (filename_bytes : bytes)
         (file_first : bool),
    Multipart.content_type_of (Multipart.headers event)
    = MultipartRequest.content_type_for boundary
    /\ boundary <> [] /\ forallb boundary_char boundary = true
    /\ Multipart.body_bytes (Multipart.body event)
       = Some (MultipartRequest.body_of (delimiter_of boundary)
                 (in_order file_first
                    (MultipartRequest.part (MultipartRequest.file_headers file_field filename_bytes) file)
                    (MultipartRequest.part (MultipartRequest.text_headers text_field) text)))
    /\ filename <> []
    /\ Forall (fun c => c <> dquote /\ c <> 13%N /\ c <> 10%N) filename
    /\ utf8_encode filename = Some filename_bytes
    /\ contains (delimiter_of boundary) filename_bytes = false
    /\ contains (delimiter_of boundary) file = false
    /\ contains (delimiter_of boundary) text = false.

(** The code points that [rstrip(b"\r\n--")] removes from the end of an
    encoded text: CR, LF and the hyphen. *)
Definition trailer_point (c : N) : bool := one_of [13; 10; 45]%N c.

(** The entry of the analysis under [key] is the list [l]; an absent
    entry counts as the empty list. *)
Definition listed (data : gmap string JSON) (key : string) (l : list JSON)
  : Prop :=
  data !! key = Some (JList l) \/ (data !! key = None /\ l = []).

(** The report generator of the web services fails on every request: it
    returns a failure or raises. *)
Definition web_reports_fail (sv : Web.Services) : Prop :=
  forall analysis_data bucket filename title package,
    Web.create_complete_report_package sv analysis_data bucket filename title
    <> Pipeline.ReportOk package.

(** A report generator that raises on every request. *)
Definition raises (generator : gmap string JSON -> option string -> pystr
                               -> string -> Pipeline.Report) : Prop :=
  forall analysis_data bucket filename title,
    exists what,
      generator analysis_data bucket filename title = Pipeline.ReportRaised what.

(** The response shows the analysis: its score, missing keywords,
    suggestions and strengths are those of an analysis the engine
    returned. *)
Definition shows_analysis (sv : Web.Services) (data : Web.Analysed) : Prop :=
  exists text jd analysis,
    Web.analyze_resume_vs_job_description sv text jd
      = Pipeline.AnalysisOk analysis
    /\ analysis !! "compatibility_score"%string
       = Some (Web.compatibilityScore data)
    /\ Web.missingKeywords data
       = default (JList []) (analysis !! "missing_keywords"%string)
    /\ Web.suggestions data
       = default (JList []) (analysis !! "suggestions"%string)
    /\ Web.strengths data
       = default (JList []) (analysis !! "strengths"%string).

End Spec.

(** ** Sample inputs

    Concrete services and requests at which the properties below are
    instantiated. *)
Module Samples.
Import Py.

(** A Textract job that never leaves the running state. *)
Definition stuck_job : Textract.Service :=
  {| Textract.start_document_text_detection := inr "job-1"%string;
     Textract.get_document_text_detection :=
       fun _ => Textract.Status "IN_PROGRESS" None;
     Textract.result_pages := [] |}.

(** Minimal events of the four shapes. *)
Definition minimal_complete_pipeline : gmap string JSON :=
  {[ "bucket_name"%string := JStr (str "resumes");
     "s3_key"%string := JStr (str "cv.pdf");
     "job_description"%string := JStr (str "Engineer") ]}.

Definition minimal_s3_upload : gmap string JSON :=
  {[ "Records"%string := JList [JDict ∅] ]}.

Definition minimal_direct_extraction : gmap string JSON :=
  {[ "bucket_name"%string := JStr (str "resumes");
     "s3_key"%string := JStr (str "cv.pdf") ]}.

Definition minimal_analysis_only : gmap string JSON :=
  {[ "resume_text"%string := JStr (str "Python developer");
     "job_description"%string := JStr (str "Engineer") ]}.

(** An event that matches every shape at once. *)
Definition overlapping_event : gmap string JSON :=
  <[ "Records"%string := JList [JDict ∅] ]>
    (<[ "resume_text"%string := JStr (str "Python developer") ]>
       minimal_complete_pipeline).

(** A model response whose object has a score above the range and a
    single suggestion, with the runtime functions that read it. *)
Definition raw_analysis : gmap string JSON :=
  {[ "missing_keywords"%string := JList [JStr (str "AWS")];
     "missing_skills"%string := JDict ∅;
     "suggestions"%string := JList [JStr (str "Mention AWS projects")];
     "compatibility_score"%string := JInt 150 ]}.

Definition loads_raw_analysis (text : pystr) : Bedrock.Loads :=
  Bedrock.Loaded raw_analysis.

Definition exact_float_of_int (z : Z) : option pyfloat :=
  Some (FFin (inject_Z z)).

Definition no_float_of_str (s : pystr) : option pyfloat := None.

Definition model_reply : pystr := str "Here is the analysis: {...} Done.".

(** A text with a phone-number-like span of twenty characters at offset
    7, and a detector that reports it. *)
Definition contact_line : pystr :=
  str "Phone: +1 (555) 0100-999-42, available on weekdays".

Definition phone_entity : Pii.Entity :=
  {| Pii.Score := 99 # 100; Pii.BeginOffset := 7; Pii.EndOffset := 27;
     Pii.Type_ := "PHONE" |}.

Definition detect_phone (submitted : pystr) : option (list Pii.Entity) :=
  Some [phone_entity].

(** A detector that reports two nested spans of a forty-character text. *)
Definition digits40 : pystr :=
  str "0123456789012345678901234567890123456789".

Definition outer_entity : Pii.Entity :=
  {| Pii.Score := 99 # 100; Pii.BeginOffset := 0; Pii.EndOffset := 30;
     Pii.Type_ := "ADDRESS" |}.

Definition inner_entity : Pii.Entity :=
  {| Pii.Score := 99 # 100; Pii.BeginOffset := 10; Pii.EndOffset := 25;
     Pii.Type_ := "NAME" |}.

Definition detect_nested (submitted : pystr) : option (list Pii.Entity) :=
  Some [outer_entity; inner_entity].

(** An analysis as the analysis engine returns it after repair. *)
Definition repaired_analysis : gmap string JSON :=
  {[ "missing_keywords"%string := JList [JStr (str "AWS")];
     "missing_skills"%string := JDict ∅;
     "suggestions"%string :=
       JList [JStr (str "Mention AWS projects");
              JStr (str "Quantify your achievements");
              JStr (str "Tailor your skills section")];
     "compatibility_score"%string := JInt 72;
     "strengths"%string := JList [JStr (str "Python")];
     "areas_for_improvement"%string := JList [] ]}.

Definition sample_package : Pipeline.Package :=
  {| Pipeline.report_id := "r-1";
     Pipeline.timestamp := "2025-01-01T00:00:00";
     Pipeline.package_metadata := JDict ∅;
     Pipeline.markdown :=
       {| Pipeline.s3_key_of := "reports/r-1.md";
          Pipeline.download_url := "https://example.test/r-1.md";
          Pipeline.expires_at := "2025-01-01T01:00:00" |};
     Pipeline.html :=
       {| Pipeline.s3_key_of := "reports/r-1.html";
          Pipeline.download_url := "https://example.test/r-1.html";
          Pipeline.expires_at := "2025-01-01T01:00:00" |} |}.

Definition resume_words : pystr :=
  str "Python developer with five years of backend experience".

(** Collaborators that extract, analyse and store reports without
    failure, and the same with report storage failing. *)
Definition working : Pipeline.Collaborators :=
  {| Pipeline.extract_text_from_s3_pdf := fun _ _ => Pipeline.ExtractOk resume_words;
     Pipeline.detect_pii_entities := fun _ => Some [];
     Pipeline.analyze_resume_vs_job_description :=
       fun _ _ => Pipeline.AnalysisOk repaired_analysis;
     Pipeline.create_complete_report_package :=
       fun _ _ _ _ => Pipeline.ReportOk sample_package;
     Pipeline.REPORTS_BUCKET := Some "ats-reports-prod"%string |}.

Definition storage_down : Pipeline.Collaborators :=
  Spec.with_report_generator working
    (fun _ _ _ _ => Pipeline.ReportFailed "Failed to store reports in S3").

Definition analysis_event : Pipeline.Event :=
  {| Pipeline.bucket_name := None; Pipeline.s3_key := None;
     Pipeline.job_description := Some (str "Backend engineer, Python and AWS");
     Pipeline.resume_text := Some resume_words;
     Pipeline.reports_bucket := None; Pipeline.resume_filename := None;
     Pipeline.job_title := None |}.

Definition pipeline_event : Pipeline.Event :=
  {| Pipeline.bucket_name := Some "resumes"%string;
     Pipeline.s3_key := Some "uploads/cv.pdf"%string;
     Pipeline.job_description := Some (str "Backend engineer, Python and AWS");
     Pipeline.resume_text := None;
     Pipeline.reports_bucket := None; Pipeline.resume_filename := None;
     Pipeline.job_title := None |}.

(** A healthy deduplication layer over a one-object store, with a
    stand-in digest, and the same layer with each of its operations
    failing. *)
Definition cv_bytes : bytes := b "%PDF-1.4 sample".

Definition healthy : Dedup.Services :=
  {| Dedup.get_object := fun _ _ => Some cv_bytes;
     Dedup.sha256_hexdigest := fun content => "9f86d081884c7d65"%string;
     Dedup.now := 1700000000;
     Dedup.get_item_raises := false;
     Dedup.put_item_raises := false |}.

Definition broken : Dedup.Services :=
  {| Dedup.get_object := fun _ _ => None;
     Dedup.sha256_hexdigest := fun content => "9f86d081884c7d65"%string;
     Dedup.now := 1700000000;
     Dedup.get_item_raises := true;
     Dedup.put_item_raises := true |}.

(** A small file, a job description of sixty characters and its
    encoding, and the same description with a trailing space. *)
Definition pdf_sample : bytes := b "%PDF-1.4 sample".

Definition description : pystr :=
  str "Backend engineer with Python, AWS and five years experience.".

Definition description_bytes : bytes :=
  b "Backend engineer with Python, AWS and five years experience.".

Definition padded_description : pystr := description ++ [32%N].
Definition padded_bytes : bytes := description_bytes ++ [" "%byte].

(** A file whose last byte is a line feed, as a PDF's usually is. *)
Definition pdf_with_newline : bytes := b "%PDF-1.4 %%EOF" ++ [LF].

(** A request of another media type. *)
Definition json_event : Multipart.ApiEvent :=
  {| Multipart.headers := {[ "content-type"%string := str "application/json" ]};
     Multipart.body := Multipart.BodyBase64 None |}.

(** The request of the repository's parsing test: the body sent as
    text, not base64. *)
Definition test_pdf : bytes :=
  b "%PDF-1.4 fake pdf content for testing with enough content to pass validation".

Definition test_description : string :=
  "Software Engineer position requiring Python, AWS, and machine learning experience. Must have 3+ years of experience in backend development and strong problem-solving skills.".

Definition test_event : Multipart.ApiEvent :=
  {| Multipart.headers :=
       {[ "content-type"%string := MultipartRequest.content_type_header ]};
     Multipart.body :=
       Multipart.BodyText
         (map Byte.to_N
            (MultipartRequest.multipart_body (b MultipartRequest.boundary)
               (b "test.pdf") test_pdf (b test_description))) |}.

(** Text parts that strip to nine characters and to nothing. *)
Definition short_text : bytes := b "Short job".
Definition blank_text : bytes := b "   ".

(** A cache that already holds the sample file. *)
Definition cached_cv : Dedup.CacheItem :=
  {| Dedup.item_file_hash := "9f86d081884c7d65";
     Dedup.extracted_text := resume_words;
     Dedup.original_filename := "cv.pdf";
     Dedup.ttl := 1700043200 |}.

Definition warm_table : gmap string Dedup.CacheItem :=
  {[ "9f86d081884c7d65"%string := cached_cv ]}.

(** An extractor that always fails. *)
Definition no_extraction (bucket key : string) : Pipeline.Extraction :=
  Pipeline.ExtractFailed "File not found in S3.".

(** A report generator that raises. *)
Definition raising_generator (analysis : gmap string JSON)
    (bucket filename title : string) : Pipeline.Report :=
  Pipeline.ReportRaised "connection reset".

(** The working collaborators in an environment without a reports
    bucket. *)
Definition offline : Pipeline.Collaborators :=
  {| Pipeline.extract_text_from_s3_pdf :=
       Pipeline.extract_text_from_s3_pdf working;
     Pipeline.detect_pii_entities := Pipeline.detect_pii_entities working;
     Pipeline.analyze_resume_vs_job_description :=
       Pipeline.analyze_resume_vs_job_description working;
     Pipeline.create_complete_report_package :=
       Pipeline.create_complete_report_package working;
     Pipeline.REPORTS_BUCKET := None |}.

(** A detector that reports the phone number with a confidence of 0.6,
    between the two thresholds. *)
Definition unsure_entity : Pii.Entity :=
  {| Pii.Score := 6 # 10; Pii.BeginOffset := 7; Pii.EndOffset := 27;
     Pii.Type_ := "PHONE" |}.

Definition detect_unsure (submitted : pystr) : option (list Pii.Entity) :=
  Some [unsure_entity].

(** A two-page extraction result, and a job that succeeds at the third
    poll. *)
Definition first_page : Textract.Page :=
  {| Textract.Blocks :=
       [ {| Textract.BlockType := "PAGE"; Textract.Text := [] |};
         {| Textract.BlockType := "LINE"; Textract.Text := str "Jane Doe" |};
         {| Textract.BlockType := "WORD"; Textract.Text := str "Jane" |} ];
     Textract.NextToken := Some "t-1"%string |}.

Definition last_page : Textract.Page :=
  {| Textract.Blocks :=
       [ {| Textract.BlockType := "LINE";
            Textract.Text := str "Python developer" |} ];
     Textract.NextToken := None |}.

Definition slow_job : Textract.Service :=
  {| Textract.start_document_text_detection := inr "job-2"%string;
     Textract.get_document_text_detection :=
       fun k => if (k <? 2)%nat then Textract.Status "IN_PROGRESS" None
                else Textract.Status "SUCCEEDED" None;
     Textract.result_pages := [Some first_page; Some last_page] |}.

(** An S3 notification with two records. *)
Definition notified_s3 : gmap string JSON :=
  {[ "bucket"%string := JDict {[ "name"%string := JStr (str "resumes") ]};
     "object"%string :=
       JDict {[ "key"%string := JStr (str "uploads/cv.pdf") ]} ]}.

Definition notified_record : gmap string JSON :=
  {[ "eventName"%string := JStr (str "ObjectCreated:Put");
     "s3"%string := JDict notified_s3 ]}.

Definition upload_notification : gmap string JSON :=
  {[ "Records"%string := JList [JDict notified_record; JDict ∅] ]}.

(** A response body of the model in the format of the Nova models, and
    a model that always returns it. *)
Definition nova_reply : JSON :=
  JDict {[ "output"%string :=
    JDict {[ "message"%string :=
      JDict {[ "role"%string := JStr (str "assistant");
               "content"%string :=
                 JList [JDict {[ "text"%string := JStr model_reply ]}] ]} ]} ]}.

Definition nova (resume_text job_description : pystr) : BedrockClient.Invoked :=
  BedrockClient.Replied nova_reply.

(** A model that is throttled. *)
Definition throttled (resume_text job_description : pystr)
  : BedrockClient.Invoked :=
  BedrockClient.ClientError "ThrottlingException".

(** The analysis engine over the replying model. *)
Definition nova_engine : pystr -> pystr -> Pipeline.Analysis :=
  BedrockClient.analyze_resume_vs_job_description nova loads_raw_analysis
    exact_float_of_int no_float_of_str.

(** An extraction client whose synchronous API rejects the document as
    multi-page and whose asynchronous job succeeds at the third poll. *)
Definition multi_page : TextractClient.Client :=
  {| TextractClient.pii_access_point := Some "pii-access-point"%string;
     TextractClient.head_object := fun _ _ => None;
     TextractClient.detect_document_text :=
       fun _ _ => inl (TextractClient.ClientError
                         "UnsupportedDocumentException" "multi-page document");
     TextractClient.text_detection := fun _ _ => slow_job;
     TextractClient.get_detailed_file_info :=
       fun _ _ => TextractClient.NoInfo;
     TextractClient.format_float := fun _ => "0.0"%string |}.

(** A report generator's environment in which the HTML document cannot
    be stored. *)
Definition rendered : ReportGenerator.Generated :=
  {| ReportGenerator.report_id := "r-1";
     ReportGenerator.timestamp := "2025-01-01T00:00:00";
     ReportGenerator.markdown_content := str "# ATS Buddy report";
     ReportGenerator.html_content := str "<h1>ATS Buddy report</h1>";
     ReportGenerator.metadata := JDict ∅ |}.

Definition html_denied : ReportGenerator.World :=
  {| ReportGenerator.generate_report := fun _ _ _ => Some rendered;
     ReportGenerator.uuid4 := fun _ => "u-1"%string;
     ReportGenerator.strftime_now := fun _ => "20250101_000000"%string;
     ReportGenerator.isoformat_now := fun _ => "2025-01-01T00:00:00"%string;
     ReportGenerator.put_object_raises :=
       fun _ key =>
         if String.eqb key "reports/20250101_000000_r-1.html"
         then Some (ReportGenerator.PutClientError "AccessDenied") else None;
     ReportGenerator.generate_presigned_url :=
       fun _ key => Some ("https://example.test/" +:+ key)%string;
     ReportGenerator.expires_at_now := fun _ => "1735693200.0"%string |}.

(** The same environment with a bucket that accepts both documents. *)
Definition storing : ReportGenerator.World :=
  {| ReportGenerator.generate_report := fun _ _ _ => Some rendered;
     ReportGenerator.uuid4 := fun _ => "u-1"%string;
     ReportGenerator.strftime_now := fun _ => "20250101_000000"%string;
     ReportGenerator.isoformat_now := fun _ => "2025-01-01T00:00:00"%string;
     ReportGenerator.put_object_raises := fun _ _ => None;
     ReportGenerator.generate_presigned_url :=
       fun _ key => Some ("https://example.test/" +:+ key)%string;
     ReportGenerator.expires_at_now := fun _ => "1735693200.0"%string |}.

(** Web services that upload, extract, analyse and store reports
    without failure. *)
Definition web_working : Web.Services :=
  {| Web.clients_available := true;
     Web.RESUMES_BUCKET := Some "resumes"%string;
     Web.REPORTS_BUCKET := Some "ats-reports-prod"%string;
     Web.upload_file_content := fun _ _ _ => Web.Uploaded;
     Web.extract_text_from_s3_pdf := fun _ _ => Pipeline.ExtractOk resume_words;
     Web.detect_pii_entities := fun _ => Some [];
     Web.analyze_resume_vs_job_description :=
       fun _ _ => Pipeline.AnalysisOk repaired_analysis;
     Web.create_complete_report_package :=
       fun _ _ _ _ => Pipeline.ReportOk sample_package |}.

(** The upload of the sample file with the sample description, and the
    same file sent again under another name with another description. *)
Definition web_event : Multipart.ApiEvent :=
  MultipartRequest.upload_event pdf_sample description_bytes.

Definition web_event_again : Multipart.ApiEvent :=
  {| Multipart.headers :=
       {[ "content-type"%string := MultipartRequest.content_type_header ]};
     Multipart.body :=
       Multipart.BodyBase64
         (Some (MultipartRequest.multipart_body (b MultipartRequest.boundary)
                  (b "copy.pdf") pdf_sample (b test_description))) |}.

Definition web_failing_reports (analysis : gmap string JSON)
    (bucket : option string) (filename : pystr) (title : string)
  : Pipeline.Report :=
  Pipeline.ReportFailed "Failed to store reports in S3".

Definition web_down_upload (bucket : option string) (key : pystr)
    (content : bytes) : Web.Upload :=
  Web.UploadFailed "Failed to upload file: AccessDenied".

(** Extraction clients that extract the sample text, and a CORS
    preflight request of the REST API. *)
Definition extracting : Extraction.Clients :=
  {| Extraction.extract_text_from_s3_pdf :=
       fun _ _ => Some (Pipeline.ExtractOk contact_line);
     Extraction.detect_pii_entities := detect_phone |}.

Definition preflight : gmap string JSON :=
  {[ "httpMethod"%string := JStr (str "OPTIONS");
     "path"%string := JStr (str "/analyze");
     "headers"%string := JDict ∅;
     "bucket_name"%string := JStr (str "resumes");
     "s3_key"%string := JStr (str "cv.pdf");
     "job_description"%string := JStr (str "Engineer") ]}.


(** The same upload as another client sends it: the header under its
    capitalised name, another boundary, the body as text, the text part
    first, the fields under their other names. *)
Definition form_boundary : pystr := str "form-boundary.0123456789".

Definition form_body : bytes :=
  MultipartRequest.body_of (Spec.delimiter_of form_boundary)
    [ MultipartRequest.part (MultipartRequest.text_headers MultipartRequest.field_job_description) description_bytes;
      MultipartRequest.part (MultipartRequest.file_headers MultipartRequest.field_pdf (b "cv-2024.pdf")) pdf_sample ].

Definition form_event : Multipart.ApiEvent :=
  {| Multipart.headers :=
       {[ "Content-Type"%string := MultipartRequest.content_type_for form_boundary ]};
     Multipart.body := Multipart.BodyText (map Byte.to_N form_body) |}.

Definition web_raising_reports (analysis : gmap string JSON)
    (bucket : option string) (filename : pystr) (title : string)
  : Pipeline.Report :=
  Pipeline.ReportRaised "EndpointConnectionError".

(** A text of 5024 characters: an e-mail address at offsets 5 to 25 and
    a phone number at offsets 33 to 50, filler up to offset 5000, and a
    second phone number after it.  The detector reports the two spans
    of the first line when it is given exactly 5000 characters, and
    nothing otherwise. *)
Definition long_resume : pystr :=
  str "Mail jane.doe@example.org, phone +1 (555) 0100-999; "
    ++ repeat 120%N 4948 ++ str "Mobile +1 (555) 0100-888".

Definition email_entity : Pii.Entity :=
  {| Pii.Score := 98 # 100; Pii.BeginOffset := 5; Pii.EndOffset := 25;
     Pii.Type_ := "EMAIL" |}.

Definition first_phone_entity : Pii.Entity :=
  {| Pii.Score := 99 # 100; Pii.BeginOffset := 33; Pii.EndOffset := 50;
     Pii.Type_ := "PHONE" |}.

Definition detect_first_line (submitted : pystr) : option (list Pii.Entity) :=
  if (length submitted =? 5000)%nat
  then Some [email_entity; first_phone_entity] else Some [].

End Samples.

(** * Properties *)

(** ** Bounded extraction polling *)
Section Polling.
Import Textract Spec.

Lemma poll_loop_unfold (sv : Service) (fuel : nat) (elapsed_time : Z) (k : nat) :
  poll_loop sv (S fuel) elapsed_time k =
  if (elapsed_time <? 300)%Z then
    let finish result :=
      Some {| outcome := result; slept := elapsed_time + 5; polled := S k |} in
    match get_document_text_detection sv k with
    | PollRaised e => finish (handle_error e)
    | Status job_status status_message =>
        if String.eqb job_status "SUCCEEDED" then
          if bool_decide (Py.strip Py.unicode_space
                            (_parse_async_textract_response sv) = [])
          then finish (Failed no_text None)
          else finish (Extracted (_parse_async_textract_response sv))
        else if String.eqb job_status "FAILED" then
          finish (Failed ("Textract job failed: "
                            +:+ default "Unknown error"%string status_message)
                         None)
        else if String.eqb job_status "IN_PROGRESS"
                || String.eqb job_status "PARTIAL_SUCCESS" then
          poll_loop sv fuel (elapsed_time + 5) (S k)
        else finish (Failed ("Unexpected job status: " +:+ job_status) None)
    end
  else Some {| outcome := Failed timed_out None; slept := elapsed_time;
               polled := k |}.
Proof. reflexivity. Qed.

Lemma poll_loop_total (sv : Service) (n : nat) :
  forall k : nat,
    (n + k = poll_budget)%nat ->
    exists run,
      (forall fuel, (n <= fuel)%nat ->
         poll_loop sv fuel (poll_interval * Z.of_nat k) k = Some run) /\
      well_timed k run /\
      ((forall j, (k <= j < poll_budget)%nat ->
          in_progress (get_document_text_detection sv j)) ->
       outcome run = Failed timed_out None /\ slept run = max_wait_time).
Proof.
  unfold well_timed, poll_budget, max_wait_time, poll_interval.
  change (Z.to_nat (300 / 5)) with 60%nat.
  induction n as [|n IH]; intros k Hk.
  - exists {| outcome := Failed timed_out None; slept := 5 * Z.of_nat k;
              polled := k |}.
    simpl in Hk. subst k. split; [|split].
    + intros fuel _. destruct fuel; reflexivity.
    + simpl. repeat split; lia.
    + intros _. simpl. split; reflexivity.
  - assert (Hlt : (5 * Z.of_nat k <? 300)%Z = true) by (apply Z.ltb_lt; lia).
    assert (Hnext : (5 * Z.of_nat k + 5 = 5 * Z.of_nat (S k))%Z) by lia.
    destruct (IH (S k)) as (run & Hrun & Hwt & Hto); [lia|].
    set (finish := fun r => {| outcome := r; slept := 5 * Z.of_nat (S k);
                               polled := S k |}).
    assert (Hfin : forall r,
      (S k <= 60)%nat ->
      (k <= polled (finish r))%nat /\ (polled (finish r) <= 60)%nat /\
      slept (finish r) = (5 * Z.of_nat (polled (finish r)))%Z /\
      (slept (finish r) <= 300)%Z).
    { intros r Hle. simpl. repeat split; lia. }
    assert (Hstop : forall r,
      (forall fuel, (S n <= fuel)%nat ->
         poll_loop sv fuel (5 * Z.of_nat k) k = Some (finish r)) ->
      (forall m, get_document_text_detection sv k <> Status "IN_PROGRESS" m) ->
      (forall m, get_document_text_detection sv k <> Status "PARTIAL_SUCCESS" m) ->
      exists run0,
        (forall fuel, (S n <= fuel)%nat ->
           poll_loop sv fuel (5 * Z.of_nat k) k = Some run0) /\
        ((k <= polled run0)%nat /\ (polled run0 <= 60)%nat /\
         slept run0 = (5 * Z.of_nat (polled run0))%Z /\ (slept run0 <= 300)%Z) /\
        ((forall j, (k <= j < 60)%nat ->
            in_progress (get_document_text_detection sv j)) ->
         outcome run0 = Failed timed_out None /\ slept run0 = 300%Z)).
    { intros r Hr Hn1 Hn2. exists (finish r). split; [exact Hr|].
      split; [apply Hfin; lia|].
      intros Hall. destruct (Hall k) as [m [Hm|Hm]]; [lia| |].
      - exfalso. exact (Hn1 m Hm).
      - exfalso. exact (Hn2 m Hm). }
    destruct (get_document_text_detection sv k) as [js msg|e] eqn:Hget.
    + destruct (String.eqb js "SUCCEEDED") eqn:E1.
      { apply String.eqb_eq in E1. subst js.
        destruct (bool_decide (Py.strip Py.unicode_space
                                 (_parse_async_textract_response sv) = [])) eqn:Es.
        - apply (Hstop (Failed no_text None)); [|discriminate|discriminate].
          intros [|fuel] Hf; [lia|]. rewrite poll_loop_unfold, Hlt, Hget. cbv zeta. rewrite ?String.eqb_refl. cbn [String.eqb Ascii.eqb Bool.eqb].
          rewrite Es. unfold finish. rewrite Hnext. reflexivity.
        - apply (Hstop (Extracted (_parse_async_textract_response sv)));
            [|discriminate|discriminate].
          intros [|fuel] Hf; [lia|]. rewrite poll_loop_unfold, Hlt, Hget. cbv zeta. rewrite ?String.eqb_refl. cbn [String.eqb Ascii.eqb Bool.eqb].
          rewrite Es. unfold finish. rewrite Hnext. reflexivity. }
      destruct (String.eqb js "FAILED") eqn:E2.
      { apply String.eqb_eq in E2. subst js.
        apply (Hstop (Failed ("Textract job failed: "
                        +:+ default "Unknown error"%string msg) None));
          [|discriminate|discriminate].
        intros [|fuel] Hf; [lia|]. rewrite poll_loop_unfold, Hlt, Hget. cbv zeta. rewrite ?String.eqb_refl. cbn [String.eqb Ascii.eqb Bool.eqb].
        unfold finish. rewrite Hnext. reflexivity. }
      destruct (String.eqb js "IN_PROGRESS" || String.eqb js "PARTIAL_SUCCESS")
        eqn:E3.
      { exists run. split; [|split].
        - intros [|fuel] Hf; [lia|]. rewrite poll_loop_unfold, Hlt, Hget, E1, E2, E3. cbv zeta.
          rewrite Hnext. apply Hrun. lia.
        - destruct Hwt as (H1 & H2 & H3 & H4). repeat split; try assumption; lia.
        - intros Hall. apply Hto. intros j Hj. apply Hall. lia. }
      apply (Hstop (Failed ("Unexpected job status: " +:+ js) None)).
      * intros [|fuel] Hf; [lia|]. rewrite poll_loop_unfold, Hlt, Hget, E1, E2, E3. cbv zeta.
        unfold finish. rewrite Hnext. reflexivity.
      * intros m Hm. inversion Hm; subst. simpl in E3. discriminate.
      * intros m Hm. inversion Hm; subst. simpl in E3. discriminate.
    + apply (Hstop (handle_error e)).
      * intros [|fuel] Hf; [lia|]. rewrite poll_loop_unfold, Hlt, Hget. cbv zeta.
        unfold finish. rewrite Hnext. reflexivity.
      * discriminate.
      * discriminate.
Qed.

(** C9.  The asynchronous extraction call always returns: sixty
    iterations of fuel are enough and more fuel changes nothing.  Every
    status poll is preceded by one five-second sleep, at most sixty polls
    are made and at most 300 seconds are slept in total.  When the job is
    started and every poll up to the ceiling reports a job still running,
    the call returns the time-out error after exactly 300 seconds. *)
Theorem extract_text_async_bounded (sv : Service) :
  exists run,
    _extract_text_async sv = Some run /\
    (forall fuel, (60 <= fuel)%nat -> extract_text_async_fuel sv fuel = Some run) /\
    (polled run <= 60)%nat /\
    slept run = (5 * Z.of_nat (polled run))%Z /\
    (slept run <= 300)%Z /\
    (forall job_id,
       start_document_text_detection sv = inr job_id ->
       (forall j, (j < 60)%nat -> in_progress (get_document_text_detection sv j)) ->
       outcome run = Failed timed_out None /\ slept run = 300%Z).
Proof.
  unfold _extract_text_async, extract_text_async_fuel.
  destruct (start_document_text_detection sv) as [e|job] eqn:Hstart.
  - exists {| outcome := handle_error e; slept := 0; polled := 0 |}.
    simpl. repeat split; try lia; try reflexivity; intros; discriminate.
  - destruct (poll_loop_total sv poll_budget 0) as (run & Hrun & Hwt & Hto);
      [apply Nat.add_0_r|].
    destruct Hwt as (_ & H2 & H3 & H4).
    change (poll_interval * Z.of_nat 0)%Z with 0%Z in Hrun.
    exists run. split; [apply Hrun; lia|]. split; [exact Hrun|].
    split; [exact H2|]. split; [exact H3|]. split; [exact H4|].
    intros job_id _ Hall. apply Hto. intros j Hj. apply Hall.
    change poll_budget with 60%nat in Hj. lia.
Qed.

Lemma extract_text_async_bounded_witness :
  exists run,
    _extract_text_async Samples.stuck_job = Some run /\
    outcome run = Failed timed_out None /\ slept run = 300%Z.
Proof.
  destruct (extract_text_async_bounded Samples.stuck_job)
    as (run & Hrun & _ & _ & _ & _ & Hto).
  exists run. split; [exact Hrun|].
  apply (Hto "job-1"%string); [reflexivity|].
  intros j _. exists None. left. reflexivity.
Defined.

End Polling.

(** ** Shape classification *)
Section Routing.
Import Py Router Spec Samples.

Lemma has_spec key (event : gmap string JSON) :
  has key event = true <-> is_Some (event !! key).
Proof. unfold has. apply bool_decide_eq_true. Qed.

Lemma blank_non_blank (event : gmap string JSON) key :
  blank key event = Some false <-> non_blank event key.
Proof.
  unfold blank, non_blank. split.
  - destruct (event !! key) as [v|] eqn:E; simpl.
    + destruct v; try discriminate.
      intros H. injection H as H. apply bool_decide_eq_false in H. eauto.
    + discriminate.
  - intros (s & E & Hs). rewrite E. simpl. f_equal.
    apply bool_decide_eq_false. exact Hs.
Qed.

Lemma tested_spec shape (event : gmap string JSON) :
  tested shape event = true <-> shape_matches shape event.
Proof.
  destruct shape; simpl; rewrite ?andb_true_iff, ?has_spec.
  - tauto.
  - split.
    + intros [[v Hv] Ht]. rewrite Hv in Ht. eauto.
    + intros (v & Hv & Ht). rewrite Hv. eauto.
  - tauto.
  - tauto.
Qed.

Lemma first_match_tested shape (event : gmap string JSON) :
  first_match shape event <->
  tested shape event = true /\
  forall earlier, (rank earlier < rank shape)%nat -> tested earlier event = false.
Proof.
  unfold first_match. rewrite <- tested_spec. split.
  - intros [H1 H2]. split; [exact H1|]. intros e He.
    apply not_true_is_false. rewrite tested_spec. apply H2, He.
  - intros [H1 H2]. split; [exact H1|]. intros e He.
    rewrite <- tested_spec, (H2 e He). discriminate.
Qed.

Lemma classify_tested (event : gmap string JSON) :
  classify event =
  if tested complete_pipeline event then
    match blank "job_description" event with
    | None => None
    | Some true => Some (Invalid "Job description cannot be empty")
    | Some false => Some (Valid complete_pipeline)
    end
  else if tested s3_upload event then Some (Valid s3_upload)
  else if tested direct_extraction event then Some (Valid direct_extraction)
  else if tested analysis_only event then
    match blank "resume_text" event with
    | None => None
    | Some true => Some (Invalid "Resume text cannot be empty")
    | Some false =>
        match blank "job_description" event with
        | None => None
        | Some true => Some (Invalid "Job description cannot be empty")
        | Some false => Some (Valid analysis_only)
        end
    end
  else Some (Invalid invalid_format).
Proof. reflexivity. Qed.

Lemma validate_input_valid (event : gmap string JSON) (shape : EventType) :
  validate_input event = Valid shape <->
  first_match shape event /\ Forall (non_blank event) (required_text shape).
Proof.
  unfold validate_input. rewrite classify_tested, first_match_tested.
  destruct (tested complete_pipeline event) eqn:T0.
  { destruct (blank "job_description" event) as [[|]|] eqn:Bj.
    all: split; [intros Hv; try discriminate | intros ([H1 H2] & Hf)].
    all: try (injection Hv as <-; split;
              [split; [exact T0|intros [] He; simpl in He; lia]|]).
    all: try (repeat constructor; apply blank_non_blank; assumption).
    all: destruct shape;
      try (specialize (H2 complete_pipeline ltac:(simpl; lia)); congruence).
    all: simpl in Hf; inversion Hf as [|? ? Hnb _]; subst;
      apply blank_non_blank in Hnb; congruence. }
  destruct (tested s3_upload event) eqn:T1.
  { split; [intros Hv | intros ([H1 H2] & Hf)].
    - injection Hv as <-. split; [|constructor].
      split; [exact T1|]. intros [] He; simpl in He; try lia. exact T0.
    - destruct shape; try reflexivity; try congruence.
      all: specialize (H2 s3_upload ltac:(simpl; lia)); congruence. }
  destruct (tested direct_extraction event) eqn:T2.
  { split; [intros Hv | intros ([H1 H2] & Hf)].
    - injection Hv as <-. split; [|constructor].
      split; [exact T2|]. intros [] He; simpl in He; try lia; assumption.
    - destruct shape; try reflexivity; try congruence.
      all: specialize (H2 direct_extraction ltac:(simpl; lia)); congruence. }
  destruct (tested analysis_only event) eqn:T3.
  { destruct (blank "resume_text" event) as [[|]|] eqn:Bt;
      [| destruct (blank "job_description" event) as [[|]|] eqn:Bj |].
    all: split; [intros Hv; try discriminate | intros ([H1 H2] & Hf)].
    all: try (injection Hv as <-; split;
              [split; [exact T3|intros [] He; simpl in He; try lia; assumption]|]).
    all: try (repeat constructor; apply blank_non_blank; assumption).
    all: destruct shape; try congruence.
    all: simpl in Hf; inversion Hf as [|? ? Hnb Hf']; subst;
      try inversion Hf' as [|? ? Hnb' _]; subst;
      try apply blank_non_blank in Hnb; try apply blank_non_blank in Hnb';
      congruence. }
  split; [discriminate|]. intros ([H1 H2] & _). destruct shape; congruence.
Qed.
(** C4.  [validate_input] classifies an event as a shape exactly when
    that shape is the first one, in the order complete pipeline, storage
    event, direct extraction, analysis only, whose fields the event has
    (for the storage event: a [Records] entry that is truthy, as a
    non-empty list is), and the text fields the shape requires are
    strings that are non-empty after trimming.  The minimal event of each
    shape classifies to that shape, and the empty event is invalid with
    the descriptive message. *)
Theorem validate_input_precedence :
  (forall (event : gmap string JSON) (shape : EventType),
     validate_input event = Valid shape <->
     first_match shape event /\ Forall (non_blank event) (required_text shape))
  /\ validate_input minimal_complete_pipeline = Valid complete_pipeline
  /\ validate_input minimal_s3_upload = Valid s3_upload
  /\ validate_input minimal_direct_extraction = Valid direct_extraction
  /\ validate_input minimal_analysis_only = Valid analysis_only
  /\ validate_input ∅ = Invalid invalid_format
  /\ invalid_format <> EmptyString.
Proof.
  split; [exact validate_input_valid|].
  repeat split; try reflexivity. discriminate.
Qed.

Lemma validate_input_precedence_witness :
  validate_input overlapping_event = Valid complete_pipeline.
Proof.
  apply (proj1 validate_input_precedence). split.
  - split.
    + simpl. repeat split; eexists; reflexivity.
    + intros earlier He. destruct earlier; simpl in He; lia.
  - repeat constructor. exists (str "Engineer"). split; [reflexivity|].
    discriminate.
Defined.

End Routing.

(** ** The analysis-result invariant *)
Section AnalysisInvariant.
Import Py Bedrock Spec Samples.

Lemma clamp_score_range (f : pyfloat) : score_in_range (clamp_score f).
Proof.
  unfold clamp_score.
  destruct (float_lt_100 f) eqn:Hlt; [|simpl; lia].
  destruct (float_gt_0 f) eqn:Hgt; [|simpl; lia].
  destruct f as [|negative|q]; simpl in *.
  - discriminate.
  - subst negative. discriminate.
  - apply negb_true_iff in Hlt, Hgt. split.
    + apply Qlt_le_weak, Qnot_le_lt. intros H. apply Qle_bool_iff in H. congruence.
    + apply Qlt_le_weak, Qnot_le_lt. intros H. apply Qle_bool_iff in H. congruence.
Qed.

Lemma ensure_list_other field key (d : gmap string JSON) :
  field <> key -> ensure_list field d !! key = d !! key.
Proof.
  intros Hne. unfold ensure_list.
  destruct (d !! field) as [[]|]; try reflexivity; apply lookup_insert_ne, Hne.
Qed.

Lemma ensure_list_same field (d : gmap string JSON) :
  exists l, ensure_list field d !! field = Some (JList l).
Proof.
  unfold ensure_list.
  destruct (d !! field) as [[]|] eqn:E; eauto using lookup_insert_eq.
  all: exists []; apply lookup_insert_eq.
Qed.

Lemma ensure_skills_other key (d : gmap string JSON) :
  "missing_skills"%string <> key -> ensure_skills d !! key = d !! key.
Proof.
  intros Hne. unfold ensure_skills.
  destruct (d !! "missing_skills"%string) as [[]|]; try reflexivity;
    apply lookup_insert_ne, Hne.
Qed.

Lemma pad_suggestions_length (d : gmap string JSON) l :
  d !! "suggestions"%string = Some (JList l) ->
  exists l', pad_suggestions d !! "suggestions"%string = Some (JList l')
             /\ (3 <= length l')%nat.
Proof.
  intros E. unfold pad_suggestions. rewrite E.
  destruct (length l <? 3) eqn:Hlen.
  - exists (take 3 (l ++ default_suggestions)). split; [apply lookup_insert_eq|].
    rewrite length_take, length_app.
    change (length default_suggestions) with 3. lia.
  - exists l. split; [exact E|]. apply Nat.ltb_ge in Hlen. exact Hlen.
Qed.

Lemma pad_suggestions_other key (d : gmap string JSON) :
  "suggestions"%string <> key -> pad_suggestions d !! key = d !! key.
Proof.
  intros Hne. unfold pad_suggestions.
  destruct (d !! "suggestions"%string) as [[]|]; try reflexivity.
  destruct (_ <? _); [apply lookup_insert_ne, Hne|reflexivity].
Qed.

Lemma set_default_keeps field key (d : gmap string JSON) v :
  d !! key = Some v -> set_default field d !! key = Some v.
Proof.
  intros E. unfold set_default.
  destruct (d !! field) eqn:Ef; [exact E|].
  rewrite lookup_insert_ne; [exact E|]. intros ->. congruence.
Qed.

Lemma repair_invariant float_of_int float_of_str (d data : gmap string JSON) :
  repair float_of_int float_of_str d = ParseOk data -> analysis_invariant data.
Proof.
  unfold repair. destruct (missing_field d); [discriminate|].
  set (d3 := ensure_list "suggestions" _).
  destruct (ensure_list_same "suggestions"
              (ensure_skills (ensure_list "missing_keywords" d))) as [l0 Hl0].
  fold d3 in Hl0.
  destruct (pad_suggestions_length d3 l0 Hl0) as (l & Hl & Hlen).
  set (d4 := pad_suggestions d3) in *.
  intros H.
  assert (Hdata : exists score, score_in_range score /\
            data = set_default "areas_for_improvement"
                     (set_default "strengths"
                        (<["compatibility_score"%string := score]> d4))).
  { destruct (to_float _ _ _) as [f| |]; try discriminate.
    - injection H as <-. exists (clamp_score f). split; [apply clamp_score_range|reflexivity].
    - injection H as <-. exists (JInt 50). split; [simpl; lia|reflexivity]. }
  destruct Hdata as (score & Hrange & ->). split.
  - exists score. split; [|exact Hrange].
    do 2 apply set_default_keeps. apply lookup_insert_eq.
  - exists l. split; [|exact Hlen].
    do 2 apply set_default_keeps. rewrite lookup_insert_ne by discriminate.
    exact Hl.
Qed.

(** C3.  Whatever [json.loads] and [float] do, every analysis that
    [_parse_analysis_response] returns as a success has a compatibility
    score between 0 and 100 and a list of at least three suggestions. *)
Theorem parse_analysis_response_invariant
    (json_loads : pystr -> Loads)
    (float_of_int : Z -> option pyfloat) (float_of_str : pystr -> option pyfloat)
    (response_text : pystr) (data : gmap string JSON) :
  _parse_analysis_response json_loads float_of_int float_of_str response_text
    = ParseOk data ->
  analysis_invariant data.
Proof.
  unfold _parse_analysis_response.
  destruct (find _ _); [|discriminate].
  destruct (rfind_char _ _); [|discriminate].
  destruct (json_loads _); try discriminate.
  apply repair_invariant.
Qed.

Lemma parse_analysis_response_invariant_witness :
  exists data,
    _parse_analysis_response loads_raw_analysis exact_float_of_int
      no_float_of_str model_reply = ParseOk data
    /\ analysis_invariant data.
Proof.
  eexists. split.
  - vm_compute. reflexivity.
  - apply (parse_analysis_response_invariant loads_raw_analysis
             exact_float_of_int no_float_of_str model_reply).
    vm_compute. reflexivity.
Defined.

End AnalysisInvariant.

(** ** PII masking *)
Section Masking.
Import Py Pii Spec Samples.

Lemma take_min_length {A} (n : nat) (s : list A) :
  take (Nat.min n (length s)) s = take n s.
Proof.
  destruct (Nat.le_gt_cases n (length s)) as [H|H].
  - rewrite Nat.min_l by exact H. reflexivity.
  - rewrite Nat.min_r by lia. rewrite !take_ge by lia. reflexivity.
Qed.

Lemma drop_min_length {A} (n : nat) (s : list A) :
  drop (Nat.min n (length s)) s = drop n s.
Proof.
  destruct (Nat.le_gt_cases n (length s)) as [H|H].
  - rewrite Nat.min_l by exact H. reflexivity.
  - rewrite Nat.min_r by lia. rewrite !drop_ge by lia. reflexivity.
Qed.

Lemma upto_nonneg (i : Z) (s : pystr) :
  (0 <= i)%Z -> upto i s = take (Z.to_nat i) s.
Proof.
  intros Hi. unfold upto, slice_bound.
  destruct (i <? 0)%Z eqn:E; [apply Z.ltb_lt in E; lia|].
  apply take_min_length.
Qed.

Lemma from_nonneg (i : Z) (s : pystr) :
  (0 <= i)%Z -> from i s = drop (Z.to_nat i) s.
Proof.
  intros Hi. unfold from, slice_bound.
  destruct (i <? 0)%Z eqn:E; [apply Z.ltb_lt in E; lia|].
  apply drop_min_length.
Qed.

Lemma mask_length (pii_length : Z) : (length (mask pii_length) <= 8)%nat.
Proof. unfold mask. rewrite length_replicate. lia. Qed.

Lemma mask_nat (b e : nat) :
  mask (Z.of_nat e - Z.of_nat b) = replicate (Nat.min (e - b) 8) star.
Proof. unfold mask. f_equal. lia. Qed.

Lemma text_threshold_below : (text_threshold <= 7 # 10)%Q.
Proof. unfold Qle, text_threshold. simpl. lia. Qed.

(** C7.  When the text passes the short-text guard and the detector
    reports exactly one span of the text, from offset [b] to offset [e],
    with a confidence at or above the threshold of 0.7, the result is the
    text before the span, then [min (e - b) 8] asterisks, then the text
    after the span, flagged as redacted.  A mask is never longer than 8
    characters, and a span of length 20 is replaced by exactly 8
    asterisks. *)
Theorem apply_pii_redaction_single_span
    (detect : pystr -> option (list Entity)) (t : pystr) (b e : nat)
    (score : Q) (type : string) :
  (10 <= length (strip unicode_space t))%nat ->
  (b <= e)%nat -> (e <= length t)%nat -> (e <= 5000)%nat ->
  (text_threshold <= score)%Q ->
  detect (take 5000 t)
    = Some [{| Score := score; BeginOffset := Z.of_nat b;
               EndOffset := Z.of_nat e; Type_ := type |}] ->
  apply_pii_redaction_to_text detect t
    = {| success := true;
         text := take b t ++ replicate (Nat.min (e - b) 8) star ++ drop e t;
         redacted := true |}
  /\ (length (replicate (Nat.min (e - b) 8) star) <= 8)%nat
  /\ ((e - b = 20)%nat ->
      text (apply_pii_redaction_to_text detect t)
        = take b t ++ replicate 8 star ++ drop (b + 20) t).
Proof.
  intros Hguard Hbe Hlen H5000 Hscore Hdetect.
  assert (Hout : apply_pii_redaction_to_text detect t
    = {| success := true;
         text := take b t ++ replicate (Nat.min (e - b) 8) star ++ drop e t;
         redacted := true |}).
  { unfold apply_pii_redaction_to_text.
    assert (Hne : bool_decide (t = []) = false).
    { apply bool_decide_eq_false. intros ->. simpl in Hguard. lia. }
    assert (Hlong : (length (strip unicode_space t) <? 10) = false)
      by (apply Nat.ltb_ge; exact Hguard).
    rewrite Hne, Hlong, Hdetect. simpl.
    unfold redact_all. simpl.
    apply Qle_bool_iff in Hscore. rewrite Hscore.
    rewrite upto_nonneg, from_nonneg, mask_nat, !Nat2Z.id by lia.
    reflexivity. }
  split; [exact Hout|]. split.
  - rewrite length_replicate. lia.
  - intros H20. rewrite Hout. simpl. rewrite H20.
    replace e with (b + 20)%nat by lia. reflexivity.
Qed.

Lemma apply_pii_redaction_single_span_witness :
  text (apply_pii_redaction_to_text detect_phone contact_line)
  = str "Phone: ********, available on weekdays".
Proof.
  destruct (apply_pii_redaction_single_span detect_phone contact_line 7 27
              (99 # 100) "PHONE") as (_ & _ & H).
  - vm_compute. lia.
  - lia.
  - vm_compute. lia.
  - lia.
  - vm_compute. discriminate.
  - reflexivity.
  - rewrite H by reflexivity. reflexivity.
Defined.

End Masking.

(** ** The redaction window *)
Section Window.
Import Py Pii Spec Samples.

Lemma insert_desc_Forall (P : Entity -> Prop) e l :
  P e -> Forall P l -> Forall P (insert_desc e l).
Proof.
  intros He Hl. induction Hl as [|y l' Hy Hl' IH]; simpl.
  - repeat constructor. exact He.
  - destruct (BeginOffset e <? BeginOffset y)%Z; repeat constructor; assumption.
Qed.

Lemma sort_desc_Forall (P : Entity -> Prop) l :
  Forall P l -> Forall P (sort_desc l).
Proof.
  unfold sort_desc. induction 1 as [|e l He Hl IH]; simpl.
  - constructor.
  - apply insert_desc_Forall; assumption.
Qed.

Lemma insert_desc_separated l : forall bound e,
  separated bound l ->
  (0 <= BeginOffset e)%Z -> (BeginOffset e < EndOffset e)%Z ->
  (EndOffset e <= bound)%Z ->
  Forall (disjoint_spans e) l ->
  separated bound (insert_desc e l).
Proof.
  induction l as [|y l' IH]; intros bound e Hsep H0 Hlt Hb Hdis; simpl.
  - repeat split; assumption.
  - destruct Hsep as (Hy0 & Hylt & Hyb & Hsep').
    inversion Hdis as [|? ? Hey Hdis']; subst.
    destruct (BeginOffset e <? BeginOffset y)%Z eqn:E.
    + apply Z.ltb_lt in E. simpl. repeat split; try assumption.
      apply IH; try assumption.
      destruct Hey as [Hey|Hey]; [exact Hey|lia].
    + apply Z.ltb_ge in E. simpl. repeat split; try assumption.
      destruct Hey as [Hey|Hey]; [lia|exact Hey].
Qed.

Lemma sort_desc_separated (n : nat) l :
  spans_ok n l -> separated (Z.of_nat n) (sort_desc l).
Proof.
  unfold spans_ok, sort_desc.
  induction l as [|e l IH]; intros [Hin Hdis]; simpl; [exact I|].
  inversion Hin as [|? ? (H0 & Hlt & Hn) Hin']; subst.
  destruct Hdis as [Hde Hdis].
  apply insert_desc_separated; try assumption.
  - apply IH. split; assumption.
  - apply (sort_desc_Forall _ l Hde).
Qed.

Lemma separated_weaken l : forall b1 b2,
  (b1 <= b2)%Z -> separated b1 l -> separated b2 l.
Proof.
  destruct l as [|e l]; intros b1 b2 Hle; simpl; [tauto|].
  intros (H0 & Hlt & Hb & Hs). repeat split; try assumption. lia.
Qed.

(** Masking a separated list of spans, largest offset first, leaves the
    text from offset [m] on in place when every span ends by [m]. *)
Lemma redact_separated threshold (t : pystr) (m : nat) l :
  forall (bound : nat) (mid : pystr) (count : nat),
    (bound <= length t)%nat ->
    separated (Z.of_nat bound) l ->
    exists before count',
      fold_left (redact_entity threshold) l
        (take bound t ++ mid ++ drop m t, count)
      = (before ++ drop m t, count').
Proof.
  induction l as [|e l IH]; intros bound mid count Hbound Hsep; simpl.
  - exists (take bound t ++ mid), count. rewrite <- app_assoc. reflexivity.
  - destruct Hsep as (H0 & Hlt & Hb & Hsep).
    set (b := Z.to_nat (BeginOffset e)).
    set (e' := Z.to_nat (EndOffset e)).
    assert (Hbe : (b <= e')%nat) by (unfold b, e'; lia).
    assert (He'b : (e' <= bound)%nat) by (unfold e'; lia).
    assert (Hsep' : separated (Z.of_nat b) l).
    { unfold b. rewrite Z2Nat.id by exact H0. exact Hsep. }
    assert (Htake : take b (take bound t ++ mid ++ drop m t) = take b t).
    { rewrite take_app_le by (rewrite length_take; lia).
      rewrite take_take. f_equal. lia. }
    destruct (Qle_bool threshold (Score e)).
    + rewrite upto_nonneg, from_nonneg by lia. fold b e'.
      rewrite Htake.
      rewrite drop_app_le by (rewrite length_take; lia).
      rewrite <- ?app_assoc.
      destruct (IH b (mask (EndOffset e - BeginOffset e)
                        ++ drop e' (take bound t) ++ mid) (S count))
        as (before & count' & Hfold); [lia|exact Hsep'|].
      rewrite <- !app_assoc in Hfold. eauto.
    + destruct (IH b (drop b (take bound t) ++ mid) count)
        as (before & count' & Hfold); [lia|exact Hsep'|].
      assert (Hsplit : take bound t ++ mid ++ drop m t
                       = take b t ++ (drop b (take bound t) ++ mid) ++ drop m t).
      { rewrite <- (take_drop b (take bound t)) at 1.
        rewrite take_take, <- !app_assoc. do 2 f_equal. lia. }
      rewrite Hsplit. eauto.
Qed.

Lemma redact_all_suffix threshold (t : pystr) (n m : nat) entities :
  (n <= length t)%nat -> (n <= m)%nat ->
  spans_ok n entities ->
  drop m t `suffix_of` fst (redact_all threshold entities t).
Proof.
  intros Hn Hm Hok. unfold redact_all.
  set (m' := Nat.min m (length t)).
  assert (Hdrop : drop m t = drop m' t) by (symmetry; apply drop_min_length).
  destruct (redact_separated threshold t m' (sort_desc entities) m' [] 0)
    as (before & count' & Hfold).
  - unfold m'. lia.
  - apply (separated_weaken _ (Z.of_nat n)); [unfold m'; lia|].
    apply sort_desc_separated, Hok.
  - simpl in Hfold. rewrite take_drop in Hfold. rewrite Hfold, Hdrop.
    exists before. reflexivity.
Qed.

Lemma spans_ok_min (n m : nat) entities :
  spans_ok n entities ->
  Forall (fun e => (EndOffset e <= Z.of_nat m)%Z) entities ->
  spans_ok (Nat.min n m) entities.
Proof.
  intros [Hin Hdis] Hm. split; [|exact Hdis].
  rewrite Forall_forall in *. intros e He.
  destruct (Hin e He) as (H0 & Hlt & Hn). specialize (Hm e He).
  repeat split; try assumption. lia.
Qed.




End Window.

(** ** Report failure on the three paths *)
Section ReportFailure.
Import Py Pipeline Spec Samples.

(** On the analysis-only path the report generator decides neither the
    status code nor the success flag. *)
Lemma analysis_only_success_independent (c : Collaborators) generator event :
  success (handle_complete_analysis (with_report_generator c generator) event)
  = success (handle_complete_analysis c event).
Proof.
  unfold handle_complete_analysis, complete_analysis_steps, bind, item.
  destruct (resume_text event); [|reflexivity].
  destruct (job_description event); [|reflexivity]. simpl.
  destruct (analyze_resume_vs_job_description c _ _) as [data|]; [|reflexivity].
  destruct (data !! "compatibility_score"%string) eqn:Hscore; [|reflexivity].
  simpl. destruct (summarize data) as [[]|summary]; try reflexivity.
  destruct (_ && _); [|reflexivity].
  destruct (generator _ _ _ _);
    destruct (create_complete_report_package c _ _ _ _); reflexivity.
Qed.

Lemma complete_pipeline_needs_report (c : Collaborators) sv table event :
  reports_fail c ->
  success (fst (handle_complete_pipeline c sv table event)) = false.
Proof.
  intros Hfail. unfold handle_complete_pipeline, complete_pipeline_steps.
  destruct (bucket_name event); [|reflexivity].
  destruct (s3_key event); [|reflexivity].
  destruct (job_description event); [|reflexivity].
  destruct (Dedup.is_duplicate _).
  - destruct (Dedup.cached_data _); [|reflexivity].
    destruct (analyze_resume_vs_job_description c _ _) as [data|]; [|reflexivity].
    destruct (data !! "compatibility_score"%string); [|reflexivity].
    destruct (create_complete_report_package c _ _ _ _) eqn:Hr; try reflexivity.
    exfalso. exact (Hfail _ _ _ _ _ Hr).
  - destruct (extract_text_from_s3_pdf c _ _); [|reflexivity].
    destruct (analyze_resume_vs_job_description c _ _) as [data|]; [|reflexivity].
    destruct (data !! "compatibility_score"%string); [|reflexivity].
    destruct (create_complete_report_package c _ _ _ _) eqn:Hr; try reflexivity.
    exfalso. exact (Hfail _ _ _ _ _ Hr).
Qed.

Lemma complete_pipeline_report_terminal (c : Collaborators) generator
    sv table event :
  reports_fail c ->
  success (fst (handle_complete_pipeline (with_report_generator c generator)
                  sv table event)) = true ->
  statusCode (fst (handle_complete_pipeline c sv table event)) = 500%Z.
Proof.
  intros Hfail. unfold handle_complete_pipeline, complete_pipeline_steps.
  cbn [with_report_generator extract_text_from_s3_pdf detect_pii_entities
       analyze_resume_vs_job_description create_complete_report_package
       REPORTS_BUCKET].
  destruct (bucket_name event); [|discriminate].
  destruct (s3_key event); [|discriminate].
  destruct (job_description event); [|discriminate].
  destruct (Dedup.is_duplicate _).
  - destruct (Dedup.cached_data _); [|discriminate].
    destruct (analyze_resume_vs_job_description c _ _) as [data|]; [|discriminate].
    destruct (data !! "compatibility_score"%string); [|discriminate].
    destruct (create_complete_report_package c _ _ _ _) eqn:Hr.
    + exfalso. exact (Hfail _ _ _ _ _ Hr).
    + reflexivity.
    + reflexivity.
  - destruct (extract_text_from_s3_pdf c _ _); [|discriminate].
    destruct (analyze_resume_vs_job_description c _ _) as [data|]; [|discriminate].
    destruct (data !! "compatibility_score"%string); [|discriminate].
    destruct (create_complete_report_package c _ _ _ _) eqn:Hr.
    + exfalso. exact (Hfail _ _ _ _ _ Hr).
    + reflexivity.
    + reflexivity.
Qed.

Lemma listed_len (data : gmap string JSON) key l :
  listed data key l ->
  py_len (default (JList []) (data !! key)) = inr (length l).
Proof. intros [-> | [-> ->]]; reflexivity. Qed.

Lemma summarize_listed (data : gmap string JSON) score keywords suggestions
    strengths :
  data !! "compatibility_score"%string = Some score ->
  listed data "missing_keywords" keywords ->
  listed data "suggestions" suggestions ->
  listed data "strengths" strengths ->
  summarize data
  = inr {| compatibility_score := score;
           missing_keywords_count := length keywords;
           suggestions_count := length suggestions;
           strengths_count := length strengths |}.
Proof.
  intros Hscore Hk Hs Ht. unfold summarize, bind, item.
  rewrite Hscore, (listed_len _ _ _ Hk), (listed_len _ _ _ Hs),
    (listed_len _ _ _ Ht).
  reflexivity.
Qed.

(** On the web path the report generator decides the report links and,
    when it raises, the failure of the call; nothing else. *)
Lemma web_analysis_without_links (sv : Web.Services) h jd name text status :
  web_reports_fail sv ->
  let r := Web.analyse_and_respond sv h jd name text status in
  (forall data, Web.body r = Web.Analysis data ->
     Web.statusCode r = 200%Z /\ Web.reports data = None
     /\ shows_analysis sv data)
  /\ (forall other, returns other ->
        let r' := Web.analyse_and_respond (with_web_reports sv other) h jd name
                    text status in
        (returns (Web.create_complete_report_package sv) ->
         r = without_reports r')
        /\ (raises (Web.create_complete_report_package sv) ->
            Web.statusCode r' = 200%Z -> r = Web.failed)).
Proof.
  intros Hfail. cbn zeta. unfold Web.analyse_and_respond.
  cbn [with_web_reports Web.REPORTS_BUCKET
       Web.analyze_resume_vs_job_description
       Web.create_complete_report_package].
  destruct (Web.analyze_resume_vs_job_description sv text jd)
    as [analysis|error] eqn:Ha.
  2: { split; [discriminate|]. intros other Ho. split; [reflexivity|].
       discriminate. }
  destruct (Web.create_complete_report_package sv analysis
              (Web.REPORTS_BUCKET sv) name "Web Analysis"%string)
    as [package|failure|what] eqn:Hg.
  - exfalso. exact (Hfail _ _ _ _ _ Hg).
  - destruct (analysis !! "compatibility_score"%string) as [score|] eqn:Hs.
    + split.
      * intros data [= <-]. split; [reflexivity|]. split; [reflexivity|].
        exists text, jd, analysis. cbn. auto.
      * intros other Ho. split.
        -- intros _.
           destruct (other analysis (Web.REPORTS_BUCKET sv) name
                       "Web Analysis"%string) eqn:Eo;
             [reflexivity|reflexivity|exfalso; exact (Ho _ _ _ _ _ Eo)].
        -- intros Hraise. destruct (Hraise analysis (Web.REPORTS_BUCKET sv) name
                                      "Web Analysis"%string) as [what Hw].
           congruence.
    + split; [discriminate|]. intros other Ho. split.
      * intros _.
        destruct (other analysis (Web.REPORTS_BUCKET sv) name
                    "Web Analysis"%string) eqn:Eo;
          [reflexivity|reflexivity|exfalso; exact (Ho _ _ _ _ _ Eo)].
      * reflexivity.
  - split; [discriminate|]. intros other Ho. split.
    + intros Hret. exfalso. exact (Hret _ _ _ _ _ Hg).
    + reflexivity.
Qed.

Lemma web_endpoint_without_links (sv : Web.Services) (cache : Dedup.Services)
    (table : gmap string Dedup.CacheItem) (event : Multipart.ApiEvent) :
  web_reports_fail sv ->
  let r := fst (Web.handle_analyze_endpoint sv cache table event) in
  (forall data, Web.body r = Web.Analysis data ->
     Web.statusCode r = 200%Z /\ Web.reports data = None
     /\ shows_analysis sv data)
  /\ (forall other, returns other ->
        let r' := fst (Web.handle_analyze_endpoint (with_web_reports sv other)
                         cache table event) in
        (returns (Web.create_complete_report_package sv) ->
         r = without_reports r')
        /\ (raises (Web.create_complete_report_package sv) ->
            Web.statusCode r' = 200%Z -> r = Web.failed)).
Proof.
  intros Hfail. cbn zeta. unfold Web.handle_analyze_endpoint.
  cbn [with_web_reports Web.clients_available Web.RESUMES_BUCKET
       Web.REPORTS_BUCKET Web.upload_file_content Web.extract_text_from_s3_pdf
       Web.detect_pii_entities].
  destruct (Multipart.parse_multipart_form_data event) as [error|pdf jd name].
  { split; [discriminate|]. intros other Ho. split; [reflexivity|discriminate]. }
  destruct (Web.clients_available sv); cbn [negb].
  2: { split; [discriminate|]. intros other Ho. split; reflexivity. }
  destruct (Dedup.get_resume_cache cache table _) as [cached|].
  { cbn [fst]. apply web_analysis_without_links, Hfail. }
  destruct (Web.upload_file_content sv (Web.RESUMES_BUCKET sv) _ pdf).
  2: { split; [discriminate|]. intros other Ho. split; [reflexivity|discriminate]. }
  destruct (Web.extract_text_from_s3_pdf sv (Web.RESUMES_BUCKET sv) _)
    as [text|error].
  2: { split; [discriminate|]. intros other Ho. split; [reflexivity|discriminate]. }
  cbn [fst]. apply web_analysis_without_links, Hfail.
Qed.

Lemma analysis_only_degrades (c : Collaborators) event resume jd data score
    keywords suggestions strengths :
  reports_fail c ->
  resume_text event = Some resume ->
  job_description event = Some jd ->
  analyze_resume_vs_job_description c resume jd = AnalysisOk data ->
  data !! "compatibility_score"%string = Some score ->
  listed data "missing_keywords" keywords ->
  listed data "suggestions" suggestions ->
  listed data "strengths" strengths ->
  exists d,
    handle_complete_analysis c event
      = {| statusCode := 200; body := AnalysisSuccess d |}
    /\ analysis_summary d
       = {| compatibility_score := score;
            missing_keywords_count := length keywords;
            suggestions_count := length suggestions;
            strengths_count := length strengths |}
    /\ report_unavailable d.
Proof.
  intros Hfail Hr Hj Ha Hscore Hk Hs Ht.
  unfold handle_complete_analysis, complete_analysis_steps, bind, item.
  rewrite Hr, Hj. simpl. rewrite Ha, Hscore. simpl.
  rewrite (summarize_listed data score keywords suggestions strengths
             Hscore Hk Hs Ht).
  destruct (_ && _).
  - destruct (create_complete_report_package c _ _ _ _) eqn:Hp.
    + exfalso. exact (Hfail _ _ _ _ _ Hp).
    + eexists. split; [reflexivity|]. split; [reflexivity|].
      unfold report_unavailable. simpl. do 5 eexists. eauto.
    + eexists. split; [reflexivity|]. split; [reflexivity|].
      unfold report_unavailable. simpl. do 5 eexists. eauto.
  - eexists. split; [reflexivity|]. split; [reflexivity|].
    unfold report_unavailable. simpl. do 5 eexists. eauto.
Qed.




End ReportFailure.

(** ** Absorption of deduplication-layer failures *)
Section DedupFailures.
Import Py Pipeline Spec Samples.

Lemma erase_success (r : Response) : success (erase_dedup_note r) = success r.
Proof. destruct r as [code []]; reflexivity. Qed.

Lemma erase_status (r : Response) :
  statusCode (erase_dedup_note r) = statusCode r.
Proof. destruct r as [code []]; reflexivity. Qed.

Lemma check_unique_on_fault sv (table : gmap string Dedup.CacheItem)
    bucket key filename :
  lookup_fault sv bucket key ->
  Dedup.is_duplicate
    (Dedup.check_file_deduplication sv table bucket key filename) = false.
Proof.
  unfold lookup_fault, Dedup.check_file_deduplication, Dedup.get_resume_cache.
  intros [H|H]; rewrite H; [reflexivity|].
  destruct (Dedup.calculate_s3_file_hash sv bucket key) as [[|a h]|]; reflexivity.
Qed.

Lemma check_unique_on_empty sv bucket key filename :
  Dedup.is_duplicate
    (Dedup.check_file_deduplication sv ∅ bucket key filename) = false.
Proof.
  unfold Dedup.check_file_deduplication, Dedup.get_resume_cache.
  destruct (Dedup.calculate_s3_file_hash sv bucket key) as [[|a h]|];
    try reflexivity.
  destruct (Dedup.get_item_raises sv); rewrite ?lookup_empty; reflexivity.
Qed.

(** Two runs that both take the extraction path return the same response
    up to the deduplication note. *)
Lemma miss_path_response (c : Collaborators) sv1 sv2
    (table1 table2 : gmap string Dedup.CacheItem) event :
  (forall bucket key filename,
     bucket_name event = Some bucket -> s3_key event = Some key ->
     Dedup.is_duplicate
       (Dedup.check_file_deduplication sv1 table1 bucket key filename) = false
     /\ Dedup.is_duplicate
          (Dedup.check_file_deduplication sv2 table2 bucket key filename) = false) ->
  erase_dedup_note (fst (handle_complete_pipeline c sv1 table1 event))
  = erase_dedup_note (fst (handle_complete_pipeline c sv2 table2 event)).
Proof.
  intros Hmiss. unfold handle_complete_pipeline, complete_pipeline_steps.
  destruct (bucket_name event) as [bucket|]; [|reflexivity].
  destruct (s3_key event) as [key|]; [|reflexivity].
  destruct (job_description event) as [jd|]; [|reflexivity].
  destruct (Hmiss bucket key (Some (default (basename key) (resume_filename event)))
              eq_refl eq_refl) as [H1 H2].
  rewrite H1, H2.
  destruct (extract_text_from_s3_pdf c bucket key); [|reflexivity].
  destruct (analyze_resume_vs_job_description c _ _) as [data|]; [|reflexivity].
  destruct (data !! "compatibility_score"%string); [|reflexivity].
  destruct (create_complete_report_package c _ _ _ _); try reflexivity.
  unfold bind. destruct (summarize data) as [[]|]; reflexivity.
Qed.

(** The response does not depend on whether the cache store works. *)
Lemma store_failure_invisible (c : Collaborators) sv sv'
    (table : gmap string Dedup.CacheItem) event :
  Dedup.get_object sv' = Dedup.get_object sv ->
  Dedup.sha256_hexdigest sv' = Dedup.sha256_hexdigest sv ->
  Dedup.get_item_raises sv' = Dedup.get_item_raises sv ->
  fst (handle_complete_pipeline c sv' table event)
  = fst (handle_complete_pipeline c sv table event).
Proof.
  intros Hg Hh Hr.
  assert (Hcheck : forall bucket key filename,
    Dedup.check_file_deduplication sv' table bucket key filename
    = Dedup.check_file_deduplication sv table bucket key filename).
  { intros. unfold Dedup.check_file_deduplication, Dedup.calculate_s3_file_hash,
      Dedup.calculate_file_hash, Dedup.get_resume_cache.
    rewrite Hg, Hh, Hr. reflexivity. }
  unfold handle_complete_pipeline, complete_pipeline_steps.
  destruct (bucket_name event) as [bucket|]; [|reflexivity].
  destruct (s3_key event) as [key|]; [|reflexivity].
  destruct (job_description event) as [jd|]; [|reflexivity].
  rewrite Hcheck.
  destruct (Dedup.is_duplicate _).
  - reflexivity.
  - destruct (extract_text_from_s3_pdf c bucket key); [|reflexivity].
    destruct (analyze_resume_vs_job_description c _ _) as [data|]; [|reflexivity].
    destruct (data !! "compatibility_score"%string); [|reflexivity].
    destruct (create_complete_report_package c _ _ _ _); try reflexivity.
    unfold bind. destruct (summarize data) as [[]|]; reflexivity.
Qed.

(** C5.  A failure to fingerprint the file or to look it up makes the
    deduplication check report a unique file, and the pipeline then
    answers as it answers a first-time submission against an empty
    cache: the same response up to the deduplication message and hash
    prefix, hence the same status code and success flag.  Whether the
    cache store works never shows in the response. *)
Theorem dedup_errors_absorbed (c : Collaborators) (sv : Dedup.Services)
    (table : gmap string Dedup.CacheItem) (event : Event) :
  (forall bucket key filename,
     lookup_fault sv bucket key ->
     Dedup.is_duplicate
       (Dedup.check_file_deduplication sv table bucket key filename) = false)
  /\ (forall bucket key (sv0 : Dedup.Services),
        bucket_name event = Some bucket -> s3_key event = Some key ->
        lookup_fault sv bucket key ->
        let faulty := fst (handle_complete_pipeline c sv table event) in
        let fresh := fst (handle_complete_pipeline c sv0 ∅ event) in
        erase_dedup_note faulty = erase_dedup_note fresh
        /\ success faulty = success fresh
        /\ statusCode faulty = statusCode fresh)
  /\ (forall sv' : Dedup.Services,
        Dedup.get_object sv' = Dedup.get_object sv ->
        Dedup.sha256_hexdigest sv' = Dedup.sha256_hexdigest sv ->
        Dedup.get_item_raises sv' = Dedup.get_item_raises sv ->
        fst (handle_complete_pipeline c sv' table event)
        = fst (handle_complete_pipeline c sv table event)).
Proof.
  split; [|split].
  - intros. apply check_unique_on_fault. assumption.
  - intros bucket key sv0 Hb Hk Hfault faulty fresh.
    assert (He : erase_dedup_note faulty = erase_dedup_note fresh).
    { apply miss_path_response. intros bucket' key' filename Hb' Hk'.
      rewrite Hb in Hb'. rewrite Hk in Hk'.
      injection Hb' as <-. injection Hk' as <-.
      split; [apply check_unique_on_fault, Hfault|apply check_unique_on_empty]. }
    split; [exact He|]. split.
    + rewrite <- (erase_success faulty), He. apply erase_success.
    + rewrite <- (erase_status faulty), He. apply erase_status.
  - intros. apply store_failure_invisible; assumption.
Qed.

Lemma dedup_errors_absorbed_witness :
  success (fst (handle_complete_pipeline working broken ∅ pipeline_event)) = true.
Proof.
  destruct (dedup_errors_absorbed working broken ∅ pipeline_event)
    as (_ & Hsame & _).
  destruct (Hsame "resumes"%string "uploads/cv.pdf"%string healthy)
    as (_ & Hsuccess & _).
  - reflexivity.
  - reflexivity.
  - left. reflexivity.
  - rewrite Hsuccess. reflexivity.
Defined.

End DedupFailures.

(** ** Idempotence of deduplication *)
Section Idempotence.
Import Py Pipeline Spec Samples.

Lemma check_miss sv (table : gmap string Dedup.CacheItem) bucket key filename h :
  Dedup.calculate_s3_file_hash sv bucket key = Some h ->
  h <> EmptyString ->
  Dedup.get_resume_cache sv table h = None ->
  Dedup.check_file_deduplication sv table bucket key filename
  = {| Dedup.is_duplicate := false; Dedup.file_hash := Some h;
       Dedup.cached_data := None;
       Dedup.message := "File is unique - proceeding with processing";
       Dedup.error := None |}.
Proof.
  intros Hh Hne Hget. unfold Dedup.check_file_deduplication. rewrite Hh.
  destruct h as [|a h]; [congruence|]. rewrite Hget. reflexivity.
Qed.

Lemma check_hit sv (table : gmap string Dedup.CacheItem) bucket key filename h
    cached :
  Dedup.calculate_s3_file_hash sv bucket key = Some h ->
  h <> EmptyString ->
  Dedup.get_resume_cache sv table h = Some cached ->
  Dedup.check_file_deduplication sv table bucket key filename
  = {| Dedup.is_duplicate := true; Dedup.file_hash := Some h;
       Dedup.cached_data := Some cached;
       Dedup.message := "Resume already processed - using existing data from "
                          +:+ Dedup.original_filename cached;
       Dedup.error := None |}.
Proof.
  intros Hh Hne Hget. unfold Dedup.check_file_deduplication. rewrite Hh.
  destruct h as [|a h]; [congruence|]. rewrite Hget. reflexivity.
Qed.

Lemma hash_of_content sv bucket key content :
  Dedup.get_object sv bucket key = Some content ->
  content <> [] ->
  Dedup.calculate_s3_file_hash sv bucket key
  = Some (Dedup.sha256_hexdigest sv content).
Proof.
  intros Hg Hne. unfold Dedup.calculate_s3_file_hash, Dedup.calculate_file_hash.
  rewrite Hg. destruct content; [congruence|reflexivity].
Qed.

(** C2.  Let the same non-empty bytes be read at the event's location in
    two consecutive invocations of the complete pipeline with the same
    collaborators, let the file not be cached before the first, let the
    first succeed with its cache store working, and let the second
    invocation's cache lookup work.  Then the first response carries the
    status [processed], the second succeeds with the status
    [deduplicated], and both carry the same extracted text length. *)
Theorem dedup_idempotent (c : Collaborators) (sv1 sv2 : Dedup.Services)
    (table table1 : gmap string Dedup.CacheItem) (event : Event)
    (bucket key : string) (content : bytes) (r1 : Response) :
  bucket_name event = Some bucket ->
  s3_key event = Some key ->
  Dedup.get_object sv1 bucket key = Some content ->
  Dedup.get_object sv2 bucket key = Some content ->
  Dedup.sha256_hexdigest sv2 = Dedup.sha256_hexdigest sv1 ->
  content <> [] ->
  Dedup.sha256_hexdigest sv1 content <> EmptyString ->
  table !! Dedup.sha256_hexdigest sv1 content = None ->
  Dedup.put_item_raises sv1 = false ->
  Dedup.get_item_raises sv2 = false ->
  handle_complete_pipeline c sv1 table event = (r1, table1) ->
  success r1 = true ->
  exists d1 d2,
    r1 = {| statusCode := 200; body := PipelineSuccess d1 |}
    /\ fst (handle_complete_pipeline c sv2 table1 event)
       = {| statusCode := 200; body := PipelineSuccess d2 |}
    /\ deduplication_status d1 = "processed"%string
    /\ deduplication_status d2 = "deduplicated"%string
    /\ extracted_text_length d2 = extracted_text_length d1.
Proof.
  intros Hb Hk Hg1 Hg2 Hsha Hne Hh Hfresh Hput Hget2 Hrun Hok.
  set (h := Dedup.sha256_hexdigest sv1 content) in *.
  assert (Hhash1 := hash_of_content sv1 bucket key content Hg1 Hne). fold h in Hhash1.
  assert (Hhash2 := hash_of_content sv2 bucket key content Hg2 Hne).
  rewrite Hsha in Hhash2. fold h in Hhash2.
  assert (Hmiss : Dedup.get_resume_cache sv1 table h = None).
  { unfold Dedup.get_resume_cache. destruct (Dedup.get_item_raises sv1);
      [reflexivity|exact Hfresh]. }
  unfold handle_complete_pipeline, complete_pipeline_steps in Hrun.
  rewrite Hb, Hk in Hrun.
  destruct (job_description event) as [jd|] eqn:Hjd;
    [|injection Hrun as <- _; discriminate].
  rewrite (check_miss _ _ _ _ _ h Hhash1 Hh Hmiss) in Hrun.
  cbn [Dedup.is_duplicate Dedup.file_hash Dedup.message] in Hrun.
  destruct (extract_text_from_s3_pdf c bucket key) as [extracted|] eqn:Hex;
    [|injection Hrun as <- _; discriminate].
  set (filename := default (basename key) (resume_filename event)) in *.
  set (scrubbed :=
         if Pii.success (Pii.apply_pii_redaction_to_text (detect_pii_entities c) extracted)
         then Pii.text (Pii.apply_pii_redaction_to_text (detect_pii_entities c) extracted)
         else extracted) in *.
  destruct h as [|a h'] eqn:Hheq; [congruence|]. rewrite <- Hheq in *.
  assert (Hstore : snd (Dedup.store_processed_file sv1 table h scrubbed filename)
                   !! h
                   = Some {| Dedup.item_file_hash := h;
                             Dedup.extracted_text := scrubbed;
                             Dedup.original_filename := filename;
                             Dedup.ttl := Dedup.now sv1 + 12 * 60 * 60 |}).
  { unfold Dedup.store_processed_file, Dedup.put_resume_cache. rewrite Hput.
    apply lookup_insert_eq. }
  destruct (analyze_resume_vs_job_description c scrubbed jd) as [data|] eqn:Han;
    [|injection Hrun as <- _; discriminate].
  destruct (data !! "compatibility_score"%string) eqn:Hscore;
    [|injection Hrun as <- _; discriminate].
  destruct (create_complete_report_package c data _ filename _)
    as [package| |] eqn:Hrep; try (injection Hrun as <- _; discriminate).
  unfold bind in Hrun.
  destruct (summarize data) as [[]|summary] eqn:Hsum;
    try (injection Hrun as <- _; discriminate).
  injection Hrun as <- <-.
  do 2 eexists. split; [reflexivity|].
  assert (Hhit : Dedup.get_resume_cache sv2
                   (snd (Dedup.store_processed_file sv1 table h scrubbed filename)) h
                 = Some {| Dedup.item_file_hash := h;
                           Dedup.extracted_text := scrubbed;
                           Dedup.original_filename := filename;
                           Dedup.ttl := Dedup.now sv1 + 12 * 60 * 60 |}).
  { unfold Dedup.get_resume_cache. rewrite Hget2. exact Hstore. }
  split.
  { unfold handle_complete_pipeline, complete_pipeline_steps.
    rewrite Hb, Hk, Hjd. fold filename.
    rewrite (check_hit _ _ _ _ _ h _ Hhash2 Hh Hhit).
    cbn [Dedup.is_duplicate Dedup.cached_data Dedup.extracted_text
         Dedup.file_hash Dedup.message].
    rewrite Han, Hscore, Hrep. unfold bind. rewrite Hsum. reflexivity. }
  repeat split.
Qed.

Lemma dedup_idempotent_witness :
  exists d1 d2,
    fst (handle_complete_pipeline working healthy ∅ pipeline_event)
      = {| statusCode := 200; body := PipelineSuccess d1 |}
    /\ fst (handle_complete_pipeline working healthy
              (snd (handle_complete_pipeline working healthy ∅ pipeline_event))
              pipeline_event)
       = {| statusCode := 200; body := PipelineSuccess d2 |}
    /\ deduplication_status d1 = "processed"%string
    /\ deduplication_status d2 = "deduplicated"%string
    /\ extracted_text_length d2 = extracted_text_length d1.
Proof.
  apply (dedup_idempotent working healthy healthy ∅
           (snd (handle_complete_pipeline working healthy ∅ pipeline_event))
           pipeline_event "resumes" "uploads/cv.pdf" cv_bytes
           (fst (handle_complete_pipeline working healthy ∅ pipeline_event))).
  - reflexivity.
  - reflexivity.
  - reflexivity.
  - reflexivity.
  - reflexivity.
  - discriminate.
  - discriminate.
  - reflexivity.
  - reflexivity.
  - reflexivity.
  - apply surjective_pairing.
  - vm_compute. reflexivity.
Defined.

End Idempotence.

(** ** Sequence operations *)
Section SeqFacts.
Import Py.
Context {A : Type} `{EqDecision A}.
Implicit Types (sub sep p s t a : list A) (c : A).

Lemma startswith_app p s : startswith p (p ++ s) = true.
Proof.
  induction p as [|x p IH]; simpl; [reflexivity|].
  rewrite bool_decide_eq_true_2 by reflexivity. exact IH.
Qed.

Lemma find_here sub s : startswith sub s = true -> find sub s = Some 0.
Proof. intros H0. destruct s; simpl; rewrite H0; reflexivity. Qed.

Lemma find_cons sub c s :
  startswith sub (c :: s) = false -> find sub (c :: s) = S <$> find sub s.
Proof. intros H0. simpl find. rewrite H0. reflexivity. Qed.

Lemma find_None_cons sub c s :
  find sub (c :: s) = None ->
  startswith sub (c :: s) = false /\ find sub s = None.
Proof.
  simpl find. destruct (startswith sub (c :: s)); [discriminate|].
  destruct (find sub s); [discriminate|]. split; reflexivity.
Qed.

(** A match that runs over an element foreign to the pattern is no
    match. *)
Lemma startswith_foreign sub a c t :
  c ∉ sub -> startswith sub (a ++ c :: t) = true -> startswith sub a = true.
Proof.
  revert a. induction sub as [|x sub IH]; intros a Hc; [reflexivity|].
  destruct a as [|y a]; simpl.
  - rewrite andb_true_iff, bool_decide_eq_true. intros [-> _].
    exfalso. apply Hc. left.
  - rewrite !andb_true_iff. intros [Hxy Hrest]. split; [exact Hxy|].
    apply IH; [|exact Hrest]. intros Hin. apply Hc. right. exact Hin.
Qed.

(** A segment free of the pattern, followed by an element foreign to
    the pattern, is skipped by [find]. *)
Lemma find_skip sub a c t :
  find sub a = None -> c ∉ sub ->
  find sub (a ++ c :: t) = (fun i => length a + 1 + i) <$> find sub t.
Proof.
  intros Hnone Hc. induction a as [|y a IH].
  - assert (Hs : startswith sub (c :: t) = false).
    { apply not_true_is_false. intros Hs.
      apply (startswith_foreign sub [] c t Hc) in Hs.
      destruct sub; [discriminate|discriminate]. }
    simpl app. rewrite (find_cons _ _ _ Hs). destruct (find sub t); reflexivity.
  - apply find_None_cons in Hnone as [Hs Hrest].
    assert (Hs' : startswith sub ((y :: a) ++ c :: t) = false).
    { apply not_true_is_false. intros Hs'.
      apply (startswith_foreign sub (y :: a) c t Hc) in Hs'. congruence. }
    change ((y :: a) ++ c :: t) with (y :: (a ++ c :: t)) in *.
    rewrite (find_cons _ _ _ Hs'), (IH Hrest).
    destruct (find sub t); reflexivity.
Qed.

Lemma startswith_agrees sub p t :
  startswith sub (p ++ t) = true -> agrees sub p = true.
Proof.
  revert p. induction sub as [|x sub IH]; intros [|y p]; simpl; try reflexivity.
  rewrite !andb_true_iff. intros [Hxy Hrest]. split; [exact Hxy|].
  apply IH. exact Hrest.
Qed.

Lemma find_clear sub p t :
  clear_of sub p = true ->
  find sub (p ++ t) = (fun i => length p + i) <$> find sub t.
Proof.
  induction p as [|y p IH]; intros Hclear.
  - simpl. destruct (find sub t); reflexivity.
  - simpl in Hclear. apply andb_true_iff in Hclear as [Hag Hclear].
    assert (Hs : startswith sub (y :: (p ++ t)) = false).
    { apply not_true_is_false. intros Hs.
      apply (startswith_agrees sub (y :: p) t) in Hs.
      rewrite Hs in Hag. discriminate. }
    change ((y :: p) ++ t) with (y :: (p ++ t)).
    rewrite (find_cons _ _ _ Hs), (IH Hclear).
    destruct (find sub t); reflexivity.
Qed.

Lemma find_Some_length sub s i :
  find sub s = Some i -> sub <> [] -> i + length sub <= length s.
Proof.
  revert i. induction s as [|y s IH]; intros i.
  - simpl. destruct sub; [congruence|discriminate].
  - simpl find. destruct (startswith sub (y :: s)) eqn:Hs.
    + intros [= <-] _. clear IH. revert Hs. generalize (y :: s).
      induction sub as [|x sub IHs]; intros [|z l]; simpl; try discriminate; try lia.
      rewrite andb_true_iff. intros [_ Hr]. specialize (IHs l Hr). lia.
    + destruct (find sub s) as [j|]; [|discriminate].
      intros [= <-] Hne. specialize (IH j eq_refl Hne). simpl. lia.
Qed.

Lemma split_fuel_enough sep : sep <> [] ->
  forall f1 f2 s, length s <= f1 -> length s <= f2 ->
    split_fuel f1 sep s = split_fuel f2 sep s.
Proof.
  intros Hne. induction f1 as [|f1 IH]; intros f2 s H1 H2.
  - destruct s; [|simpl in H1; lia].
    destruct f2; simpl; [reflexivity|].
    destruct sep; [congruence|reflexivity].
  - destruct f2 as [|f2].
    + destruct s; [|simpl in H2; lia]. simpl.
      destruct sep; [congruence|reflexivity].
    + simpl. destruct (find sep s) as [i|] eqn:Hf; [|reflexivity].
      f_equal. pose proof (find_Some_length _ _ _ Hf Hne) as Hlen.
      assert (0 < length sep) by (destruct sep; [congruence|simpl; lia]).
      apply IH; rewrite length_drop; lia.
Qed.

Lemma split_found sep s i :
  sep <> [] -> find sep s = Some i ->
  split sep s = take i s :: split sep (drop (i + length sep) s).
Proof.
  intros Hne Hf. unfold split.
  pose proof (find_Some_length _ _ _ Hf Hne) as Hlen.
  assert (0 < length sep) by (destruct sep; [congruence|simpl; lia]).
  destruct (length s) as [|n] eqn:Hn; [lia|].
  simpl. rewrite Hf. f_equal.
  apply split_fuel_enough; [exact Hne| |]; rewrite length_drop; lia.
Qed.

Lemma split_not_found sep s : find sep s = None -> split sep s = [s].
Proof. intros Hf. unfold split. destruct (length s); simpl; rewrite ?Hf; reflexivity. Qed.

(** The first piece of a split: the text before the separator. *)
Lemma split_app sep a rest :
  sep <> [] -> find sep (a ++ sep ++ rest) = Some (length a) ->
  split sep (a ++ sep ++ rest) = a :: split sep rest.
Proof.
  intros Hne Hf. rewrite (split_found _ _ _ Hne Hf).
  rewrite take_app_length. f_equal. f_equal.
  rewrite drop_app_ge by lia.
  replace (length a + length sep - length a) with (length sep) by lia.
  apply drop_app_length.
Qed.

Lemma contains_false sub s :
  contains sub s = false -> find sub s = None.
Proof. unfold contains. destruct (find sub s); [discriminate|reflexivity]. Qed.

Lemma agrees_app_l sub1 sub2 p :
  agrees (sub1 ++ sub2) p = true -> agrees sub1 p = true.
Proof.
  revert p. induction sub1 as [|x sub1 IH]; intros [|y p]; simpl;
    try reflexivity.
  rewrite !andb_true_iff. intros [Hxy Hrest]. split; [exact Hxy|].
  apply IH, Hrest.
Qed.

(** A segment clear of the beginning of a pattern is clear of the
    pattern. *)
Lemma clear_of_app_l sub1 sub2 p :
  clear_of sub1 p = true -> clear_of (sub1 ++ sub2) p = true.
Proof.
  induction p as [|y p IH]; simpl; [reflexivity|].
  rewrite !andb_true_iff, !negb_true_iff. intros [Hag Hclear].
  split; [|apply IH, Hclear].
  apply not_true_is_false. intros H0. apply agrees_app_l in H0. congruence.
Qed.

Lemma find_head_absent x sub s : x ∉ s -> find (x :: sub) s = None.
Proof.
  induction s as [|y s IH]; intros Hx; [reflexivity|].
  assert (Hs : startswith (x :: sub) (y :: s) = false).
  { simpl. rewrite bool_decide_eq_false_2; [reflexivity|].
    intros ->. apply Hx. left. }
  rewrite (find_cons _ _ _ Hs), IH; [reflexivity|].
  intros Hin. apply Hx. right. exact Hin.
Qed.

Lemma startswith_length sub s :
  startswith sub s = true -> length sub <= length s.
Proof.
  revert s. induction sub as [|x sub IH]; intros [|y s]; simpl;
    try discriminate; try lia.
  rewrite andb_true_iff. intros [_ Hr]. specialize (IH s Hr). lia.
Qed.

Lemma find_short sub s : length s < length sub -> find sub s = None.
Proof.
  induction s as [|y s IH]; intros Hlen.
  - destruct sub; [simpl in Hlen; lia|reflexivity].
  - assert (Hs : startswith sub (y :: s) = false).
    { apply not_true_is_false. intros Hs. apply startswith_length in Hs. lia. }
    rewrite (find_cons _ _ _ Hs), IH; [reflexivity|]. simpl in Hlen. lia.
Qed.

(** A pattern that occurs is found. *)
Lemma contains_middle sub p t : contains sub (p ++ sub ++ t) = true.
Proof.
  unfold contains. induction p as [|y p IH]; simpl app.
  - rewrite (find_here sub (sub ++ t)) by apply startswith_app. reflexivity.
  - simpl find. destruct (startswith sub (y :: p ++ sub ++ t)); [reflexivity|].
    destruct (find sub (p ++ sub ++ t)); [reflexivity|discriminate].
Qed.

End SeqFacts.

(** ** Stripping *)
Section StripFacts.
Import Py.
Context {A : Type}.
Implicit Types (p q : A -> bool) (s a ws : list A) (c : A).

Lemma rstrip_keep p c s : p c = false -> rstrip p (c :: s) = c :: rstrip p s.
Proof. intros Hc. simpl. rewrite Hc. destruct (rstrip p s); reflexivity. Qed.

Lemma rstrip_app_keep p a s :
  rstrip p s <> [] -> rstrip p (a ++ s) = a ++ rstrip p s.
Proof.
  intros Hne. induction a as [|x a IH]; [reflexivity|].
  simpl. rewrite IH. destruct (a ++ rstrip p s) eqn:E; [|reflexivity].
  apply app_eq_nil in E as [_ E]. congruence.
Qed.

Lemma rstrip_all p ws : forallb p ws = true -> rstrip p ws = [].
Proof.
  induction ws as [|x ws IH]; [reflexivity|]. simpl.
  rewrite andb_true_iff. intros [Hx Hws]. rewrite (IH Hws), Hx. reflexivity.
Qed.

Lemma rstrip_app_all p s ws :
  forallb p ws = true -> rstrip p (s ++ ws) = rstrip p s.
Proof.
  intros Hws. induction s as [|x s IH]; simpl.
  - apply rstrip_all, Hws.
  - rewrite IH. reflexivity.
Qed.

Lemma rstrip_snoc_keep p s c : p c = false -> rstrip p (s ++ [c]) = s ++ [c].
Proof.
  intros Hc. rewrite rstrip_app_keep; simpl; rewrite Hc; [reflexivity|discriminate].
Qed.

Lemma rstrip_last p s c :
  last s = Some c -> p c = false -> rstrip p s = s.
Proof.
  intros Hlast Hc. destruct (last_Some s c) as [[s' ->] _]; [exact Hlast|].
  apply rstrip_snoc_keep, Hc.
Qed.

Lemma lstrip_head p c s : p c = false -> lstrip p (c :: s) = c :: s.
Proof. intros Hc. simpl. rewrite Hc. reflexivity. Qed.

Lemma strip_id p s c d :
  head s = Some c -> p c = false -> last s = Some d -> p d = false ->
  strip p s = s.
Proof.
  intros Hh Hc Hl Hd. unfold strip. rewrite (rstrip_last p s d Hl Hd).
  destruct s as [|x s]; [reflexivity|]. injection Hh as ->.
  apply lstrip_head, Hc.
Qed.

Lemma lstrip_length p s : length (lstrip p s) <= length s.
Proof.
  induction s as [|x s IH]; simpl; [lia|]. destruct (p x); simpl; lia.
Qed.

Lemma rstrip_length p s : length (rstrip p s) <= length s.
Proof.
  induction s as [|x s IH]; simpl; [lia|].
  destruct (rstrip p s); [destruct (p x)|]; simpl in *; lia.
Qed.

Lemma strip_length p s : length (strip p s) <= length s.
Proof.
  unfold strip. pose proof (lstrip_length p (rstrip p s)).
  pose proof (rstrip_length p s). lia.
Qed.

(** What [rstrip] removes is a run of stripped elements at the end. *)
Lemma rstrip_decompose p s :
  exists ws, s = rstrip p s ++ ws /\ forallb p ws = true.
Proof.
  induction s as [|x s (ws & Hs & Hws)]; [exists []; split; reflexivity|].
  simpl. destruct (rstrip p s) as [|y t] eqn:E.
  - destruct (p x) eqn:Hx.
    + exists (x :: ws). simpl in Hs. subst s. split; [reflexivity|].
      simpl. rewrite Hx. exact Hws.
    + exists ws. simpl in Hs. subst s. split; [reflexivity|exact Hws].
  - exists ws. split; [|exact Hws]. simpl. f_equal. exact Hs.
Qed.

Lemma rstrip_nil_all p s : rstrip p s = [] -> forallb p s = true.
Proof.
  intros E. destruct (rstrip_decompose p s) as (ws & Hs & Hws).
  rewrite E in Hs. simpl in Hs. subst ws. exact Hws.
Qed.

Lemma forallb_rstrip q p s : forallb q s = true -> forallb q (rstrip p s) = true.
Proof.
  intros Hq. destruct (rstrip_decompose p s) as (ws & Hs & _).
  rewrite Hs, forallb_app in Hq. apply andb_true_iff in Hq as [Hq _]. exact Hq.
Qed.


Lemma rstrip_last_kept p s c : last (rstrip p s) = Some c -> p c = false.
Proof.
  induction s as [|x s IH]; simpl; [discriminate|].
  destruct (rstrip p s) as [|y t] eqn:E.
  - destruct (p x) eqn:Hx; simpl; [discriminate|]. intros [= <-]. exact Hx.
  - rewrite last_cons_cons. exact IH.
Qed.

Lemma lstrip_head_kept p s c : head (lstrip p s) = Some c -> p c = false.
Proof.
  induction s as [|x s IH]; simpl; [discriminate|].
  destruct (p x) eqn:Hx; [exact IH|]. simpl. intros [= <-]. exact Hx.
Qed.

Lemma lstrip_last p s c : last (lstrip p s) = Some c -> last s = Some c.
Proof.
  induction s as [|x s IH]; simpl; [discriminate|].
  destruct (p x); [|tauto]. intros H. rewrite last_cons, (IH H). reflexivity.
Qed.

(** Stripping a smaller set of trailing elements first changes nothing,
    unless they uncover an element of that set. *)
Lemma strip_after_rstrip p q s :
  (forall c, q c = true -> p c = false -> last (strip p s) <> Some c) ->
  strip p (rstrip q s) = strip p s.
Proof.
  intros Hlast. unfold strip.
  destruct (rstrip_decompose p s) as (ws & Hs & Hws).
  destruct (rstrip_decompose q ws) as (ws' & Hws' & _).
  assert (Hkept : forallb p (rstrip q ws) = true) by (apply forallb_rstrip, Hws).
  destruct (last (rstrip p s)) as [c|] eqn:Hc.
  - assert (Hpc : p c = false) by (eapply rstrip_last_kept, Hc).
    assert (Hqc : q c = false).
    { apply not_true_is_false. intros Hqc. apply (Hlast c Hqc Hpc).
      unfold strip. destruct (last_Some (rstrip p s) c) as [[r' Hr'] _];
        [exact Hc|].
      rewrite Hr'. clear -Hpc. induction r' as [|x r' IH]; simpl.
      - rewrite Hpc. reflexivity.
      - destruct (p x); [exact IH|]. rewrite last_cons.
        rewrite last_snoc. reflexivity. }
    assert (Hq : rstrip q s = rstrip p s ++ rstrip q ws).
    { rewrite Hs at 1. destruct (rstrip q ws) as [|y t] eqn:E.
      - rewrite app_nil_r, (rstrip_app_all q _ ws (rstrip_nil_all q ws E)).
        apply (rstrip_last q _ c Hc Hqc).
      - rewrite <- E. apply rstrip_app_keep. rewrite E. discriminate. }
    rewrite Hq, (rstrip_app_all p _ _ Hkept).
    rewrite (rstrip_last p _ c Hc Hpc). reflexivity.
  - apply last_None in Hc. rewrite Hc in *. simpl in Hs. subst ws.
    rewrite (rstrip_all p _ (forallb_rstrip p q s Hws)). reflexivity.
Qed.

Lemma strip_idempotent p s : strip p (strip p s) = strip p s.
Proof.
  unfold strip at 1. set (r := strip p s).
  destruct (last r) as [c|] eqn:Hc.
  - assert (Hpc : p c = false).
    { unfold r, strip in Hc. apply lstrip_last in Hc.
      eapply rstrip_last_kept, Hc. }
    rewrite (rstrip_last p r c Hc Hpc).
    destruct r as [|x r'] eqn:Hr; [reflexivity|].
    assert (Hx : p x = false).
    { apply (lstrip_head_kept p (rstrip p s)). fold (strip p s). fold r.
      rewrite Hr. reflexivity. }
    apply lstrip_head, Hx.
  - apply last_None in Hc. rewrite Hc. reflexivity.
Qed.

End StripFacts.

(** ** UTF-8 round trip *)
Section Utf8Facts.
Import Py.

Lemma to_N_byte_of_N (n : N) : (n < 256)%N -> Byte.to_N (byte_of_N n) = n.
Proof.
  intros Hn. unfold byte_of_N. destruct (Byte.of_N n) as [x|] eqn:E.
  - apply Byte.to_of_N, E.
  - apply Byte.of_N_None_iff in E. lia.
Qed.

(** The base-64 digits of a code point, as the encoder takes them. *)
Lemma base64_digits (c : N) :
  exists q1 r1 q2 r2 q3 r3 : N,
    (c = 64 * q1 + r1 /\ q1 = 64 * q2 + r2 /\ q2 = 64 * q3 + r3
     /\ r1 < 64 /\ r2 < 64 /\ r3 < 64
     /\ c / 64 = q1 /\ c mod 64 = r1 /\ (c / 64) mod 64 = r2
     /\ c / 4096 = q2 /\ (c / 4096) mod 64 = r3 /\ c / 262144 = q3)%N.
Proof.
  exists (c / 64)%N, (c mod 64)%N, (c / 4096)%N, ((c / 64) mod 64)%N,
         (c / 262144)%N, ((c / 4096) mod 64)%N.
  change 4096%N with (64 * 64)%N. change 262144%N with (64 * 64 * 64)%N.
  rewrite <- !N.Div0.div_div.
  pose proof (N.div_mod c 64 ltac:(lia)).
  pose proof (N.div_mod (c / 64) 64 ltac:(lia)).
  pose proof (N.div_mod (c / 64 / 64) 64 ltac:(lia)).
  pose proof (N.mod_upper_bound c 64 ltac:(lia)).
  pose proof (N.mod_upper_bound (c / 64) 64 ltac:(lia)).
  pose proof (N.mod_upper_bound (c / 64 / 64) 64 ltac:(lia)).
  repeat split; assumption.
Qed.

Ltac decide_tests :=
  repeat match goal with
         | |- context [N.ltb ?x ?y] => destruct (N.ltb_spec x y); try lia
         | |- context [N.leb ?x ?y] => destruct (N.leb_spec x y); try lia
         | |- context [N.eqb ?x ?y] => destruct (N.eqb_spec x y); try lia
         end.

Lemma utf8_decode_encode_char (c : N) (rest : bytes) :
  is_scalar c = true ->
  utf8_decode_ignore (utf8_encode_char c ++ rest) = c :: utf8_decode_ignore rest.
Proof.
  unfold is_scalar, is_surrogate. rewrite andb_true_iff, negb_true_iff.
  intros [Hmax Hsur]. apply N.ltb_lt in Hmax.
  assert (Hns : (c < 55296 \/ 57343 < c)%N).
  { destruct (N.leb_spec 55296 c); destruct (N.leb_spec c 57343);
      simpl in Hsur; try discriminate; lia. }
  clear Hsur. unfold utf8_encode_char.
  destruct (base64_digits c)
    as (q1 & r1 & q2 & r2 & q3 & r3 & Hc & Hq1 & Hq2 & Hr1 & Hr2 & Hr3
        & -> & -> & -> & -> & -> & ->).
  destruct (N.ltb_spec c 128).
  { simpl. rewrite to_N_byte_of_N by lia. decide_tests. reflexivity. }
  destruct (N.ltb_spec c 2048).
  { cbn [app utf8_decode_ignore]. unfold is_cont.
    rewrite !to_N_byte_of_N by lia. decide_tests. f_equal. lia. }
  destruct (N.ltb_spec c 65536).
  { cbn [app utf8_decode_ignore]. unfold is_cont.
    rewrite !to_N_byte_of_N by lia. decide_tests; f_equal; lia. }
  cbn [app utf8_decode_ignore]. unfold is_cont.
  rewrite !to_N_byte_of_N by lia. decide_tests; f_equal; lia.
Qed.

Lemma utf8_decode_encode (s : pystr) (encoded : bytes) :
  utf8_encode s = Some encoded -> utf8_decode_ignore encoded = s.
Proof.
  revert encoded. induction s as [|c s IH]; intros encoded; simpl.
  - intros [= <-]. reflexivity.
  - destruct (is_scalar c) eqn:Hc; [|discriminate].
    destruct (utf8_encode s) as [r|]; [|discriminate].
    intros [= <-]. rewrite (utf8_decode_encode_char c r Hc), (IH r eq_refl).
    reflexivity.
Qed.

Lemma utf8_encode_char_last (c : N) :
  exists x, last (utf8_encode_char c) = Some x
            /\ ((c < 128 /\ Byte.to_N x = c)%N \/ (128 <= Byte.to_N x)%N).
Proof.
  unfold utf8_encode_char.
  destruct (base64_digits c)
    as (q1 & r1 & q2 & r2 & q3 & r3 & Hc & Hq1 & Hq2 & Hr1 & Hr2 & Hr3
        & -> & -> & -> & -> & -> & ->).
  destruct (N.ltb_spec c 128).
  { eexists. split; [reflexivity|]. left. split; [assumption|].
    apply to_N_byte_of_N. lia. }
  destruct (N.ltb_spec c 2048); [|destruct (N.ltb_spec c 65536)].
  all: eexists; (split; [reflexivity|]); right;
    rewrite to_N_byte_of_N by lia; lia.
Qed.

Lemma utf8_encode_ascii (s : pystr) :
  forallb (fun c => c <? 128)%N s = true ->
  utf8_encode s = Some (map byte_of_N s).
Proof.
  induction s as [|c s IH]; [reflexivity|]. simpl forallb.
  rewrite andb_true_iff. intros [Hc Hs]. simpl utf8_encode.
  assert (Hscalar : is_scalar c = true).
  { apply N.ltb_lt in Hc. unfold is_scalar, is_surrogate.
    destruct (N.ltb_spec c 1114112); [|lia].
    destruct (N.leb_spec 55296 c); [lia|reflexivity]. }
  rewrite Hscalar, (IH Hs). unfold utf8_encode_char. rewrite Hc. reflexivity.
Qed.

Lemma utf8_decode_ascii_app (a rest : bytes) :
  forallb (fun x => Byte.to_N x <? 128)%N a = true ->
  utf8_decode_ignore (a ++ rest) = map Byte.to_N a ++ utf8_decode_ignore rest.
Proof.
  induction a as [|x a IH]; [reflexivity|]. simpl forallb.
  rewrite andb_true_iff. intros [Hx Ha].
  change ((x :: a) ++ rest) with (x :: (a ++ rest)).
  cbn [utf8_decode_ignore]. cbv zeta. rewrite Hx, (IH Ha). reflexivity.
Qed.

Lemma utf8_decode_encode_app (s : pystr) : forall (encoded rest : bytes),
  utf8_encode s = Some encoded ->
  utf8_decode_ignore (encoded ++ rest) = s ++ utf8_decode_ignore rest.
Proof.
  induction s as [|c s IH]; intros encoded rest; simpl utf8_encode.
  - intros [= <-]. reflexivity.
  - destruct (is_scalar c) eqn:Hc; [|discriminate].
    destruct (utf8_encode s) as [r|]; [|discriminate].
    intros [= <-]. rewrite <- app_assoc.
    rewrite (utf8_decode_encode_char c (r ++ rest) Hc), (IH r rest eq_refl).
    reflexivity.
Qed.

(** Every byte of an encoded character is the character itself, when
    that is ASCII, or a byte from 128 up. *)
Lemma utf8_encode_char_bytes (c : N) (x : byte) :
  is_scalar c = true -> x ∈ utf8_encode_char c ->
  (c < 128 /\ Byte.to_N x = c)%N \/ (128 <= Byte.to_N x)%N.
Proof.
  unfold is_scalar. rewrite andb_true_iff. intros [Hmax _].
  apply N.ltb_lt in Hmax. unfold utf8_encode_char.
  destruct (base64_digits c)
    as (q1 & r1 & q2 & r2 & q3 & r3 & Hc & Hq1 & Hq2 & Hr1 & Hr2 & Hr3
        & -> & -> & -> & -> & -> & ->).
  destruct (N.ltb_spec c 128).
  { intros Hx. apply elem_of_cons in Hx as [-> | Hx]; [|inversion Hx]. left.
    split; [assumption|]. apply to_N_byte_of_N. lia. }
  destruct (N.ltb_spec c 2048); [|destruct (N.ltb_spec c 65536)].
  all: intros Hx; right;
    repeat (apply elem_of_cons in Hx as [-> | Hx];
            [rewrite to_N_byte_of_N by lia; lia|]);
    inversion Hx.
Qed.

Lemma utf8_encode_bytes (s : pystr) : forall (encoded : bytes) (x : byte),
  utf8_encode s = Some encoded -> x ∈ encoded ->
  (Byte.to_N x ∈ s) \/ (128 <= Byte.to_N x)%N.
Proof.
  induction s as [|c s IH]; intros encoded x; simpl utf8_encode.
  - intros [= <-] Hx. inversion Hx.
  - destruct (is_scalar c) eqn:Hc; [|discriminate].
    destruct (utf8_encode s) as [r|]; [|discriminate].
    intros [= <-] Hx. apply elem_of_app in Hx as [Hx|Hx].
    + destruct (utf8_encode_char_bytes c x Hc Hx) as [[_ ->]|Hge];
        [left; left|right; exact Hge].
    + destruct (IH r x eq_refl Hx) as [Hin|Hge];
        [left; right; exact Hin|right; exact Hge].
Qed.

Lemma utf8_encode_nonempty (s : pystr) (encoded : bytes) :
  utf8_encode s = Some encoded -> s <> [] -> encoded <> [].
Proof.
  destruct s as [|c s]; [congruence|]. simpl.
  destruct (is_scalar c); [|discriminate].
  destruct (utf8_encode s) as [r|]; [|discriminate].
  intros [= <-] _ H. apply app_eq_nil in H as [H _].
  unfold utf8_encode_char in H.
  repeat match type of H with
         | (if ?t then _ else _) = _ => destruct t
         end; discriminate.
Qed.

End Utf8Facts.

(** ** Boundaries and delimiter lines *)
Section Boundaries.
Import Py Multipart MultipartRequest Spec.

Lemma boundary_char_facts (c : N) :
  boundary_char c = true ->
  (c < 128)%N /\ c <> 13%N /\ c <> 10%N /\ c <> dquote /\ c <> 59%N
  /\ unicode_space c = false.
Proof.
  unfold boundary_char, one_of, dquote.
  rewrite !orb_true_iff, !andb_true_iff, bool_decide_eq_true.
  rewrite !N.leb_le. intros Hc.
  change (str "'()+_,-./:=?")
    with [39; 40; 41; 43; 95; 44; 45; 46; 47; 58; 61; 63]%N in Hc.
  assert (Hrange : (39 <= c <= 122)%N).
  { destruct Hc as [[[Hc|Hc]|Hc]|Hc]; try lia.
    repeat (apply elem_of_cons in Hc as [-> | Hc]; [lia|]). inversion Hc. }
  assert (Hsemi : c <> 59%N).
  { intros ->. destruct Hc as [[[Hc|Hc]|Hc]|Hc]; try lia.
    repeat (apply elem_of_cons in Hc as [Hc | Hc]; [discriminate Hc|]).
    inversion Hc. }
  repeat split; try lia. unfold unicode_space.
  repeat match goal with
         | |- context [N.leb ?x ?y] => destruct (N.leb_spec x y); try lia
         | |- context [N.eqb ?x ?y] => destruct (N.eqb_spec x y); try lia
         end; reflexivity.
Qed.

Lemma boundary_ascii (boundary : pystr) :
  forallb boundary_char boundary = true ->
  forallb (fun c => c <? 128)%N boundary = true.
Proof.
  rewrite !forallb_forall. intros H c Hc. apply N.ltb_lt.
  apply (boundary_char_facts c (H c Hc)).
Qed.

(** A delimiter holds no CR, LF or double quote. *)
Lemma delimiter_foreign (boundary : pystr) (x : byte) :
  forallb boundary_char boundary = true ->
  x = CR \/ x = LF \/ x = quote_b -> x ∉ delimiter_of boundary.
Proof.
  intros Hb Hx Hin. unfold delimiter_of in Hin.
  apply elem_of_app in Hin as [Hin|Hin].
  - destruct Hx as [-> | [-> | ->]];
      repeat (apply elem_of_cons in Hin as [Hin | Hin]; [discriminate Hin|]);
      inversion Hin.
  - apply list_elem_of_In, in_map_iff in Hin as (c & <- & Hc).
    rewrite forallb_forall in Hb.
    assert (Hc' : boundary_char c = true) by (apply Hb, Hc).
    destruct (boundary_char_facts c Hc') as (Hlt & H13 & H10 & Hq & _).
    assert (Hn : Byte.to_N (byte_of_N c) = c) by (apply to_N_byte_of_N; lia).
    destruct Hx as [Hx | [Hx | Hx]]; rewrite Hx in Hn; simpl in Hn;
      unfold dquote in *; congruence.
Qed.

Lemma delimiter_length (boundary : pystr) :
  boundary <> [] -> 2 < length (delimiter_of boundary).
Proof.
  destruct boundary; [congruence|]. intros _. unfold delimiter_of.
  rewrite length_app. simpl. lia.
Qed.

Lemma delimiter_of_nonempty (boundary : pystr) : delimiter_of boundary <> [].
Proof. discriminate. Qed.

Lemma delimiter_encoded (boundary : pystr) :
  forallb boundary_char boundary = true ->
  utf8_encode (str "--" ++ boundary) = Some (delimiter_of boundary).
Proof.
  intros Hb. rewrite utf8_encode_ascii.
  - rewrite map_app. reflexivity.
  - rewrite forallb_app, (boundary_ascii _ Hb). reflexivity.
Qed.

(** The part after a delimiter line: a prefix with no two hyphens in a
    row, content free of the delimiter, the line end, then the next
    delimiter line. *)
Lemma find_delimiter_after (boundary : pystr) (prefix content rest : bytes) :
  forallb boundary_char boundary = true ->
  clear_of (b "--") prefix = true ->
  contains (delimiter_of boundary) content = false ->
  find (delimiter_of boundary)
       ((prefix ++ content ++ CRLF) ++ delimiter_of boundary ++ rest)
  = Some (length (prefix ++ content ++ CRLF)).
Proof.
  intros Hb Hclear Hfree. apply contains_false in Hfree.
  assert (Hclear' : clear_of (delimiter_of boundary) prefix = true)
    by exact (clear_of_app_l (b "--") _ _ Hclear).
  rewrite <- !app_assoc.
  rewrite (find_clear (delimiter_of boundary) prefix _ Hclear').
  change (CRLF ++ delimiter_of boundary ++ rest)
    with (CR :: ([LF] ++ delimiter_of boundary ++ rest)).
  rewrite (find_skip _ content CR _ Hfree)
    by (apply delimiter_foreign; [exact Hb|left; reflexivity]).
  rewrite (find_clear (delimiter_of boundary) [LF])
    by exact (clear_of_app_l (b "--") _ [LF] eq_refl).
  rewrite (find_here _ (delimiter_of boundary ++ rest))
    by apply startswith_app.
  simpl. rewrite !length_app. simpl. f_equal. lia.
Qed.

(** The same when the prefix holds a quoted name. *)
Lemma find_delimiter_after_name (boundary : pystr)
    (lead name trail content rest : bytes) :
  forallb boundary_char boundary = true ->
  clear_of (b "--") lead = true ->
  contains (delimiter_of boundary) name = false ->
  clear_of (b "--") trail = true ->
  contains (delimiter_of boundary) content = false ->
  find (delimiter_of boundary)
       (((lead ++ name ++ quote_b :: trail) ++ content ++ CRLF)
          ++ delimiter_of boundary ++ rest)
  = Some (length ((lead ++ name ++ quote_b :: trail) ++ content ++ CRLF)).
Proof.
  intros Hb Hlead Hname Htrail Hfree. apply contains_false in Hname.
  pose proof (find_delimiter_after boundary trail content rest Hb Htrail Hfree)
    as Hnext.
  assert (Hlead' : clear_of (delimiter_of boundary) lead = true)
    by exact (clear_of_app_l (b "--") _ _ Hlead).
  rewrite <- !app_assoc in *. rewrite <- !app_comm_cons.
  rewrite (find_clear (delimiter_of boundary) lead _ Hlead').
  rewrite (find_skip _ name quote_b _ Hname)
    by (apply delimiter_foreign; [exact Hb|right; right; reflexivity]).
  rewrite Hnext. simpl. rewrite !length_app. simpl. rewrite !length_app.
  simpl. f_equal. lia.
Qed.

Lemma find_delimiter_closing (boundary : pystr) :
  boundary <> [] -> forallb boundary_char boundary = true ->
  find (delimiter_of boundary) (b "--" ++ CRLF) = None.
Proof.
  intros Hne Hb. pose proof (delimiter_length boundary Hne) as Hlen.
  change (b "--" ++ CRLF) with (b "--" ++ CR :: [LF]).
  rewrite (find_skip _ (b "--") CR [LF]).
  - rewrite find_short by (change (length [LF]) with 1; lia). reflexivity.
  - apply find_short. change (length (b "--")) with 2. lia.
  - apply delimiter_foreign; [exact Hb|left; reflexivity].
Qed.

(** The pieces of a body of two parts. *)
Lemma split_body (delimiter part1 part2 : bytes) :
  delimiter <> [] ->
  (forall rest, find delimiter (part1 ++ delimiter ++ rest)
                = Some (length part1)) ->
  (forall rest, find delimiter (part2 ++ delimiter ++ rest)
                = Some (length part2)) ->
  find delimiter (b "--" ++ CRLF) = None ->
  split delimiter (body_of delimiter [part1; part2])
  = [ []; part1; part2; b "--" ++ CRLF ].
Proof.
  intros Hne H1 H2 Hclose.
  replace (body_of delimiter [part1; part2])
    with ([] ++ delimiter ++ part1 ++ delimiter ++ part2 ++ delimiter
             ++ b "--" ++ CRLF)
    by (unfold body_of; simpl; rewrite <- !app_assoc; reflexivity).
  rewrite (split_app delimiter [] _ Hne)
    by (apply find_here; exact (startswith_app delimiter _)).
  rewrite (split_app delimiter part1 _ Hne) by apply H1.
  rewrite (split_app delimiter part2 _ Hne) by apply H2.
  rewrite (split_not_found _ _ Hclose). reflexivity.
Qed.

(** The header of a request declares its boundary. *)
Lemma declared_boundary (boundary : pystr) :
  boundary <> [] -> forallb boundary_char boundary = true ->
  startswith (str "multipart/form-data") (content_type_for boundary) = true
  /\ find_boundary (split (str ";") (content_type_for boundary))
     = Some boundary.
Proof.
  intros Hne Hb.
  assert (Hall : forall c, c ∈ boundary -> boundary_char c = true).
  { intros c Hc. rewrite forallb_forall in Hb. apply Hb, list_elem_of_In, Hc. }
  split; [exact (startswith_app (str "multipart/form-data") _)|].
  assert (Hsplit : split (str ";") (content_type_for boundary)
                   = [str "multipart/form-data"; str " boundary=" ++ boundary]).
  { change (content_type_for boundary)
      with (str "multipart/form-data" ++ str ";" ++ (str " boundary=" ++ boundary)).
    rewrite (split_app (str ";")); [|discriminate|].
    - f_equal. apply split_not_found.
      rewrite (find_clear (str ";") (str " boundary=")) by reflexivity.
      rewrite (find_head_absent 59%N [] boundary); [reflexivity|].
      intros Hin.
      destruct (boundary_char_facts _ (Hall _ Hin)) as (_ & _ & _ & _ & Hs & _).
      exact (Hs eq_refl).
    - rewrite (find_clear (str ";") (str "multipart/form-data")) by reflexivity.
      rewrite find_here by apply startswith_app. reflexivity. }
  rewrite Hsplit. cbn [find_boundary].
  replace (strip unicode_space (str "multipart/form-data"))
    with (str "multipart/form-data") by reflexivity.
  replace (startswith (str "boundary=") (str "multipart/form-data"))
    with false by reflexivity.
  assert (Hstrip : strip unicode_space (str " boundary=" ++ boundary)
                   = str "boundary=" ++ boundary).
  { destruct (last boundary) as [d|] eqn:Hd;
      [|apply last_None in Hd; congruence].
    assert (Hds : unicode_space d = false).
    { assert (Hd0 : boundary_char d = true)
        by (apply Hall, last_Some_elem_of, Hd).
      apply (boundary_char_facts d Hd0). }
    unfold strip. rewrite (rstrip_last unicode_space _ d); [reflexivity| |exact Hds].
    rewrite last_app, Hd. reflexivity. }
  rewrite Hstrip, startswith_app.
  unfold split_once.
  rewrite (find_clear (str "=") (str "boundary") (str "=" ++ boundary))
    by reflexivity.
  rewrite find_here by apply startswith_app. cbn [fmap option_fmap option_map].
  change (drop (length (str "boundary") + 0 + length (str "="))
            (str "boundary=" ++ boundary)) with boundary.
  f_equal.
  destruct boundary as [|c0 rest] eqn:Hbd; [congruence|]. rewrite <- Hbd in *.
  destruct (last boundary) as [d|] eqn:Hd;
    [|apply last_None in Hd; congruence].
  apply (strip_id _ _ c0 d); [rewrite Hbd; reflexivity| |exact Hd|].
  - apply bool_decide_eq_false. intros Hin.
    apply list_elem_of_singleton in Hin.
    assert (Hc0 : boundary_char c0 = true) by (apply Hall; rewrite Hbd; left).
    destruct (boundary_char_facts c0 Hc0) as (_ & _ & _ & Hq & _).
    exact (Hq Hin).
  - apply bool_decide_eq_false. intros Hin.
    apply list_elem_of_singleton in Hin.
    assert (Hd0 : boundary_char d = true)
      by (apply Hall, last_Some_elem_of, Hd).
    destruct (boundary_char_facts d Hd0) as (_ & _ & _ & Hq & _).
    exact (Hq Hin).
Qed.

End Boundaries.

(** ** The parts of a well-formed upload *)
Section Parts.
Import Py Multipart MultipartRequest Spec.

Lemma strip_after_crlf (tail : bytes) :
  strip byte_space (CR :: LF :: "C"%byte :: tail)
  = "C"%byte :: rstrip byte_space tail.
Proof.
  unfold strip.
  change (CR :: LF :: "C"%byte :: tail) with ([CR; LF] ++ "C"%byte :: tail).
  rewrite rstrip_app_keep; rewrite (rstrip_keep byte_space "C"%byte) by reflexivity;
    [reflexivity|discriminate].
Qed.

(** Trailing CR, LF and hyphens are what [rstrip] removes after the
    content. *)
Lemma rstrip_content (content : bytes) :
  rstrip (one_of trailer_chars) (content ++ CRLF)
  = rstrip (one_of trailer_chars) content.
Proof. apply rstrip_app_all. reflexivity. Qed.

(** On a multipart request with a boundary the parser validates the
    fields collected from the parts between the delimiter lines. *)
Lemma parse_with_boundary (event : ApiEvent) (raw : bytes) (boundary : pystr)
    (boundary_bytes : bytes) :
  startswith (str "multipart/form-data") (content_type_of (headers event)) = true ->
  body_bytes (body event) = Some raw ->
  find_boundary (split (str ";") (content_type_of (headers event)))
    = Some boundary ->
  boundary <> [] ->
  utf8_encode (str "--" ++ boundary) = Some boundary_bytes ->
  parse_multipart_form_data event
  = validate_fields
      (fold_left process_part (split boundary_bytes raw) initial_fields).
Proof.
  intros Hct Hraw Hb Hne Henc. unfold parse_multipart_form_data, parse_body.
  rewrite Hct, Hraw, Hb. cbn [negb]. destruct boundary; [congruence|].
  rewrite Henc. reflexivity.
Qed.

Lemma no_file_part (parts : list bytes) : forall st,
  pdf_content st = None ->
  forallb (fun part => negb (names_file_part part)) parts = true ->
  pdf_content (fold_left process_part parts st) = None.
Proof.
  induction parts as [|part parts IH]; intros st Hst; [intros _; exact Hst|].
  simpl. rewrite andb_true_iff, negb_true_iff. intros [Hpart Hparts].
  apply IH; [|exact Hparts].
  unfold process_part. unfold names_file_part in Hpart.
  destruct (split_headers part) as [[headers_section content]|].
  - cbv zeta. rewrite Hpart.
    repeat match goal with
           | |- context [if ?test then _ else _] => destruct test
           end; exact Hst.
  - destruct (_ || _); exact Hst.
Qed.

Lemma split_headers_found (headers_section content : bytes) :
  find (CRLF ++ CRLF) (headers_section ++ (CRLF ++ CRLF) ++ content)
  = Some (length headers_section) ->
  split_headers (headers_section ++ (CRLF ++ CRLF) ++ content)
  = Some (headers_section, content).
Proof.
  intros Hfind. unfold split_headers, contains, split_once. rewrite Hfind.
  rewrite take_app_length. rewrite drop_app_ge by lia.
  replace (length headers_section + length (CRLF ++ CRLF) - length headers_section)
    with (length (CRLF ++ CRLF)) by lia.
  rewrite drop_app_length. reflexivity.
Qed.

(** A part whose header block opens with a header line is not skipped. *)
Lemma header_part_not_skipped (headers content : bytes) :
  bool_decide (strip byte_space (part ("C"%byte :: headers) content) = [])
  || bool_decide (strip byte_space (part ("C"%byte :: headers) content) = b "--")
  = false.
Proof.
  unfold part.
  change (CRLF ++ ("C"%byte :: headers) ++ CRLF ++ CRLF ++ content ++ CRLF)
    with (CR :: LF :: "C"%byte :: (headers ++ CRLF ++ CRLF ++ content ++ CRLF)).
  rewrite strip_after_crlf.
  rewrite !bool_decide_eq_false_2 by discriminate. reflexivity.
Qed.

Lemma process_text_part_of (st : Fields) (field : TextField) (text : bytes) :
  process_part st (part (text_headers field) text)
  = {| pdf_content := pdf_content st;
       job_description := Some (text_value text);
       original_filename := original_filename st |}.
Proof.
  unfold process_part.
  replace (bool_decide (strip byte_space (part (text_headers field) text) = [])
           || bool_decide (strip byte_space (part (text_headers field) text)
                           = b "--"))
    with false
    by (symmetry; destruct field; apply header_part_not_skipped).
  replace (part (text_headers field) text)
    with ((CRLF ++ text_headers field) ++ (CRLF ++ CRLF) ++ text ++ CRLF)
    by (unfold part; rewrite <- !app_assoc; reflexivity).
  rewrite split_headers_found.
  2: { rewrite (find_clear (CRLF ++ CRLF) (CRLF ++ text_headers field))
         by (destruct field; reflexivity).
       rewrite (find_here (CRLF ++ CRLF))
         by exact (startswith_app (CRLF ++ CRLF) _).
       simpl. f_equal. lia. }
  cbv zeta.
  replace (contains (quoted_name "resume")
             (utf8_decode_ignore (CRLF ++ text_headers field)))
    with false by (destruct field; vm_compute; reflexivity).
  replace (contains (quoted_name "pdf")
             (utf8_decode_ignore (CRLF ++ text_headers field)))
    with false by (destruct field; vm_compute; reflexivity).
  replace (contains (quoted_name "jobDescription")
             (utf8_decode_ignore (CRLF ++ text_headers field))
           || contains (quoted_name "job_description")
                (utf8_decode_ignore (CRLF ++ text_headers field)))
    with true by (destruct field; vm_compute; reflexivity).
  cbn [orb]. unfold text_value. rewrite rstrip_content. reflexivity.
Qed.

Lemma until_quote_app (name rest : pystr) :
  dquote ∉ name -> until_quote (name ++ dquote :: rest) = (name, dquote :: rest).
Proof.
  induction name as [|c name IH]; intros Hq; [reflexivity|].
  simpl. destruct (N.eqb_spec c dquote) as [->|Hne].
  - exfalso. apply Hq. left.
  - rewrite IH; [reflexivity|]. intros Hin. apply Hq. right. exact Hin.
Qed.

Lemma search_filename_clear (p s : pystr) :
  clear_of (str "filename=" ++ [dquote]) p = true ->
  search_filename (p ++ s) = search_filename s.
Proof.
  induction p as [|y p IH]; intros Hclear; [reflexivity|].
  cbn [clear_of] in Hclear. apply andb_true_iff in Hclear as [Hag Hclear].
  apply negb_true_iff in Hag.
  change ((y :: p) ++ s) with (y :: (p ++ s)).
  assert (Hm : match_filename_at (y :: (p ++ s)) = None).
  { unfold match_filename_at.
    destruct (startswith (str "filename=" ++ [dquote]) (y :: (p ++ s))) eqn:Hs;
      [|reflexivity].
    apply (startswith_agrees _ (y :: p) s) in Hs.
    rewrite Hs in Hag. discriminate. }
  cbn [search_filename]. rewrite Hm. apply IH, Hclear.
Qed.

Lemma search_filename_here (name rest : pystr) :
  name <> [] -> dquote ∉ name ->
  search_filename ((str "filename=" ++ [dquote]) ++ name ++ dquote :: rest)
  = Some name.
Proof.
  intros Hne Hq.
  assert (Hm : match_filename_at
                 ((str "filename=" ++ [dquote]) ++ name ++ dquote :: rest)
               = Some name).
  { unfold match_filename_at. rewrite startswith_app.
    change (drop 10 ((str "filename=" ++ [dquote]) ++ name ++ dquote :: rest))
      with (name ++ dquote :: rest).
    rewrite (until_quote_app name rest Hq).
    destruct name; [congruence|reflexivity]. }
  change ((str "filename=" ++ [dquote]) ++ name ++ dquote :: rest)
    with (102%N :: (str "ilename=" ++ [dquote]) ++ name ++ dquote :: rest) in *.
  cbn [search_filename]. rewrite Hm. reflexivity.
Qed.

(** What precedes and what follows the file name in the header block of
    a file part. *)
Lemma file_headers_shape (field : FileField) (filename : bytes) :
  CRLF ++ file_headers field filename
  = (CRLF ++ disposition (file_field_name field) ++ b "; filename=" ++ [quote_b])
      ++ filename ++ quote_b :: (CRLF ++ b "Content-Type: application/pdf").
Proof. unfold file_headers. rewrite <- !app_assoc. reflexivity. Qed.

(** The blank line after a header block that holds a quoted name. *)
Lemma find_blank_line_after_name (lead name trail rest : bytes) :
  clear_of (CRLF ++ CRLF) lead = true -> CR ∉ name ->
  clear_of (CRLF ++ CRLF) trail = true ->
  find (CRLF ++ CRLF)
       ((lead ++ name ++ quote_b :: trail) ++ (CRLF ++ CRLF) ++ rest)
  = Some (length (lead ++ name ++ quote_b :: trail)).
Proof.
  intros Hlead Hname Htrail.
  rewrite <- !app_assoc, <- !app_comm_cons.
  rewrite (find_clear (CRLF ++ CRLF) lead _ Hlead).
  rewrite (find_skip (CRLF ++ CRLF) name quote_b).
  - rewrite (find_clear (CRLF ++ CRLF) trail _ Htrail).
    rewrite (find_here (CRLF ++ CRLF))
      by exact (startswith_app (CRLF ++ CRLF) _).
    simpl. rewrite !length_app. simpl. f_equal. lia.
  - apply (find_head_absent CR), Hname.
  - intros Hin.
    repeat (apply elem_of_cons in Hin as [Hin | Hin]; [discriminate Hin|]).
    inversion Hin.
Qed.

Lemma process_file_part_of (st : Fields) (field : FileField)
    (filename : pystr) (filename_bytes file : bytes) :
  filename <> [] ->
  Forall (fun c => c <> dquote /\ c <> 13%N /\ c <> 10%N) filename ->
  utf8_encode filename = Some filename_bytes ->
  process_part st (part (file_headers field filename_bytes) file)
  = {| pdf_content := Some (rstrip (one_of trailer_chars) file);
       job_description := job_description st;
       original_filename := filename |}.
Proof.
  intros Hne Hchars Henc.
  assert (Hq : dquote ∉ filename).
  { intros Hin. rewrite Forall_forall in Hchars.
    destruct (Hchars _ Hin) as [H0 _]. congruence. }
  assert (Hcr : CR ∉ filename_bytes).
  { intros Hin.
    destruct (utf8_encode_bytes filename filename_bytes CR Henc Hin) as [H0|H0].
    - rewrite Forall_forall in Hchars.
      destruct (Hchars _ H0) as (_ & H13 & _). apply H13. reflexivity.
    - vm_compute in H0. congruence. }
  unfold process_part.
  replace (bool_decide (strip byte_space
                          (part (file_headers field filename_bytes) file) = [])
           || bool_decide (strip byte_space
                             (part (file_headers field filename_bytes) file)
                           = b "--"))
    with false
    by (symmetry; destruct field; apply header_part_not_skipped).
  replace (part (file_headers field filename_bytes) file)
    with ((CRLF ++ file_headers field filename_bytes) ++ (CRLF ++ CRLF)
            ++ file ++ CRLF)
    by (unfold part; rewrite <- !app_assoc; reflexivity).
  rewrite file_headers_shape.
  rewrite split_headers_found
    by (apply find_blank_line_after_name;
        [destruct field; reflexivity|exact Hcr|reflexivity]).
  rewrite <- file_headers_shape.
  cbv zeta.
  assert (Htext : utf8_decode_ignore (CRLF ++ file_headers field filename_bytes)
                  = ([13; 10]%N
                       ++ str "Content-Disposition: form-data; name="
                       ++ [dquote] ++ str (file_field_name field) ++ [dquote]
                       ++ str "; ")
                      ++ (str "filename=" ++ [dquote]) ++ filename
                      ++ dquote :: [13; 10]%N
                      ++ str "Content-Type: application/pdf").
  { rewrite file_headers_shape.
    rewrite utf8_decode_ascii_app by (destruct field; reflexivity).
    rewrite (utf8_decode_encode_app filename filename_bytes _ Henc).
    destruct field; reflexivity. }
  rewrite Htext.
  replace (contains (quoted_name "resume") _ || contains (quoted_name "pdf") _)
    with true.
  2: { symmetry. destruct field.
       - apply orb_true_iff. left.
         exact (contains_middle (quoted_name "resume")
                  ([13; 10]%N
                     ++ str "Content-Disposition: form-data; ") _).
       - apply orb_true_iff. right.
         exact (contains_middle (quoted_name "pdf")
                  ([13; 10]%N
                     ++ str "Content-Disposition: form-data; ") _). }
  rewrite search_filename_clear by (destruct field; reflexivity).
  rewrite (search_filename_here filename _ Hne Hq).
  rewrite rstrip_content. reflexivity.
Qed.

(** The fields the parser collects from a well-formed upload. *)
Lemma upload_fields_of (event : ApiEvent) (filename : pystr)
    (file text : bytes) :
  well_formed_upload event filename file text ->
  parse_multipart_form_data event
  = validate_fields
      {| pdf_content := Some (rstrip (one_of trailer_chars) file);
         job_description := Some (text_value text);
         original_filename := filename |}.
Proof.
  intros (boundary & file_field & text_field & filename_bytes & file_first
          & Hct & Hne & Hb & Hbody & Hname & Hchars & Henc & Hfn & Hfile
          & Htext).
  destruct (declared_boundary boundary Hne Hb) as [Hstart Hfound].
  rewrite (parse_with_boundary event _ boundary (delimiter_of boundary)
             ltac:(rewrite Hct; exact Hstart) Hbody
             ltac:(rewrite Hct; exact Hfound) Hne
             (delimiter_encoded boundary Hb)).
  f_equal.
  assert (Hfp : forall rest,
    find (delimiter_of boundary)
         (part (file_headers file_field filename_bytes) file
            ++ delimiter_of boundary ++ rest)
    = Some (length (part (file_headers file_field filename_bytes) file))).
  { intros rest.
    replace (part (file_headers file_field filename_bytes) file)
      with (((CRLF ++ disposition (file_field_name file_field)
                ++ b "; filename=" ++ [quote_b])
               ++ filename_bytes
               ++ quote_b :: (CRLF ++ b "Content-Type: application/pdf"
                                ++ CRLF ++ CRLF))
              ++ file ++ CRLF)
      by (unfold part, file_headers; rewrite <- !app_assoc; simpl;
          rewrite <- !app_assoc; reflexivity).
    apply find_delimiter_after_name; try assumption;
      destruct file_field; reflexivity. }
  assert (Htp : forall rest,
    find (delimiter_of boundary)
         (part (text_headers text_field) text ++ delimiter_of boundary ++ rest)
    = Some (length (part (text_headers text_field) text))).
  { intros rest.
    replace (part (text_headers text_field) text)
      with ((CRLF ++ text_headers text_field ++ CRLF ++ CRLF) ++ text ++ CRLF)
      by (unfold part; rewrite <- !app_assoc; reflexivity).
    apply find_delimiter_after; try assumption.
    destruct text_field; reflexivity. }
  pose proof (find_delimiter_closing boundary Hne Hb) as Hclose.
  destruct file_first; cbn [in_order].
  - rewrite (split_body _ _ _ (delimiter_of_nonempty boundary) Hfp Htp Hclose).
    cbn [fold_left].
    replace (process_part initial_fields []) with initial_fields by reflexivity.
    rewrite (process_file_part_of _ _ filename _ _ Hname Hchars Henc).
    rewrite process_text_part_of. reflexivity.
  - rewrite (split_body _ _ _ (delimiter_of_nonempty boundary) Htp Hfp Hclose).
    cbn [fold_left].
    replace (process_part initial_fields []) with initial_fields by reflexivity.
    rewrite process_text_part_of.
    rewrite (process_file_part_of _ _ filename _ _ Hname Hchars Henc).
    reflexivity.
Qed.

End Parts.

(** ** Multipart round trip and rejections *)
Section MultipartClaims.
Import Py Multipart MultipartRequest Spec Samples.

Lemma trailer_byte (x : byte) :
  one_of trailer_chars x = trailer_point (Byte.to_N x).
Proof. destruct x; reflexivity. Qed.

Lemma trailer_point_ascii (c : N) : trailer_point c = true -> (c < 128)%N.
Proof.
  unfold trailer_point, one_of. rewrite bool_decide_eq_true. intros H.
  repeat (apply elem_of_cons in H as [-> | H]; [lia|]). inversion H.
Qed.

(** The trailing bytes stripped from an encoded text are the encoding of
    the trailing CR, LF and hyphens of the text. *)
Lemma rstrip_encoded (s : pystr) : forall (encoded : bytes),
  utf8_encode s = Some encoded ->
  utf8_encode (rstrip trailer_point s)
  = Some (rstrip (one_of trailer_chars) encoded).
Proof.
  induction s as [|c s IH]; intros encoded; simpl utf8_encode.
  - intros [= <-]. reflexivity.
  - destruct (is_scalar c) eqn:Hc; [|discriminate].
    destruct (utf8_encode s) as [r|] eqn:Hr; [|discriminate].
    intros [= <-]. specialize (IH r eq_refl). simpl rstrip.
    destruct (rstrip trailer_point s) as [|y t] eqn:E.
    + injection IH as IH. symmetry in IH.
      rewrite (rstrip_app_all _ _ r (rstrip_nil_all _ r IH)).
      destruct (trailer_point c) eqn:Ht.
      * pose proof (trailer_point_ascii c Ht) as Hlt.
        unfold utf8_encode_char.
        replace (c <? 128)%N with true by (symmetry; apply N.ltb_lt, Hlt).
        simpl. rewrite trailer_byte, to_N_byte_of_N by lia. rewrite Ht.
        reflexivity.
      * simpl utf8_encode. rewrite Hc, app_nil_r. f_equal. symmetry.
        destruct (utf8_encode_char_last c) as (x & Hx & Hcase).
        apply (rstrip_last _ _ x Hx). rewrite trailer_byte.
        destruct Hcase as [[_ ->]|Hge]; [exact Ht|].
        apply not_true_is_false. intros H.
        apply trailer_point_ascii in H. lia.
    + rewrite <- E in *. simpl utf8_encode. rewrite Hc, IH. f_equal.
      symmetry. apply rstrip_app_keep.
      eapply utf8_encode_nonempty; [exact IH|]. rewrite E. discriminate.
Qed.

Lemma rstrip_ends_clean (s : bytes) :
  ends_clean s -> rstrip (one_of trailer_chars) s = s.
Proof.
  intros Hclean. destruct (last s) as [c|] eqn:Hlast.
  - apply (rstrip_last _ s c Hlast), Hclean, Hlast.
  - apply last_None in Hlast. subst s. reflexivity.
Qed.

Lemma strip_trimmed (s : pystr) : trimmed s -> strip unicode_space s = s.
Proof.
  intros [Hhead Hlast]. destruct s as [|c s]; [reflexivity|].
  destruct (last (c :: s)) as [d|] eqn:Hd.
  - apply (strip_id unicode_space (c :: s) c d); auto.
  - apply last_None in Hd. discriminate.
Qed.

(** The value of a text part that holds an encoded text: the text
    without its trailing CR, LF and hyphens, trimmed. *)
Lemma text_value_encoded (jd : pystr) (text : bytes) :
  utf8_encode jd = Some text ->
  text_value text = strip unicode_space (rstrip trailer_point jd).
Proof.
  intros Henc. unfold text_value.
  rewrite (utf8_decode_encode _ _ (rstrip_encoded jd text Henc)). reflexivity.
Qed.

(** It is the trimmed text, unless that ends in a hyphen. *)
Lemma text_value_trimmed (jd : pystr) (text : bytes) :
  utf8_encode jd = Some text ->
  last (strip unicode_space jd) <> Some 45%N ->
  text_value text = strip unicode_space jd.
Proof.
  intros Henc Hdash. rewrite (text_value_encoded jd text Henc).
  apply strip_after_rstrip. intros c Ht Hs Hlast.
  unfold trailer_point, one_of in Ht. apply bool_decide_eq_true in Ht.
  repeat (apply elem_of_cons in Ht as [-> | Ht];
          [first [discriminate Hs|exact (Hdash Hlast)]|]).
  inversion Ht.
Qed.

(** C1, as amended.  Take a well-formed upload: a request whose
    Content-Type header declares a boundary and whose body holds a file
    part and a text part, in either order and under either name of each
    field.  When the file is not empty and does not end in CR, LF or a
    hyphen, and the job description, trimmed of surrounding whitespace,
    has at least 50 characters and does not end in a hyphen, the parser
    returns exactly the file bytes, the trimmed job description and the
    file name of the file part; a job description without surrounding
    whitespace is returned exactly.  A file part that holds nothing but
    CR, LF and hyphens, an empty one in particular, is rejected as a
    missing file. *)
Theorem multipart_round_trip (event : ApiEvent) (filename : pystr)
    (file : bytes) (jd : pystr) (text : bytes) :
  well_formed_upload event filename file text ->
  utf8_encode jd = Some text ->
  (file <> [] -> ends_clean file ->
   50 <= length (strip unicode_space jd) ->
   last (strip unicode_space jd) <> Some 45%N ->
   parse_multipart_form_data event
   = FormOk file (strip unicode_space jd) filename)
  /\ (file <> [] -> ends_clean file ->
      50 <= length jd -> trimmed jd -> last jd <> Some 45%N ->
      parse_multipart_form_data event = FormOk file jd filename)
  /\ (forallb (one_of trailer_chars) file = true ->
      parse_multipart_form_data event = FormError "PDF file is required").
Proof.
  intros Hform Henc.
  assert (Hstripped : file <> [] -> ends_clean file ->
            50 <= length (strip unicode_space jd) ->
            last (strip unicode_space jd) <> Some 45%N ->
            parse_multipart_form_data event
            = FormOk file (strip unicode_space jd) filename).
  { intros Hfile Hclean Hlen Hdash.
    rewrite (upload_fields_of event filename file text Hform).
    unfold validate_fields.
    cbn [pdf_content job_description original_filename].
    rewrite (rstrip_ends_clean file Hclean).
    rewrite (text_value_trimmed jd text Henc Hdash).
    rewrite strip_idempotent.
    destruct file as [|x file]; [congruence|].
    destruct (strip unicode_space jd) as [|c jd']; [simpl in Hlen; lia|].
    apply Nat.ltb_ge in Hlen. rewrite Hlen. reflexivity. }
  split; [exact Hstripped|]. split.
  - intros Hfile Hclean Hlen Htrim Hdash.
    pose proof (strip_trimmed jd Htrim) as Hsame.
    rewrite <- Hsame at 1. apply Hstripped; try assumption;
      rewrite Hsame; assumption.
  - intros Hall. rewrite (upload_fields_of event filename file text Hform).
    unfold validate_fields. cbn [pdf_content].
    rewrite (rstrip_all _ _ Hall). reflexivity.
Qed.

Lemma multipart_round_trip_witness :
  parse_multipart_form_data form_event
  = FormOk pdf_sample description (str "cv-2024.pdf").
Proof.
  destruct (multipart_round_trip form_event (str "cv-2024.pdf") pdf_sample
              description description_bytes)
    as (_ & Hexact & _).
  { exists form_boundary, field_pdf, field_job_description, (b "cv-2024.pdf"),
      false.
    split; [reflexivity|]. split; [discriminate|]. split; [reflexivity|].
    split; [vm_compute; reflexivity|]. split; [discriminate|].
    split; [|split; [reflexivity|split; [reflexivity|split; reflexivity]]].
    repeat constructor; vm_compute; discriminate. }
  { reflexivity. }
  apply Hexact.
  - discriminate.
  - intros c Hc. vm_compute in Hc. injection Hc as <-. reflexivity.
  - vm_compute. lia.
  - split; intros c Hc; vm_compute in Hc; injection Hc as <-; reflexivity.
  - vm_compute. discriminate.
Defined.

(** C8, as amended.  A request of media type multipart/form-data in
    which no part names the file field fails with the file-required
    error.  A well-formed upload whose file part holds more than CR, LF
    and hyphens fails with the minimum-length error when the value of
    its text part (the content without trailing CR, LF and hyphens,
    decoded and trimmed) has at least one and fewer than 50 characters,
    and with the job-description-required error when that value is
    empty; for an encoded job description that does not end in a hyphen
    once trimmed, the value is the trimmed description.  A request whose
    content type does not start with multipart/form-data fails with the
    content-type error whatever its body is, even a body that cannot be
    decoded. *)
Theorem multipart_rejections :
  (forall (event : ApiEvent) (raw : bytes) (boundary : pystr)
          (boundary_bytes : bytes),
     startswith (str "multipart/form-data") (content_type_of (headers event))
       = true ->
     body_bytes (body event) = Some raw ->
     find_boundary (split (str ";") (content_type_of (headers event)))
       = Some boundary ->
     boundary <> [] ->
     utf8_encode (str "--" ++ boundary) = Some boundary_bytes ->
     forallb (fun part => negb (names_file_part part))
             (split boundary_bytes raw) = true ->
     parse_multipart_form_data event = FormError "PDF file is required")
  /\ (forall (event : ApiEvent) (filename : pystr) (file text : bytes),
        well_formed_upload event filename file text ->
        rstrip (one_of trailer_chars) file <> [] ->
        (0 < length (text_value text) < 50 ->
         parse_multipart_form_data event
         = FormError "Job description must be at least 50 characters")
        /\ (text_value text = [] ->
            parse_multipart_form_data event
            = FormError "Job description is required")
        /\ (forall jd : pystr,
              utf8_encode jd = Some text ->
              last (strip unicode_space jd) <> Some 45%N ->
              text_value text = strip unicode_space jd))
  /\ (forall (event : ApiEvent) (other : Body),
        startswith (str "multipart/form-data") (content_type_of (headers event))
          = false ->
        parse_multipart_form_data event
          = FormError "Content-Type must be multipart/form-data"
        /\ parse_multipart_form_data
             {| headers := headers event; body := other |}
           = parse_multipart_form_data event).
Proof.
  split; [|split].
  - intros event raw boundary boundary_bytes Hct Hraw Hb Hne Henc Hparts.
    rewrite (parse_with_boundary event raw boundary boundary_bytes)
      by assumption.
    unfold validate_fields.
    rewrite (no_file_part _ initial_fields eq_refl Hparts). reflexivity.
  - intros event filename file text Hform Hfile.
    rewrite (upload_fields_of event filename file text Hform).
    unfold validate_fields. cbn [pdf_content job_description original_filename].
    destruct (rstrip (one_of trailer_chars) file) as [|x pdf]; [congruence|].
    split; [|split].
    + intros [Hpos Hshort].
      destruct (text_value text) as [|c jd] eqn:Hvalue; [simpl in Hpos; lia|].
      pose proof (strip_length unicode_space (c :: jd)) as Hle.
      replace (length (strip unicode_space (c :: jd)) <? 50) with true
        by (symmetry; apply Nat.ltb_lt; lia).
      reflexivity.
    + intros ->. reflexivity.
    + intros jd Henc Hdash. exact (text_value_trimmed jd text Henc Hdash).
  - intros event other Hct. unfold parse_multipart_form_data. cbn [headers].
    rewrite Hct. split; reflexivity.
Qed.

Lemma multipart_rejections_witness :
  parse_multipart_form_data (text_only_event description_bytes)
    = FormError "PDF file is required"
  /\ parse_multipart_form_data (upload_event pdf_sample short_text)
     = FormError "Job description must be at least 50 characters"
  /\ parse_multipart_form_data (upload_event pdf_sample blank_text)
     = FormError "Job description is required"
  /\ parse_multipart_form_data json_event
     = FormError "Content-Type must be multipart/form-data".
Proof.
  destruct multipart_rejections as (Hfile & Hupload & Htype).
  assert (Hform : forall text,
            contains (delimiter_of (str boundary)) text = false ->
            well_formed_upload (upload_event pdf_sample text) (str filename)
              pdf_sample text).
  { intros text Hfree.
    exists (str boundary), field_resume, field_jobDescription, (b filename),
      true.
    split; [reflexivity|]. split; [discriminate|]. split; [reflexivity|].
    split.
    { unfold upload_event, multipart_body, file_part, text_part, closing,
        body_of, in_order, part. cbn [body body_bytes flat_map].
      f_equal. rewrite <- !app_assoc. reflexivity. }
    split; [discriminate|].
    split; [|split; [reflexivity|split; [reflexivity|split;
                                           [reflexivity|exact Hfree]]]].
    repeat constructor; vm_compute; discriminate. }
  split; [|split; [|split]].
  - apply (Hfile (text_only_event description_bytes)
             (text_only_body (b boundary) description_bytes)
             (str boundary) (delimiter_of (str boundary))).
    + reflexivity.
    + reflexivity.
    + vm_compute. reflexivity.
    + discriminate.
    + reflexivity.
    + vm_compute. reflexivity.
  - apply (Hupload _ _ _ _ (Hform short_text eq_refl)).
    + vm_compute. discriminate.
    + vm_compute. lia.
  - apply (Hupload _ _ _ _ (Hform blank_text eq_refl)).
    + vm_compute. discriminate.
    + reflexivity.
  - apply (Htype json_event (BodyBase64 None)). reflexivity.
Defined.

(** The claim as stated fails for a job description with a trailing
    space: it has more than 50 characters, the request is well formed,
    and the parser returns the description without the space. *)
Lemma multipart_round_trip_counterexample :
  utf8_encode padded_description = Some padded_bytes
  /\ 50 <= length padded_description
  /\ parse_multipart_form_data (upload_event pdf_sample padded_bytes)
     = FormOk pdf_sample description (str filename)
  /\ parse_multipart_form_data (upload_event pdf_sample padded_bytes)
     <> FormOk pdf_sample padded_description (str filename).
Proof.
  split; [reflexivity|]. split; [vm_compute; lia|].
  split; [vm_compute; reflexivity|]. vm_compute. discriminate.
Qed.

(** The repository's own parsing test. *)
Example test_multipart_form_parsing_success :
  parse_multipart_form_data test_event
  = FormOk test_pdf (str test_description) (str "test.pdf").
Proof. vm_compute. reflexivity. Qed.

(** The file content loses a trailing line feed: the set of bytes
    stripped after a part also matches bytes of the file itself. *)
Remark trailing_newline_stripped :
  parse_multipart_form_data (upload_event pdf_with_newline description_bytes)
  = FormOk (b "%PDF-1.4 %%EOF") description (str filename).
Proof. vm_compute. reflexivity. Qed.

(** The claim as stated fails for a text part that strips to nothing:
    fewer than 50 characters remain, the file part is present, and the
    error is the job-description-required one, not the minimum-length
    one. *)
Lemma multipart_rejections_counterexample :
  length (text_value blank_text) < 50
  /\ parse_multipart_form_data (upload_event pdf_sample blank_text)
     = FormError "Job description is required"
  /\ parse_multipart_form_data (upload_event pdf_sample blank_text)
     <> FormError "Job description must be at least 50 characters".
Proof.
  split; [vm_compute; lia|]. split; [vm_compute; reflexivity|].
  vm_compute. discriminate.
Qed.

End MultipartClaims.

(** ** The resume cache *)
Section CacheFacts.
Import Py Spec Samples.

(** X1.  Round trip of the resume cache.  When the table's [put_item]
    works, [put_resume_cache] reports success and a later
    [get_resume_cache] of the same hash (with a working [get_item])
    returns exactly the item written: hash, text, file name and an expiry
    of the write time plus [ttl_hours] hours in seconds.  When [put_item]
    raises, the call reports failure and the table is unchanged.  In both
    cases the entries of all other hashes read as before. *)
Theorem resume_cache_round_trip (writer reader : Dedup.Services)
    (table : gmap string Dedup.CacheItem) (file_hash : string) (text : pystr)
    (filename : string) (ttl_hours : Z) :
  Dedup.get_item_raises reader = false ->
  let result :=
    Dedup.put_resume_cache writer table file_hash text filename ttl_hours in
  (Dedup.put_item_raises writer = false ->
     fst result = true
     /\ Dedup.get_resume_cache reader (snd result) file_hash
        = Some {| Dedup.item_file_hash := file_hash;
                  Dedup.extracted_text := text;
                  Dedup.original_filename := filename;
                  Dedup.ttl := Dedup.now writer + ttl_hours * 3600 |})
  /\ (Dedup.put_item_raises writer = true ->
        fst result = false /\ snd result = table)
  /\ (forall other, other <> file_hash ->
        Dedup.get_resume_cache reader (snd result) other
        = Dedup.get_resume_cache reader table other).
Proof.
  intros Hget result. subst result.
  unfold Dedup.put_resume_cache, Dedup.get_resume_cache.
  rewrite Hget. destruct (Dedup.put_item_raises writer); simpl.
  - split; [discriminate|]. split; [tauto|]. reflexivity.
  - split.
    + intros _. split; [reflexivity|]. rewrite lookup_insert_eq.
      do 2 f_equal. lia.
    + split; [discriminate|]. intros other Hne.
      apply lookup_insert_ne. congruence.
Qed.

Lemma resume_cache_round_trip_witness :
  Dedup.get_resume_cache healthy
    (snd (Dedup.put_resume_cache healthy ∅ "9f86d081884c7d65" resume_words
            "cv.pdf" 12))
    "9f86d081884c7d65"
  = Some cached_cv.
Proof.
  destruct (resume_cache_round_trip healthy healthy ∅ "9f86d081884c7d65"
              resume_words "cv.pdf" 12 eq_refl) as (Hput & _ & _).
  destruct (Hput eq_refl) as [_ Hread]. exact Hread.
Defined.

(** X2.  Soundness of the deduplication verdict.  The check reports a
    duplicate exactly when it returns cached data, and then the object
    at the given location was read, is not empty, and the cached item is
    the table's entry under the non-empty SHA-256 digest of that content,
    which is the hash reported.  A reported hash is always that digest;
    no hash is reported exactly when the error field is set; a file
    reported unique with a hash has no readable entry.  The optional file
    name has no influence on the result. *)
Theorem check_file_deduplication_sound (sv : Dedup.Services)
    (table : gmap string Dedup.CacheItem) (bucket key : string)
    (filename : option string) :
  let r := Dedup.check_file_deduplication sv table bucket key filename in
  (Dedup.is_duplicate r = true <-> is_Some (Dedup.cached_data r))
  /\ (forall cached, Dedup.cached_data r = Some cached ->
        exists content,
          Dedup.get_object sv bucket key = Some content /\ content <> []
          /\ Dedup.file_hash r = Some (Dedup.sha256_hexdigest sv content)
          /\ table !! Dedup.sha256_hexdigest sv content = Some cached
          /\ Dedup.get_item_raises sv = false)
  /\ (forall h, Dedup.file_hash r = Some h ->
        h <> EmptyString
        /\ exists content,
             Dedup.get_object sv bucket key = Some content /\ content <> []
             /\ h = Dedup.sha256_hexdigest sv content)
  /\ (Dedup.file_hash r = None <-> is_Some (Dedup.error r))
  /\ (forall h, Dedup.file_hash r = Some h -> Dedup.is_duplicate r = false ->
        Dedup.get_resume_cache sv table h = None)
  /\ r = Dedup.check_file_deduplication sv table bucket key None.
Proof.
  unfold Dedup.check_file_deduplication, Dedup.calculate_s3_file_hash,
    Dedup.calculate_file_hash, Dedup.get_resume_cache.
  destruct (Dedup.get_object sv bucket key) as [content|] eqn:Hobj; cbn zeta.
  2: { simpl. split; [split; [discriminate|intros [? ?]; discriminate]|].
       split; [discriminate|]. split; [discriminate|].
       split; [split; [eauto|reflexivity]|]. split; [discriminate|reflexivity]. }
  destruct content as [|c0 content].
  { simpl. split; [split; [discriminate|intros [? ?]; discriminate]|].
    split; [discriminate|]. split; [discriminate|].
    split; [split; [eauto|reflexivity]|]. split; [discriminate|reflexivity]. }
  destruct (Dedup.sha256_hexdigest sv (c0 :: content)) as [|a h] eqn:Hh.
  { simpl. split; [split; [discriminate|intros [? ?]; discriminate]|].
    split; [discriminate|]. split; [discriminate|].
    split; [split; [eauto|reflexivity]|]. split; [discriminate|reflexivity]. }
  assert (Hcontent : exists content0,
            Some (c0 :: content) = Some content0 /\ content0 <> []
            /\ String a h = Dedup.sha256_hexdigest sv content0).
  { exists (c0 :: content). rewrite Hh. split; [reflexivity|].
    split; [discriminate|reflexivity]. }
  destruct (Dedup.get_item_raises sv) eqn:Hraise.
  { simpl. split; [split; [discriminate|intros [? ?]; discriminate]|].
    split; [discriminate|].
    split; [intros ? [= <-]; split; [discriminate|exact Hcontent]|].
    split; [split; [discriminate|intros [? ?]; discriminate]|].
    split; [reflexivity|reflexivity]. }
  destruct (table !! String a h) as [cached|] eqn:Hlook; simpl.
  - split; [split; [eauto|reflexivity]|].
    split.
    { intros ? [= <-]. exists (c0 :: content). rewrite Hh.
      repeat split; try reflexivity; try discriminate. exact Hlook. }
    split; [intros ? [= <-]; split; [discriminate|exact Hcontent]|].
    split; [split; [discriminate|intros [? ?]; discriminate]|].
    split; [discriminate|reflexivity].
  - split; [split; [discriminate|intros [? ?]; discriminate]|].
    split; [discriminate|].
    split; [intros ? [= <-]; split; [discriminate|exact Hcontent]|].
    split; [split; [discriminate|intros [? ?]; discriminate]|].
    split; [intros ? [= <-] _; exact Hlook|reflexivity].
Qed.

Lemma check_file_deduplication_sound_witness :
  Dedup.cached_data
    (Dedup.check_file_deduplication healthy warm_table "resumes"
       "uploads/cv.pdf" None) = Some cached_cv
  /\ warm_table !! Dedup.sha256_hexdigest healthy cv_bytes = Some cached_cv.
Proof.
  split; [reflexivity|].
  destruct (check_file_deduplication_sound healthy warm_table "resumes"
              "uploads/cv.pdf" None) as (_ & Hhit & _).
  destruct (Hhit cached_cv eq_refl) as (content & Hobj & _ & _ & Hlook & _).
  injection Hobj as <-. exact Hlook.
Defined.

End CacheFacts.

(** ** The cache and the collaborators in the complete pipeline *)
Section PipelineCache.
Import Py Pipeline Spec Samples.

Lemma redaction_succeeds detect (t : pystr) :
  Pii.success (Pii.apply_pii_redaction_to_text detect t) = true.
Proof.
  unfold Pii.apply_pii_redaction_to_text, Pii.unchanged.
  destruct (_ || _); [reflexivity|].
  destruct (detect _) as [[|e l]|]; try reflexivity.
  destruct (Pii.redact_all _ _ _) as [r n]. destruct (0 <? n); reflexivity.
Qed.

(** The hash a deduplication check reports is the digest of the object
    read, and a file reported unique has no readable entry under it. *)
Lemma check_reports_digest (sv : Dedup.Services)
    (table : gmap string Dedup.CacheItem) (bucket key : string)
    (filename : option string) (h : string) :
  Dedup.file_hash (Dedup.check_file_deduplication sv table bucket key filename)
    = Some h ->
  h <> EmptyString
  /\ (exists content,
        Dedup.get_object sv bucket key = Some content /\ content <> []
        /\ h = Dedup.sha256_hexdigest sv content)
  /\ (Dedup.is_duplicate
        (Dedup.check_file_deduplication sv table bucket key filename) = false ->
      Dedup.get_resume_cache sv table h = None).
Proof.
  unfold Dedup.check_file_deduplication, Dedup.calculate_s3_file_hash,
    Dedup.calculate_file_hash.
  destruct (Dedup.get_object sv bucket key) as [[|c0 content]|] eqn:Hobj;
    try discriminate.
  destruct (Dedup.sha256_hexdigest sv (c0 :: content)) as [|a h0] eqn:Hh;
    [discriminate|].
  destruct (Dedup.get_resume_cache sv table (String a h0)) as [cached|] eqn:Hget;
    cbn [Dedup.file_hash Dedup.is_duplicate]; intros [= <-].
  - split; [discriminate|]. split; [|discriminate].
    exists (c0 :: content). rewrite Hh. repeat split. discriminate.
  - split; [discriminate|]. split; [|intros _; exact Hget].
    exists (c0 :: content). rewrite Hh. repeat split. discriminate.
Qed.

(** The table after the extraction step of a run that misses the cache. *)
Lemma pipeline_table_after (c : Collaborators) sv table event bucket key jd :
  bucket_name event = Some bucket ->
  s3_key event = Some key ->
  job_description event = Some jd ->
  snd (handle_complete_pipeline c sv table event)
  = let check := Dedup.check_file_deduplication sv table bucket key
                   (Some (default (basename key) (resume_filename event))) in
    if Dedup.is_duplicate check then table
    else match extract_text_from_s3_pdf c bucket key with
         | ExtractFailed _ => table
         | ExtractOk extracted =>
             match Dedup.file_hash check with
             | None | Some EmptyString => table
             | Some h =>
                 snd (Dedup.store_processed_file sv table h
                        (Dedup.extracted_text (pipeline_item c sv event key h extracted))
                        (default (basename key) (resume_filename event)))
             end
         end.
Proof.
  intros Hb Hk Hj. unfold handle_complete_pipeline, complete_pipeline_steps.
  rewrite Hb, Hk, Hj. cbn zeta.
  destruct (Dedup.check_file_deduplication sv table bucket key _)
    as [dup fh cached msg err]; cbn [Dedup.is_duplicate Dedup.cached_data
                                      Dedup.file_hash Dedup.message].
  destruct dup.
  - destruct cached as [cached|]; [|reflexivity].
    destruct (analyze_resume_vs_job_description c _ _) as [data|]; [|reflexivity].
    destruct (data !! "compatibility_score"%string); [|reflexivity].
    destruct (create_complete_report_package c _ _ _ _); try reflexivity.
    unfold bind. destruct (summarize data) as [[]|]; reflexivity.
  - destruct (extract_text_from_s3_pdf c bucket key) as [extracted|]; [|reflexivity].
    rewrite redaction_succeeds.
    destruct (analyze_resume_vs_job_description c _ _) as [data|];
      [|destruct fh as [[|]|]; reflexivity].
    destruct (data !! "compatibility_score"%string);
      [|destruct fh as [[|]|]; reflexivity].
    destruct (create_complete_report_package c _ _ _ _);
      try (destruct fh as [[|]|]; reflexivity).
    unfold bind. destruct (summarize data) as [[]|];
      destruct fh as [[|]|]; reflexivity.
Qed.



(** X4.  A cache hit by-passes extraction and PII detection.  When the
    object at the event's location is readable and non-empty and the
    cache holds an item under its digest, the response and the table of
    the complete pipeline are the same whatever the text extractor and
    the PII detector are, the table is left unchanged, and a successful
    response carries the status [deduplicated] and the length of the
    cached text. *)
Theorem complete_pipeline_cache_hit (c : Collaborators) (sv : Dedup.Services)
    (table : gmap string Dedup.CacheItem) (event : Event)
    (bucket key : string) (content : bytes) (cached : Dedup.CacheItem) :
  bucket_name event = Some bucket ->
  s3_key event = Some key ->
  Dedup.get_object sv bucket key = Some content ->
  content <> [] ->
  Dedup.sha256_hexdigest sv content <> EmptyString ->
  Dedup.get_resume_cache sv table (Dedup.sha256_hexdigest sv content)
    = Some cached ->
  (forall extractor detector,
     handle_complete_pipeline (with_extraction c extractor detector) sv table event
     = handle_complete_pipeline c sv table event)
  /\ snd (handle_complete_pipeline c sv table event) = table
  /\ (forall data,
        body (fst (handle_complete_pipeline c sv table event))
          = PipelineSuccess data ->
        step_text_extraction data = "deduplicated"%string
        /\ deduplication_status data = "deduplicated"%string
        /\ extracted_text_length data = length (Dedup.extracted_text cached)).
Proof.
  intros Hb Hk Hobj Hcontent Hne Hhit.
  assert (Hrun : forall c0,
    complete_pipeline_steps c0 sv table event
    = match job_description event with
      | None => (raise (KeyError "job_description"), table)
      | Some jd =>
        match analyze_resume_vs_job_description c0 (Dedup.extracted_text cached) jd with
        | AnalysisFailed error =>
            (ret (create_error_response 422 ("AI analysis failed: " +:+ error)), table)
        | AnalysisOk data =>
            match data !! "compatibility_score"%string with
            | None => (raise (KeyError "compatibility_score"), table)
            | Some _ =>
                match create_complete_report_package c0 data
                        (default (default bucket (REPORTS_BUCKET c0)) (reports_bucket event))
                        (default (basename key) (resume_filename event))
                        (default "Position"%string (job_title event)) with
                | ReportRaised _ => (raise Exception, table)
                | ReportFailed error =>
                    (ret (create_error_response 500
                            ("Report generation failed: " +:+ error)), table)
                | ReportOk package =>
                    (let* summary := summarize data in
                     ret (create_success_response (PipelineSuccess
                       {| pipeline_status := "completed";
                          step_deduplication_check := "success";
                          step_text_extraction := "deduplicated";
                          step_ai_analysis := "success";
                          step_report_generation := "success";
                          deduplication_status := "deduplicated";
                          deduplication_message :=
                            "Resume already processed - using existing data from "
                              +:+ Dedup.original_filename cached;
                          deduplication_file_hash :=
                            short_hash (Some (Dedup.sha256_hexdigest sv content));
                          resume_file := "s3://" +:+ bucket +:+ "/" +:+ key;
                          input_resume_filename :=
                            default (basename key) (resume_filename event);
                          input_job_title := default "Position"%string (job_title event);
                          extracted_text_length := length (Dedup.extracted_text cached);
                          job_description_length := length jd;
                          pipeline_summary := summary;
                          pipeline_reports := Stored package;
                          pipeline_metadata :=
                            PackageMetadata (package_metadata package) |})),
                     table)
                end
            end
        end
      end).
  { intros c0. unfold complete_pipeline_steps. rewrite Hb, Hk.
    destruct (job_description event) as [jd|]; [|reflexivity]. cbn zeta.
    rewrite (check_hit sv table bucket key _ _ cached
               (hash_of_content sv bucket key content Hobj Hcontent) Hne Hhit).
    cbn [Dedup.is_duplicate Dedup.cached_data Dedup.file_hash Dedup.message].
    reflexivity. }
  split; [|split].
  - intros extractor detector. unfold handle_complete_pipeline.
    rewrite !Hrun. reflexivity.
  - unfold handle_complete_pipeline. rewrite Hrun.
    destruct (job_description event) as [jd|]; [|reflexivity].
    destruct (analyze_resume_vs_job_description c _ _) as [data|]; [|reflexivity].
    destruct (data !! "compatibility_score"%string); [|reflexivity].
    destruct (create_complete_report_package c _ _ _ _); try reflexivity.
    unfold bind. destruct (summarize data) as [[]|]; reflexivity.
  - intros d. unfold handle_complete_pipeline. rewrite Hrun.
    destruct (job_description event) as [jd|]; [|discriminate].
    destruct (analyze_resume_vs_job_description c _ _) as [data|]; [|discriminate].
    destruct (data !! "compatibility_score"%string); [|discriminate].
    destruct (create_complete_report_package c _ _ _ _); try discriminate.
    unfold bind. destruct (summarize data) as [[]|]; try discriminate.
    cbn. intros [= <-]. repeat split; reflexivity.
Qed.

Lemma complete_pipeline_cache_hit_witness :
  handle_complete_pipeline (with_extraction working no_extraction (fun _ => None))
    healthy warm_table pipeline_event
  = handle_complete_pipeline working healthy warm_table pipeline_event
  /\ statusCode (fst (handle_complete_pipeline working healthy warm_table
                        pipeline_event)) = 200%Z.
Proof.
  destruct (complete_pipeline_cache_hit working healthy warm_table
              pipeline_event "resumes" "uploads/cv.pdf" cv_bytes cached_cv)
    as (Hsame & _ & _);
    [reflexivity|reflexivity|reflexivity|discriminate|discriminate|reflexivity|].
  split; [apply Hsame|]. vm_compute. reflexivity.
Defined.

End PipelineCache.

(** ** Status codes and local mode *)
Section StatusCodes.
Import Py Pipeline Spec Samples.

Lemma summarize_key_error (data : gmap string JSON) key :
  summarize data = inl (KeyError key) -> key = "compatibility_score"%string.
Proof.
  unfold summarize, bind, item, ret, raise.
  destruct (data !! "compatibility_score"%string); [|congruence].
  repeat match goal with
         | |- context [py_len ?v] =>
             let H := fresh in
             destruct (py_len v) as [[]|] eqn:H; try discriminate;
             try (unfold py_len, raise, ret in H;
                  repeat match type of H with
                         | match ?x with _ => _ end = _ => destruct x; try discriminate
                         end)
         end.
Qed.

Lemma summarize_scored (data : gmap string JSON) score key :
  data !! "compatibility_score"%string = Some score ->
  summarize data <> inl (KeyError key).
Proof.
  intros Hscore. unfold summarize, bind, item, ret, raise. rewrite Hscore.
  repeat match goal with
         | |- context [py_len ?v] =>
             let H := fresh in
             destruct (py_len v) as [[]|] eqn:H; try discriminate;
             try (unfold py_len, raise, ret in H;
                  repeat match type of H with
                         | match ?x with _ => _ end = _ => destruct x; try discriminate
                         end)
         end.
Qed.

Ltac leaf H400 :=
  first
    [ left; split; reflexivity
    | right; left; split;
        [reflexivity|split; [reflexivity|apply H400; solve [repeat constructor]]]
    | right; right; left; split;
        [reflexivity
        |split; [reflexivity
                |eexists; first [reflexivity|left; reflexivity|right; reflexivity]]]
    | right; right; right; split;
        [reflexivity|split; [reflexivity|first [reflexivity|eexists; reflexivity]]] ].

End StatusCodes.

(** ** Local mode of the analysis-only path *)
Section LocalMode.
Import Py Pipeline Spec Samples.

(** X6.  Local mode never stores reports.  When the bucket resolved for
    the reports (the event's, else the environment's, else the
    placeholder) is empty, is the placeholder [ats-buddy-reports] or
    starts with [local-], the analysis-only path does not consult the
    report generator: its response is the same for every generator, and
    a successful response carries no stored package but the local-mode
    note, no error, and metadata that mark local execution.  An event
    without a bucket in an environment without one is such a case. *)
Theorem analysis_local_mode (c : Collaborators) (event : Event) :
  local_bucket (analysis_reports_bucket c event) ->
  (forall generator,
     handle_complete_analysis (with_report_generator c generator) event
     = handle_complete_analysis c event)
  /\ (forall data,
        body (handle_complete_analysis c event) = AnalysisSuccess data ->
        exists id stamp,
          reports data
            = NotStored id stamp
                "Analysis completed successfully (local mode - no S3 storage)"
                None
          /\ metadata data = LocalMetadata "local" false).
Proof.
  unfold local_bucket, analysis_reports_bucket. intros Hlocal.
  assert (Hoff :
    negb (bool_decide
            (default (default "ats-buddy-reports"%string (REPORTS_BUCKET c))
                     (reports_bucket event) = EmptyString))
    && negb (bool_decide
               (default (default "ats-buddy-reports"%string (REPORTS_BUCKET c))
                        (reports_bucket event) = "ats-buddy-reports"%string))
    && negb (String.prefix "local-"
               (default (default "ats-buddy-reports"%string (REPORTS_BUCKET c))
                        (reports_bucket event))) = false).
  { destruct Hlocal as [H | [H | H]]; rewrite H.
    - reflexivity.
    - reflexivity.
    - rewrite andb_false_r. reflexivity. }
  split.
  - intros generator.
    unfold handle_complete_analysis, complete_analysis_steps, bind, item.
    cbn [with_report_generator analyze_resume_vs_job_description
         create_complete_report_package REPORTS_BUCKET].
    destruct (resume_text event); [|reflexivity].
    destruct (job_description event); [|reflexivity]. cbn [ret].
    destruct (analyze_resume_vs_job_description c _ _) as [data|]; [|reflexivity].
    destruct (data !! "compatibility_score"%string); [|reflexivity].
    cbn [ret]. destruct (summarize data) as [[]|summary]; try reflexivity.
    rewrite Hoff. reflexivity.
  - intros d.
    unfold handle_complete_analysis, complete_analysis_steps, bind, item.
    destruct (resume_text event); [|discriminate].
    destruct (job_description event); [|discriminate]. cbn [ret].
    destruct (analyze_resume_vs_job_description c _ _) as [data|]; [|discriminate].
    destruct (data !! "compatibility_score"%string); [|discriminate].
    cbn [ret]. destruct (summarize data) as [[]|summary]; try discriminate.
    rewrite Hoff. unfold local_response, create_success_response, ret.
    cbn [body]. intros [= <-]. cbn [reports metadata]. eauto.
Qed.

Lemma analysis_local_mode_witness :
  handle_complete_analysis
    (with_report_generator offline raising_generator) analysis_event
  = handle_complete_analysis offline analysis_event
  /\ statusCode (handle_complete_analysis offline analysis_event) = 200%Z.
Proof.
  destruct (analysis_local_mode offline analysis_event) as [Hsame _].
  - right. left. reflexivity.
  - split; [apply Hsame|]. vm_compute. reflexivity.
Defined.

End LocalMode.

(** ** Masking: no-ops, frame and the two variants *)
Section MaskingFrame.
Import Py Pii Spec Samples.

(** Spans below the threshold leave the state as it is. *)
Lemma redact_below threshold l : forall (st : pystr * nat),
  Forall (fun e => Qle_bool threshold (Score e) = false) l ->
  fold_left (redact_entity threshold) l st = st.
Proof.
  induction l as [|e l IH]; intros st Hl; [reflexivity|].
  inversion Hl as [|? ? He Hl']; subst. simpl.
  unfold redact_entity at 2. destruct st as [r n]. rewrite He. apply IH, Hl'.
Qed.

(** The count grows with every replacement, and a count that did not
    grow means that the text did not change. *)
Lemma redact_count threshold l : forall (r : pystr) (n : nat),
  (n <= snd (fold_left (redact_entity threshold) l (r, n)))%nat
  /\ (snd (fold_left (redact_entity threshold) l (r, n)) = n ->
      fst (fold_left (redact_entity threshold) l (r, n)) = r).
Proof.
  induction l as [|e l IH]; intros r n; simpl; [split; [lia|reflexivity]|].
  destruct (Qle_bool threshold (Score e)).
  - destruct (IH (upto (BeginOffset e) r ++ mask (EndOffset e - BeginOffset e)
                    ++ from (EndOffset e) r) (S n)) as [Hle _].
    split; [lia|]. intros Heq. lia.
  - apply IH.
Qed.

(** Two thresholds that accept the same spans of a list mask alike. *)
Lemma redact_same_tests th1 th2 l : forall (st : pystr * nat),
  Forall (fun e => Qle_bool th1 (Score e) = Qle_bool th2 (Score e)) l ->
  fold_left (redact_entity th1) l st = fold_left (redact_entity th2) l st.
Proof.
  induction l as [|e l IH]; intros st Hl; [reflexivity|].
  inversion Hl as [|? ? He Hl']; subst. simpl.
  replace (redact_entity th1 st e) with (redact_entity th2 st e).
  - apply IH, Hl'.
  - unfold redact_entity. destruct st as [r n]. rewrite He. reflexivity.
Qed.

(** X7.  Nothing to mask is a no-op.  [apply_pii_redaction_to_text]
    always reports success.  When the detector raises, reports no entity,
    or reports only entities with a confidence below the threshold of
    0.7 (whatever their offsets), it returns the text unchanged with the
    [redacted] flag off; so it does for a text that strips to fewer than
    ten characters, without consulting the detector.  The Object Lambda
    variant returns the text unchanged under the same conditions at its
    threshold of 0.5. *)
Theorem redaction_noop (detect : pystr -> option (list Entity)) (t : pystr) :
  success (apply_pii_redaction_to_text detect t) = true
  /\ ((length (strip unicode_space t) < 10)%nat ->
      forall detect', apply_pii_redaction_to_text detect' t = unchanged t)
  /\ (match detect (take 5000 t) with
      | None => True
      | Some entities =>
          Forall (fun e => ~ (text_threshold <= Score e)%Q) entities
      end ->
      apply_pii_redaction_to_text detect t = unchanged t)
  /\ (match detect t with
      | None => True
      | Some entities =>
          Forall (fun e => ~ (document_threshold <= Score e)%Q) entities
      end ->
      redact_pii_from_text detect t = t).
Proof.
  assert (Hbelow : forall threshold entities,
            Forall (fun e => ~ (threshold <= Score e)%Q) entities ->
            redact_all threshold entities t = (t, 0)).
  { intros threshold entities Hall. unfold redact_all. apply redact_below.
    apply sort_desc_Forall. eapply Forall_impl; [exact Hall|].
    intros e He. simpl in He. destruct (Qle_bool threshold (Score e)) eqn:E;
      [|reflexivity].
    exfalso. apply He, Qle_bool_iff, E. }
  split; [|split; [|split]].
  - unfold apply_pii_redaction_to_text, unchanged.
    destruct (_ || _); [reflexivity|].
    destruct (detect _) as [[|e l]|]; try reflexivity.
    destruct (redact_all _ _ _) as [r n]. destruct (0 <? n); reflexivity.
  - intros Hshort detect'. unfold apply_pii_redaction_to_text.
    replace (length (strip unicode_space t) <? 10) with true
      by (symmetry; apply Nat.ltb_lt, Hshort).
    rewrite orb_true_r. reflexivity.
  - unfold apply_pii_redaction_to_text.
    destruct (_ || _); [reflexivity|].
    destruct (detect (take 5000 t)) as [[|e l]|]; try reflexivity.
    intros Hall. rewrite (Hbelow _ _ Hall). reflexivity.
  - unfold redact_pii_from_text.
    destruct (detect t) as [[|e l]|]; try reflexivity.
    intros Hall. rewrite (Hbelow _ _ Hall). reflexivity.
Qed.

Lemma redaction_noop_witness :
  apply_pii_redaction_to_text detect_unsure contact_line = unchanged contact_line
  /\ redact_pii_from_text detect_unsure contact_line <> contact_line.
Proof.
  split.
  - destruct (redaction_noop detect_unsure contact_line) as (_ & _ & Hnoop & _).
    apply Hnoop. simpl. constructor; [|constructor].
    unfold Qle, text_threshold. simpl. lia.
  - vm_compute. discriminate.
Defined.

(** The state of the masking loop over a separated list keeps the text
    before offset [p], a lower bound of every span, and never grows
    beyond the length of the text. *)
Lemma redact_frame threshold (t : pystr) (p : nat) l :
  forall (bound : nat) (tail : pystr) (count : nat),
    (p <= bound <= length t)%nat ->
    separated (Z.of_nat bound) l ->
    Forall (fun e => (Z.of_nat p <= BeginOffset e)%Z) l ->
    (length tail <= length t - bound)%nat ->
    exists tail',
      fst (fold_left (redact_entity threshold) l (take bound t ++ tail, count))
      = take p t ++ tail'
      /\ (length tail' <= length t - p)%nat.
Proof.
  induction l as [|e l IH]; intros bound tail count Hbound Hsep Hp Htail; simpl.
  - exists (drop p (take bound t) ++ tail). split.
    + rewrite app_assoc. f_equal.
      rewrite <- (take_drop p (take bound t)) at 1. f_equal.
      rewrite take_take. f_equal. lia.
    + rewrite length_app, length_drop, length_take. lia.
  - destruct Hsep as (H0 & Hlt & Hb & Hsep).
    inversion Hp as [|? ? Hpe Hp']; subst.
    set (b := Z.to_nat (BeginOffset e)).
    set (e' := Z.to_nat (EndOffset e)).
    assert (Hbe : (b < e')%nat) by (unfold b, e'; lia).
    assert (He'b : (e' <= bound)%nat) by (unfold e'; lia).
    assert (Hpb : (p <= b)%nat) by (unfold b; lia).
    assert (Hsep' : separated (Z.of_nat b) l).
    { unfold b. rewrite Z2Nat.id by exact H0. exact Hsep. }
    destruct (Qle_bool threshold (Score e)).
    + rewrite upto_nonneg, from_nonneg by lia. fold b e'.
      rewrite take_app_le by (rewrite length_take; lia).
      rewrite take_take.
      replace (Nat.min b bound) with b by lia.
      rewrite drop_app_le by (rewrite length_take; lia).
      apply (IH b); [lia|exact Hsep'|exact Hp'|].
      rewrite !length_app, length_drop, length_take.
      pose proof (mask_length (EndOffset e - BeginOffset e)).
      unfold mask in *. rewrite length_replicate in *. lia.
    + assert (Hsplit : take bound t ++ tail
                       = take b t ++ (drop b (take bound t) ++ tail)).
      { rewrite <- (take_drop b (take bound t)) at 1.
        rewrite take_take, <- app_assoc. do 2 f_equal. lia. }
      rewrite Hsplit.
      apply (IH b); [lia|exact Hsep'|exact Hp'|].
      rewrite length_app, length_drop, length_take. lia.
Qed.

(** X8.  Masking frame.  Let the detector report, for the submitted
    5000-character prefix, non-empty spans inside it that do not overlap.
    Then the text before the first span is carried into the output
    unchanged, and the output is never longer than the input: masking
    only replaces spans by at most as many asterisks. *)
Theorem apply_pii_redaction_frame (detect : pystr -> option (list Entity))
    (t : pystr) (entities : list Entity) (p : nat) :
  detect (take 5000 t) = Some entities ->
  spans_ok (length (take 5000 t)) entities ->
  Forall (fun e => (Z.of_nat p <= BeginOffset e)%Z) entities ->
  take p t `prefix_of` text (apply_pii_redaction_to_text detect t)
  /\ (length (text (apply_pii_redaction_to_text detect t)) <= length t)%nat.
Proof.
  intros Hdet Hok Hp.
  assert (Hid : take p t `prefix_of` t /\ (length t <= length t)%nat).
  { split; [apply prefix_take|lia]. }
  unfold apply_pii_redaction_to_text.
  destruct (_ || _); [exact Hid|]. rewrite Hdet.
  destruct entities as [|e0 l0]; [exact Hid|].
  set (entities := e0 :: l0) in *.
  destruct (redact_all text_threshold entities t) as [r n] eqn:Hr.
  destruct (0 <? n); [|exact Hid]. cbn [text].
  set (n0 := length (take 5000 t)) in *.
  assert (Hn0 : (n0 <= length t)%nat) by (unfold n0; rewrite length_take; lia).
  assert (Hp0 : (p <= n0)%nat).
  { destruct Hok as [Hin _]. inversion Hin as [|? ? (H0 & Hlt & Hn) _]; subst.
    inversion Hp; subst. lia. }
  destruct (redact_frame text_threshold t p (sort_desc entities) n0 (drop n0 t) 0)
    as (tail' & Hfold & Hlen).
  - lia.
  - apply sort_desc_separated, Hok.
  - apply sort_desc_Forall, Hp.
  - rewrite length_drop. lia.
  - rewrite take_drop in Hfold. unfold redact_all in Hr. rewrite Hr in Hfold.
    cbn [fst] in Hfold. subst r. split.
    + exists tail'. reflexivity.
    + rewrite length_app, length_take. lia.
Qed.

Lemma apply_pii_redaction_frame_witness :
  str "Phone: " `prefix_of`
    text (apply_pii_redaction_to_text detect_phone contact_line)
  /\ (length (text (apply_pii_redaction_to_text detect_phone contact_line))
      <= 50)%nat.
Proof.
  apply (apply_pii_redaction_frame detect_phone contact_line [phone_entity] 7).
  - reflexivity.
  - split; [|split; [constructor|exact I]].
    constructor; [|constructor]. unfold span_within. simpl. lia.
  - constructor; [|constructor]. simpl. lia.
Defined.

(** X9.  The two masking variants.  For a text of at most 5000
    characters that passes the short-text guard, the handler's
    [apply_pii_redaction_to_text] and the Object Lambda's
    [redact_pii_from_text] return the same text whenever no reported
    confidence lies in the band from 0.5 up to the handler's threshold
    of 0.7: the two differ only in the threshold. *)
Theorem redaction_variants_agree (detect : pystr -> option (list Entity))
    (t : pystr) :
  (length t <= 5000)%nat ->
  (10 <= length (strip unicode_space t))%nat ->
  match detect t with
  | None => True
  | Some entities =>
      Forall (fun e => (text_threshold <= Score e)%Q
                       \/ ~ (document_threshold <= Score e)%Q) entities
  end ->
  text (apply_pii_redaction_to_text detect t) = redact_pii_from_text detect t.
Proof.
  intros Hlen Hguard Hband.
  unfold apply_pii_redaction_to_text, redact_pii_from_text.
  assert (Ht : t <> []).
  { intros ->. simpl in Hguard. lia. }
  rewrite bool_decide_eq_false_2 by exact Ht.
  replace (length (strip unicode_space t) <? 10) with false
    by (symmetry; apply Nat.ltb_ge, Hguard).
  rewrite take_ge by lia. cbn [orb].
  destruct (detect t) as [[|e0 l0]|]; try reflexivity.
  set (entities := e0 :: l0) in *.
  assert (Hsame : redact_all text_threshold entities t
                  = redact_all document_threshold entities t).
  { unfold redact_all. apply redact_same_tests, sort_desc_Forall.
    eapply Forall_impl; [exact Hband|]. intros e He. simpl in He.
    destruct (Qle_bool text_threshold (Score e)) eqn:E1;
      destruct (Qle_bool document_threshold (Score e)) eqn:E2;
      try reflexivity; exfalso.
    - apply Qle_bool_iff in E1.
      assert (E3 : ~ (document_threshold <= Score e)%Q).
      { intros H. apply Qle_bool_iff in H. congruence. }
      apply E3. eapply Qle_trans; [|exact E1].
      unfold Qle, document_threshold, text_threshold. simpl. lia.
    - destruct He as [He|He].
      + apply Qle_bool_iff in He. congruence.
      + apply He, Qle_bool_iff, E2. }
  rewrite <- Hsame.
  destruct (redact_all text_threshold entities t) as [r n] eqn:Hr.
  destruct (0 <? n) eqn:Hn; [reflexivity|].
  apply Nat.ltb_ge in Hn. unfold redact_all in Hr.
  destruct (redact_count text_threshold (sort_desc entities) t 0) as [_ Hkeep].
  rewrite Hr in Hkeep. cbn [fst snd] in *. symmetry. apply Hkeep. lia.
Qed.

Lemma redaction_variants_agree_witness :
  text (apply_pii_redaction_to_text detect_phone contact_line)
  = redact_pii_from_text detect_phone contact_line.
Proof.
  apply redaction_variants_agree.
  - change (50 <= 5000)%nat. lia.
  - change (10 <= 50)%nat. lia.
  - simpl. constructor; [|constructor]. left.
    unfold Qle, text_threshold. simpl. lia.
Defined.

End MaskingFrame.

(** ** Repair of the analysis and the text around the JSON object *)
Section RepairFacts.
Import Py Bedrock Spec Samples.

Lemma set_default_other field key (d : gmap string JSON) :
  field <> key -> set_default field d !! key = d !! key.
Proof.
  intros Hne. unfold set_default. destruct (d !! field); [reflexivity|].
  apply lookup_insert_ne, Hne.
Qed.

Lemma ensure_list_kept field (d : gmap string JSON) l :
  d !! field = Some (JList l) -> ensure_list field d = d.
Proof. intros E. unfold ensure_list. rewrite E. reflexivity. Qed.

(** X10.  The repair keeps what the model said.  In a repaired analysis
    the model's list of missing keywords and its dictionary of missing
    skills are unchanged; its suggestions are kept in order, untouched
    when there are three or more and otherwise filled up with the stock
    suggestions to exactly three; the optional lists [strengths] and
    [areas_for_improvement] are kept when given and empty otherwise; and
    every other key of the object passes through unchanged. *)
Theorem repair_preserves (float_of_int : Z -> option pyfloat)
    (float_of_str : pystr -> option pyfloat) (d data : gmap string JSON) :
  repair float_of_int float_of_str d = ParseOk data ->
  (forall l, d !! "missing_keywords"%string = Some (JList l) ->
     data !! "missing_keywords"%string = Some (JList l))
  /\ (forall skills, d !! "missing_skills"%string = Some (JDict skills) ->
        data !! "missing_skills"%string = Some (JDict skills))
  /\ (forall l, d !! "suggestions"%string = Some (JList l) ->
        exists l', data !! "suggestions"%string = Some (JList l')
                   /\ l' = (if length l <? 3
                            then take 3 (l ++ default_suggestions) else l)
                   /\ take (length l) l' = l)
  /\ (forall key, key ∈ ["strengths"; "areas_for_improvement"]%string ->
        data !! key = Some (default (JList []) (d !! key)))
  /\ (forall key,
        key ∉ ["missing_keywords"; "missing_skills"; "suggestions";
               "compatibility_score"; "strengths";
               "areas_for_improvement"]%string ->
        data !! key = d !! key).
Proof.
  unfold repair. destruct (missing_field d); [discriminate|].
  set (d1 := ensure_list "missing_keywords" d).
  set (d2 := ensure_skills d1).
  set (d3 := ensure_list "suggestions" d2).
  set (d4 := pad_suggestions d3).
  intros H.
  assert (Hdata : exists score,
            data = set_default "areas_for_improvement"
                     (set_default "strengths"
                        (<["compatibility_score"%string := score]> d4))).
  { destruct (to_float _ _ _) as [f| |]; try discriminate;
      injection H as <-; eauto. }
  destruct Hdata as (score & ->). clear H.
  assert (Hthrough : forall key,
            key <> "compatibility_score"%string ->
            key <> "strengths"%string -> key <> "areas_for_improvement"%string ->
            set_default "areas_for_improvement"
              (set_default "strengths"
                 (<["compatibility_score"%string := score]> d4)) !! key
            = d4 !! key).
  { intros key H1 H2 H3.
    rewrite !set_default_other by congruence.
    apply lookup_insert_ne. congruence. }
  split; [|split; [|split; [|split]]].
  - intros l E. rewrite Hthrough by discriminate.
    unfold d4. rewrite pad_suggestions_other by discriminate.
    unfold d3. rewrite ensure_list_other by discriminate.
    unfold d2. rewrite ensure_skills_other by discriminate.
    unfold d1. rewrite (ensure_list_kept _ _ _ E). exact E.
  - intros skills E. rewrite Hthrough by discriminate.
    unfold d4. rewrite pad_suggestions_other by discriminate.
    unfold d3. rewrite ensure_list_other by discriminate.
    unfold d2, ensure_skills.
    replace (d1 !! "missing_skills"%string) with (Some (JDict skills)).
    + unfold d1. rewrite ensure_list_other by discriminate. exact E.
    + unfold d1. rewrite ensure_list_other by discriminate. symmetry. exact E.
  - intros l E. rewrite Hthrough by discriminate.
    assert (E3 : d3 !! "suggestions"%string = Some (JList l)).
    { unfold d3.
      assert (E2 : d2 !! "suggestions"%string = Some (JList l)).
      { unfold d2. rewrite ensure_skills_other by discriminate.
        unfold d1. rewrite ensure_list_other by discriminate. exact E. }
      rewrite (ensure_list_kept _ _ _ E2). exact E2. }
    unfold d4, pad_suggestions. rewrite E3.
    destruct (length l <? 3) eqn:Hlen.
    + eexists. split; [apply lookup_insert_eq|]. split; [reflexivity|].
      apply Nat.ltb_lt in Hlen. rewrite take_take.
      replace (Nat.min (length l) 3) with (length l) by lia.
      apply take_app_length.
    + exists l. split; [exact E3|]. split; [reflexivity|].
      apply firstn_all.
  - assert (Hbase : forall key,
              key ∈ ["strengths"; "areas_for_improvement"]%string ->
              (<["compatibility_score"%string := score]> d4) !! key = d !! key).
    { intros key Hin. rewrite lookup_insert_ne
        by (intros <-; repeat (apply elem_of_cons in Hin;
                               destruct Hin as [Hin|Hin]; [discriminate|]);
            inversion Hin).
      assert (Hk : key = "strengths"%string \/ key = "areas_for_improvement"%string).
      { repeat (apply elem_of_cons in Hin; destruct Hin as [Hin|Hin]; [tauto|]).
        inversion Hin. }
      unfold d4. rewrite pad_suggestions_other
        by (destruct Hk as [-> | ->]; discriminate).
      unfold d3. rewrite ensure_list_other
        by (destruct Hk as [-> | ->]; discriminate).
      unfold d2. rewrite ensure_skills_other
        by (destruct Hk as [-> | ->]; discriminate).
      unfold d1. apply ensure_list_other.
      destruct Hk as [-> | ->]; discriminate. }
    intros key Hin.
    assert (Hk : key = "strengths"%string \/ key = "areas_for_improvement"%string).
    { repeat (apply elem_of_cons in Hin; destruct Hin as [Hin|Hin]; [tauto|]).
      inversion Hin. }
    pose proof (Hbase "strengths"%string ltac:(repeat constructor)) as Hs.
    pose proof (Hbase "areas_for_improvement"%string ltac:(repeat constructor)) as Ha.
    set (d5 := <["compatibility_score"%string := score]> d4) in *.
    destruct Hk as [-> | ->].
    + rewrite set_default_other by discriminate.
      unfold set_default. rewrite Hs.
      destruct (d !! "strengths"%string) as [v|] eqn:E; simpl.
      * exact Hs.
      * apply lookup_insert_eq.
    + unfold set_default at 1.
      rewrite set_default_other by discriminate. rewrite Ha.
      destruct (d !! "areas_for_improvement"%string) as [v|] eqn:E; simpl.
      * rewrite set_default_other by discriminate. exact Ha.
      * apply lookup_insert_eq.
  - intros key Hnot.
    assert (Hne : forall k, k ∈ ["missing_keywords"; "missing_skills";
                                 "suggestions"; "compatibility_score";
                                 "strengths"; "areas_for_improvement"]%string ->
                            k <> key).
    { intros k Hk <-. exact (Hnot Hk). }
    rewrite Hthrough
      by (apply not_eq_sym, Hne; repeat constructor).
    unfold d4. rewrite pad_suggestions_other by (apply Hne; repeat constructor).
    unfold d3. rewrite ensure_list_other by (apply Hne; repeat constructor).
    unfold d2. rewrite ensure_skills_other by (apply Hne; repeat constructor).
    unfold d1. apply ensure_list_other, Hne. repeat constructor.
Qed.

Lemma repair_preserves_witness :
  exists data,
    repair exact_float_of_int no_float_of_str raw_analysis = ParseOk data
    /\ data !! "missing_keywords"%string = Some (JList [JStr (str "AWS")])
    /\ data !! "strengths"%string = Some (JList []).
Proof.
  destruct (repair exact_float_of_int no_float_of_str raw_analysis)
    as [|data] eqn:Hrepair; [vm_compute in Hrepair; discriminate|].
  exists data. split; [reflexivity|].
  destruct (repair_preserves _ _ _ _ Hrepair) as (Hkeys & _ & _ & Hopt & _).
  split.
  - apply Hkeys. reflexivity.
  - apply (Hopt "strengths"%string). repeat constructor.
Defined.

End RepairFacts.

(** ** The text around the JSON object *)
Section ProseAround.
Import Py Bedrock Spec Samples.

Lemma lstrip_app_head {A} (p : A -> bool) (a s : list A) c :
  head s = Some c -> p c = false -> lstrip p (a ++ s) = lstrip p a ++ s.
Proof.
  intros Hh Hc. induction a as [|x a IH]; simpl.
  - destruct s as [|y s]; [discriminate|]. injection Hh as ->.
    apply lstrip_head, Hc.
  - destruct (p x); [exact IH|reflexivity].
Qed.

Lemma rstrip_app_last {A} (p : A -> bool) (s a : list A) c :
  last s = Some c -> p c = false -> rstrip p (s ++ a) = s ++ rstrip p a.
Proof.
  intros Hl Hc. destruct (last_Some s c) as [[s' ->] _]; [exact Hl|].
  rewrite <- !app_assoc. simpl app.
  rewrite <- (rstrip_keep p c a Hc). apply rstrip_app_keep.
  rewrite (rstrip_keep p c a Hc). discriminate.
Qed.

Lemma lstrip_elem {A} (p : A -> bool) (s : list A) x :
  x ∈ lstrip p s -> x ∈ s.
Proof.
  induction s as [|y s IH]; simpl; [tauto|].
  destruct (p y); [|tauto]. intros H. right. apply IH, H.
Qed.

Lemma rstrip_elem {A} (p : A -> bool) (s : list A) x :
  x ∈ rstrip p s -> x ∈ s.
Proof.
  induction s as [|y s IH]; simpl; [tauto|].
  destruct (rstrip p s) as [|z t] eqn:E.
  - destruct (p y); [intros H; inversion H|].
    intros H. apply elem_of_cons in H as [->|H]; [left|inversion H].
  - intros H. apply elem_of_cons in H as [->|H]; [left|right; apply IH, H].
Qed.

Lemma find_char (c : N) (x rest : pystr) :
  c ∉ x -> find [c] (x ++ c :: rest) = Some (length x).
Proof.
  induction x as [|y x IH]; intros Hc.
  - simpl. rewrite bool_decide_eq_true_2 by reflexivity. reflexivity.
  - assert (Hy : y <> c) by (intros ->; apply Hc; left).
    assert (Hx : c ∉ x) by (intros H; apply Hc; right; exact H).
    simpl. rewrite bool_decide_eq_false_2 by congruence. simpl.
    rewrite (IH Hx). reflexivity.
Qed.

(** The text between the first opening and the last closing brace. *)
Lemma json_span (x mid y : pystr) :
  123%N ∉ x -> 125%N ∉ y ->
  let s := x ++ (123%N :: mid ++ [125%N]) ++ y in
  exists start_idx last,
    find (str "{") s = Some start_idx /\ rfind_char 125%N s = Some last
    /\ slice start_idx (last + 1) s = 123%N :: mid ++ [125%N].
Proof.
  intros Hx Hy s.
  exists (length x), (length x + S (length mid)). split; [|split].
  - unfold s. simpl app. apply find_char, Hx.
  - unfold rfind_char, s.
    replace (rev (x ++ (123%N :: mid ++ [125%N]) ++ y))
      with (rev y ++ 125%N :: rev (x ++ 123%N :: mid)).
    + rewrite find_char.
      * f_equal. rewrite !length_app, length_rev. simpl.
        rewrite length_app. simpl. lia.
      * intros H. apply Hy. apply list_elem_of_In, in_rev, list_elem_of_In, H.
    + rewrite !rev_app_distr. simpl. rewrite !rev_app_distr. simpl.
      rewrite <- ?app_assoc. simpl. rewrite <- ?app_assoc. reflexivity.
  - unfold slice, s.
    replace (length x + S (length mid) + 1)
      with (length (x ++ 123%N :: mid ++ [125%N]))
      by (rewrite !length_app; simpl; rewrite length_app; simpl; lia).
    rewrite app_assoc.
    change (x ++ 123%N :: mid ++ [125%N]) with (x ++ (123%N :: mid ++ [125%N])).
    rewrite take_app_length. apply drop_app_length.
Qed.

(** X11.  Text around the JSON object is ignored.  When the model's
    reply is an object, from an opening to a closing brace, preceded by
    text without an opening brace and followed by text without a closing
    brace, [_parse_analysis_response] hands exactly the object to
    [json.loads] and returns what it returns for the object alone. *)
Theorem parse_analysis_response_ignores_prose
    (json_loads : pystr -> Loads)
    (float_of_int : Z -> option pyfloat) (float_of_str : pystr -> option pyfloat)
    (before mid after : pystr) :
  123%N ∉ before -> 125%N ∉ after ->
  let object := 123%N :: mid ++ [125%N] in
  _parse_analysis_response json_loads float_of_int float_of_str
    (before ++ object ++ after)
  = match json_loads object with
    | Loaded d => repair float_of_int float_of_str d
    | JSONDecodeError => ParseError "Invalid JSON format in AI response"
    | LoadsRaised => ParseError "Failed to parse AI analysis response"
    end
  /\ _parse_analysis_response json_loads float_of_int float_of_str
       (before ++ object ++ after)
     = _parse_analysis_response json_loads float_of_int float_of_str object.
Proof.
  intros Hb Ha object.
  assert (Hgen : forall x y, 123%N ∉ x -> 125%N ∉ y ->
    _parse_analysis_response json_loads float_of_int float_of_str
      (x ++ object ++ y)
    = match json_loads object with
      | Loaded d => repair float_of_int float_of_str d
      | JSONDecodeError => ParseError "Invalid JSON format in AI response"
      | LoadsRaised => ParseError "Failed to parse AI analysis response"
      end).
  { intros x y Hx Hy. unfold _parse_analysis_response.
    assert (Hstrip : strip unicode_space (x ++ object ++ y)
                     = lstrip unicode_space x ++ object
                         ++ rstrip unicode_space y).
    { unfold strip. rewrite app_assoc.
      rewrite (rstrip_app_last unicode_space (x ++ object) y 125%N).
      - rewrite <- app_assoc.
        apply (lstrip_app_head unicode_space x _ 123%N); reflexivity.
      - unfold object. rewrite app_comm_cons, app_assoc.
        apply last_snoc.
      - reflexivity. }
    rewrite Hstrip.
    destruct (json_span (lstrip unicode_space x) mid (rstrip unicode_space y))
      as (start_idx & last & Hfind & Hrfind & Hslice).
    - intros H. apply Hx. eapply lstrip_elem, H.
    - intros H. apply Hy. eapply rstrip_elem, H.
    - cbn zeta in Hfind, Hrfind, Hslice. fold object in Hfind, Hrfind, Hslice.
      rewrite Hfind, Hrfind, Hslice. reflexivity. }
  split; [apply Hgen; assumption|].
  rewrite (Hgen before after Hb Ha).
  specialize (Hgen [] [] ltac:(apply not_elem_of_nil) ltac:(apply not_elem_of_nil)).
  rewrite app_nil_r in Hgen. simpl app in Hgen. symmetry. exact Hgen.
Qed.

Lemma parse_analysis_response_ignores_prose_witness :
  _parse_analysis_response loads_raw_analysis exact_float_of_int no_float_of_str
    model_reply
  = _parse_analysis_response loads_raw_analysis exact_float_of_int
      no_float_of_str (str "{...}").
Proof.
  apply (parse_analysis_response_ignores_prose loads_raw_analysis
           exact_float_of_int no_float_of_str
           (str "Here is the analysis: ") (str "...") (str " Done.")).
  - vm_compute. intros H.
    repeat (apply elem_of_cons in H; destruct H as [H|H]; [discriminate|]).
    inversion H.
  - vm_compute. intros H.
    repeat (apply elem_of_cons in H; destruct H as [H|H]; [discriminate|]).
    inversion H.
Defined.

End ProseAround.

(** ** Outcomes of the asynchronous extraction and pagination *)
Section AsyncOutcomes.
Import Py Textract Spec Samples.

(** A run of the loop from poll [k] that ends with a text. *)
Lemma poll_loop_extracted (sv : Service) (fuel : nat) :
  forall (elapsed_time : Z) (k : nat) (run : Run) (text : pystr),
    poll_loop sv fuel elapsed_time k = Some run ->
    outcome run = Extracted text ->
    text = _parse_async_textract_response sv
    /\ strip unicode_space text <> []
    /\ exists j message,
         (k <= j)%nat /\ polled run = S j
         /\ get_document_text_detection sv j = Status "SUCCEEDED" message
         /\ forall i, (k <= i < j)%nat ->
              in_progress (get_document_text_detection sv i).
Proof.
  induction fuel as [|fuel IH]; intros elapsed_time k run text.
  - simpl. destruct (elapsed_time <? max_wait_time)%Z; [discriminate|].
    intros [= <-]. discriminate.
  - rewrite poll_loop_unfold.
    destruct (elapsed_time <? 300)%Z; [|intros [= <-]; discriminate].
    cbv zeta.
    destruct (get_document_text_detection sv k) as [js msg|e] eqn:Hget.
    2: { intros [= <-]. simpl. destruct e as [code m|]; simpl;
           repeat (destruct (String.eqb _ _)); discriminate. }
    destruct (String.eqb js "SUCCEEDED") eqn:E1.
    { apply String.eqb_eq in E1. subst js.
      destruct (bool_decide _) eqn:Es; intros [= <-]; [discriminate|].
      simpl. intros [= <-]. split; [reflexivity|].
      split; [apply bool_decide_eq_false in Es; exact Es|].
      exists k, msg. repeat split; try lia. exact Hget. }
    destruct (String.eqb js "FAILED"); [intros [= <-]; discriminate|].
    destruct (String.eqb js "IN_PROGRESS" || String.eqb js "PARTIAL_SUCCESS")
      eqn:E3; [|intros [= <-]; discriminate].
    intros Hrun Hout.
    destruct (IH _ _ _ _ Hrun Hout) as (Htext & Hne & j & message & Hj & Hp & Hs & Hbefore).
    split; [exact Htext|]. split; [exact Hne|].
    exists j, message. repeat split; try lia; try assumption.
    intros i Hi. destruct (Nat.eq_dec i k) as [->|Hik].
    + rewrite Hget. exists msg. apply orb_true_iff in E3 as [E|E];
        apply String.eqb_eq in E; subst js; [left|right]; reflexivity.
    + apply Hbefore. lia.
Qed.

(** X12.  Outcomes of the asynchronous extraction.  A call that returns
    a text returns the lines of the result pages joined by line feeds,
    and that text is not blank; the job was started, some poll reported
    [SUCCEEDED], every earlier poll reported a running job, and no poll
    was made after it.  A call whose job cannot be started returns the
    mapped error without sleeping or polling. *)
Theorem extract_text_async_outcomes (sv : Service) (run : Run) :
  _extract_text_async sv = Some run ->
  (forall text, outcome run = Extracted text ->
     text = _parse_async_textract_response sv
     /\ strip unicode_space text <> []
     /\ (exists job_id, start_document_text_detection sv = inr job_id)
     /\ exists j message,
          polled run = S j
          /\ get_document_text_detection sv j = Status "SUCCEEDED" message
          /\ forall i, (i < j)%nat ->
               in_progress (get_document_text_detection sv i))
  /\ (forall e, start_document_text_detection sv = inl e ->
        run = {| outcome := handle_error e; slept := 0; polled := 0 |}).
Proof.
  unfold _extract_text_async, extract_text_async_fuel. intros Hrun. split.
  - intros text Hout.
    destruct (start_document_text_detection sv) as [e|job_id].
    + injection Hrun as <-. simpl in Hout.
      destruct e as [code m|]; simpl in Hout;
        repeat (destruct (String.eqb _ _)); discriminate.
    + destruct (poll_loop_extracted sv _ _ _ _ _ Hrun Hout)
        as (Htext & Hne & j & message & _ & Hp & Hs & Hbefore).
      split; [exact Htext|]. split; [exact Hne|]. split; [eauto|].
      exists j, message. repeat split; try assumption.
      intros i Hi. apply Hbefore. lia.
  - intros e He. rewrite He in Hrun. injection Hrun as <-. reflexivity.
Qed.

Lemma extract_text_async_outcomes_witness :
  exists run text,
    _extract_text_async slow_job = Some run
    /\ outcome run = Extracted text
    /\ text = str "Jane Doe" ++ 10%N :: str "Python developer"
    /\ strip unicode_space text <> []
    /\ exists j, polled run = S j.
Proof.
  destruct (_extract_text_async slow_job) as [run|] eqn:Hrun;
    [|vm_compute in Hrun; discriminate].
  assert (Hout : outcome run
                 = Extracted (str "Jane Doe" ++ 10%N :: str "Python developer")).
  { vm_compute in Hrun. injection Hrun as <-. reflexivity. }
  destruct (extract_text_async_outcomes slow_job run Hrun) as [Hok _].
  destruct (Hok _ Hout) as (_ & Hne & _ & j & message & Hpolled & _).
  exists run, (str "Jane Doe" ++ 10%N :: str "Python developer").
  split; [reflexivity|]. split; [exact Hout|]. split; [reflexivity|].
  split; [exact Hne|]. exists j. exact Hpolled.
Defined.

(** X13.  Pagination of the results.  The result pages are read in
    order as long as each carries a continuation token: the text blocks
    are the [LINE] blocks of every page up to and including the first
    page without a token, in order, and pages after it are not read.
    When a request for a page raises, the lines read so far are kept. *)
Theorem read_pages_collects (pages : list Page) (rest : list (option Page))
    (text_blocks : list pystr) :
  Forall (fun page => exists token, NextToken page = Some token
                                    /\ token <> EmptyString) pages ->
  (forall final,
     NextToken final = None \/ NextToken final = Some EmptyString ->
     read_pages (map Some pages ++ Some final :: rest) text_blocks
     = text_blocks ++ concat (map lines_of (pages ++ [final])))
  /\ read_pages (map Some pages ++ None :: rest) text_blocks
     = text_blocks ++ concat (map lines_of pages)
  /\ read_pages (map Some pages) text_blocks
     = text_blocks ++ concat (map lines_of pages).
Proof.
  intros Hpages. revert text_blocks.
  induction Hpages as [|page pages (token & Htok & Hne) _ IH]; intros text_blocks.
  - split; [|split; simpl; rewrite app_nil_r; reflexivity].
    intros final [Hf|Hf]; simpl; rewrite Hf, app_nil_r; reflexivity.
  - simpl. rewrite Htok. destruct token as [|a token]; [congruence|].
    destruct (IH (text_blocks ++ lines_of page)) as (H1 & H2 & H3).
    split; [|split].
    + intros final Hf. rewrite (H1 final Hf), <- app_assoc. reflexivity.
    + rewrite H2, <- app_assoc. reflexivity.
    + rewrite H3, <- app_assoc. reflexivity.
Qed.

Lemma read_pages_collects_witness :
  read_pages [Some first_page; Some last_page; Some first_page] []
  = [str "Jane Doe"; str "Python developer"].
Proof.
  destruct (read_pages_collects [first_page] [Some first_page] [])
    as (Hall & _ & _).
  - constructor; [|constructor]. exists "t-1"%string. split; [reflexivity|discriminate].
  - apply (Hall last_page). left. reflexivity.
Defined.

End AsyncOutcomes.

(** ** What a successful parse guarantees *)
Section ParsedForm.
Import Py Multipart Spec Samples.

Lemma strip_is_trimmed (s : pystr) : trimmed (strip unicode_space s).
Proof.
  unfold strip. split.
  - intros c. apply lstrip_head_kept.
  - intros c H. apply lstrip_last in H. eapply rstrip_last_kept, H.
Qed.

Lemma rstrip_is_clean (content : bytes) :
  ends_clean (rstrip (one_of trailer_chars) content).
Proof. intros c. apply rstrip_last_kept. Qed.

Lemma until_quote_clean (s : pystr) : dquote ∉ fst (until_quote s).
Proof.
  induction s as [|c s IH]; simpl; [apply not_elem_of_nil|].
  destruct (N.eqb_spec c dquote) as [->|Hne]; [apply not_elem_of_nil|].
  destruct (until_quote s) as [name rest]. simpl in *.
  intros H. apply elem_of_cons in H as [H|H]; [congruence|exact (IH H)].
Qed.

Lemma search_filename_clean (s : pystr) name :
  search_filename s = Some name -> name <> [] /\ dquote ∉ name.
Proof.
  induction s as [|c s IH]; simpl.
  - unfold match_filename_at. simpl. discriminate.
  - destruct (match_filename_at (c :: s)) as [found|] eqn:Hm; [|exact IH].
    intros [= <-]. unfold match_filename_at in Hm.
    destruct (startswith _ _); [|discriminate].
    pose proof (until_quote_clean (drop 10 (c :: s))) as Hclean.
    destruct (until_quote (drop 10 (c :: s))) as [[|c0 found'] [|q rest]];
      try discriminate.
    injection Hm as <-. split; [discriminate|exact Hclean].
Qed.

Lemma process_part_collected (st : Fields) (part : bytes) :
  collected st -> collected (process_part st part).
Proof.
  intros (Hpdf & Hjd & Hname). unfold process_part.
  destruct (_ || _); [exact (conj Hpdf (conj Hjd Hname))|].
  destruct (split_headers part) as [[headers_section content]|];
    [|exact (conj Hpdf (conj Hjd Hname))].
  cbv zeta. destruct (_ || _).
  - split; [|split]; cbn [pdf_content job_description original_filename].
    + intros pdf [= <-]. apply rstrip_is_clean.
    + exact Hjd.
    + destruct (search_filename _) as [name|] eqn:Hs; [|exact Hname].
      right. eapply search_filename_clean, Hs.
  - destruct (_ || _); [|exact (conj Hpdf (conj Hjd Hname))].
    split; [|split]; cbn [pdf_content job_description original_filename].
    + exact Hpdf.
    + intros jd [= <-]. apply strip_is_trimmed.
    + exact Hname.
Qed.

Lemma fold_collected (parts : list bytes) : forall st,
  collected st -> collected (fold_left process_part parts st).
Proof.
  induction parts as [|part parts IH]; intros st Hst; [exact Hst|].
  simpl. apply IH, process_part_collected, Hst.
Qed.

(** X14.  What a successful parse guarantees, for every request.  When
    [parse_multipart_form_data] reports success, the content type starts
    with multipart/form-data, the file content is not empty and does not
    end in CR, LF or a hyphen, the job description has no leading or
    trailing whitespace and at least 50 characters, and the file name is
    the default [unknown.pdf] or a non-empty name without a double
    quote. *)
Theorem parse_multipart_form_data_guarantees (event : ApiEvent)
    (pdf : bytes) (jd name : pystr) :
  parse_multipart_form_data event = FormOk pdf jd name ->
  startswith (str "multipart/form-data") (content_type_of (headers event)) = true
  /\ pdf <> [] /\ ends_clean pdf
  /\ trimmed jd /\ 50 <= length jd
  /\ (name = str "unknown.pdf" \/ (name <> [] /\ dquote ∉ name)).
Proof.
  unfold parse_multipart_form_data.
  destruct (startswith _ _) eqn:Hct; [|discriminate]. cbn [negb].
  unfold parse_body.
  destruct (body_bytes (body event)) as [raw|]; [|discriminate].
  destruct (find_boundary _) as [[|c boundary]|]; try discriminate.
  destruct (utf8_encode _) as [boundary_bytes|]; [|discriminate].
  pose proof (fold_collected (split boundary_bytes raw) initial_fields) as Hinv.
  destruct Hinv as (Hpdf & Hjd & Hname).
  { split; [discriminate|]. split; [discriminate|]. left. reflexivity. }
  revert Hpdf Hjd Hname.
  generalize (fold_left process_part (split boundary_bytes raw) initial_fields).
  intros st Hpdf Hjd Hname. unfold validate_fields.
  destruct (pdf_content st) as [[|x content]|]; try discriminate.
  destruct (job_description st) as [[|y text]|]; try discriminate.
  destruct (length (strip unicode_space (y :: text)) <? 50) eqn:Hlen;
    [discriminate|].
  intros [= <- <- <-]. split; [reflexivity|]. split; [discriminate|].
  split; [apply Hpdf; reflexivity|].
  specialize (Hjd _ eq_refl). split; [exact Hjd|]. split; [|exact Hname].
  apply Nat.ltb_ge in Hlen. rewrite (strip_trimmed _ Hjd) in Hlen. exact Hlen.
Qed.

Lemma parse_multipart_form_data_guarantees_witness :
  ends_clean (b "%PDF-1.4 %%EOF") /\ trimmed description.
Proof.
  destruct (parse_multipart_form_data_guarantees
              (MultipartRequest.upload_event pdf_with_newline description_bytes)
              (b "%PDF-1.4 %%EOF") description (str MultipartRequest.filename))
    as (_ & _ & Hclean & Htrim & _).
  - vm_compute. reflexivity.
  - split; assumption.
Defined.

End ParsedForm.

(** ** Locating the object of a storage event *)
Section StorageEvents.
Import Py Dyn S3Handler Spec Samples.

Lemma one_char_lacks (a1 a2 : ascii) (c : N) :
  contains (str (String a1 (String a2 EmptyString))) [c] = false.
Proof.
  unfold contains. simpl. rewrite andb_false_r. reflexivity.
Qed.

Lemma located_first_record (event : gmap string JSON) (bucket key : JSON) :
  handle_s3_upload_event event = Location bucket key
  <-> first_record_names event bucket key.
Proof.
  unfold handle_s3_upload_event, locate, first_record_names. split.
  - destruct (event !! "Records"%string) as [records|]; [|discriminate].
    destruct records as [ | ? | ? | ? | [|c s] | [|record rest] | d ]; simpl;
      try discriminate.
    { rewrite (one_char_lacks "s" "3" c). simpl. discriminate. }
    destruct record as [ | ? | ? | ? | s | l | record ]; simpl; try discriminate;
      try (destruct (existsb _ _); discriminate).
    { destruct (contains _ _); simpl; discriminate. }
    destruct (record !! "s3"%string) as [s3|] eqn:Hs3; simpl; [|discriminate].
    destruct s3 as [ | ? | ? | ? | ? | ? | s3 ]; simpl; try discriminate.
    destruct (s3 !! "bucket"%string) as [b0|] eqn:Hb; simpl; [|discriminate].
    destruct b0 as [ | ? | ? | ? | ? | ? | b0 ]; simpl; try discriminate.
    destruct (b0 !! "name"%string) as [name|] eqn:Hn; simpl; [|discriminate].
    destruct (s3 !! "object"%string) as [object|] eqn:Ho; simpl; [|discriminate].
    destruct object as [ | ? | ? | ? | ? | ? | object ]; simpl; try discriminate.
    destruct (object !! "key"%string) as [k0|] eqn:Hk; simpl; [|discriminate].
    intros [= <- <-]. exists rest, record, s3, b0, object. tauto.
  - intros (rest & record & s3 & b0 & object & Hr & Hs3 & Hb & Hn & Ho & Hk).
    rewrite Hr. simpl. rewrite Hs3. simpl.
    rewrite Hb. simpl. rewrite Hn. simpl. rewrite Ho. simpl. rewrite Hk.
    reflexivity.
Qed.

(** X15.  Which storage events are accepted.  [handle_s3_upload_event]
    returns a location exactly when [Records] is a list whose first
    element is an object with an object under [s3] that holds a [name]
    in an object under [bucket] and a [key] in an object under [object];
    the location is made of those two values.  Records after the first
    and all other keys of the event are ignored.  An event without
    [Records] is answered with the no-records error. *)
Theorem handle_s3_upload_event_accepts (event : gmap string JSON)
    (bucket_name s3_key : JSON) :
  (handle_s3_upload_event event = Location bucket_name s3_key
   <-> first_record_names event bucket_name s3_key)
  /\ (forall record rest other,
        event !! "Records"%string = Some (JList (record :: rest)) ->
        handle_s3_upload_event event
        = handle_s3_upload_event
            {[ "Records"%string := JList (record :: other) ]})
  /\ (event !! "Records"%string = None ->
      handle_s3_upload_event event
      = NoLocation "Invalid event format - no Records found").
Proof.
  split; [|split].
  - apply located_first_record.
  - intros record rest other Hr. unfold handle_s3_upload_event, locate.
    rewrite Hr, lookup_singleton_eq. reflexivity.
  - intros Hr. unfold handle_s3_upload_event, locate. rewrite Hr. reflexivity.
Qed.

Lemma handle_s3_upload_event_accepts_witness :
  handle_s3_upload_event upload_notification
  = Location (JStr (str "resumes")) (JStr (str "uploads/cv.pdf")).
Proof.
  apply (handle_s3_upload_event_accepts upload_notification).
  exists [JDict ∅], notified_record, notified_s3,
    {[ "name"%string := JStr (str "resumes") ]},
    {[ "key"%string := JStr (str "uploads/cv.pdf") ]}.
  repeat split; reflexivity.
Defined.

End StorageEvents.

(** ** The analysis engine *)
Section Engine.
Import Py Dyn Bedrock BedrockClient Spec Samples.

Variable invoke_model : pystr -> pystr -> Invoked.
Variable json_loads : pystr -> Loads.
Variable float_of_int : Z -> option pyfloat.
Variable float_of_str : pystr -> option pyfloat.

Local Abbreviation analyze :=
  (analyze_resume_vs_job_description invoke_model json_loads float_of_int
     float_of_str).

Lemma blank_test (s : pystr) :
  bool_decide (s = []) || bool_decide (strip unicode_space s = [])
  = bool_decide (strip unicode_space s = []).
Proof.
  destruct s as [|c s]; [reflexivity|].
  rewrite (bool_decide_eq_false_2 (c :: s = [])) by discriminate. reflexivity.
Qed.

(** X16.  Blank input never reaches the model.  When the resume text is
    empty or whitespace, the analysis fails with the resume error, and
    when it is not but the job description is, with the job-description
    error; in both cases whatever the model would answer, since it is
    not invoked. *)
Theorem analyze_rejects_blank (resume_text job_description : pystr) :
  strip unicode_space resume_text = []
  \/ strip unicode_space job_description = [] ->
  analyze resume_text job_description
  = Pipeline.AnalysisFailed
      (if bool_decide (strip unicode_space resume_text = [])
       then "Resume text is empty or invalid"
       else "Job description is empty or invalid")
  /\ forall other_model other_loads,
       analyze_resume_vs_job_description other_model other_loads float_of_int
         float_of_str resume_text job_description
       = analyze resume_text job_description.
Proof.
  intros Hblank. unfold analyze_resume_vs_job_description.
  rewrite !blank_test.
  destruct (bool_decide (strip unicode_space resume_text = [])) eqn:Hr.
  - split; [reflexivity|]. intros. reflexivity.
  - destruct Hblank as [H|H].
    + apply bool_decide_eq_false in Hr. contradiction.
    + rewrite (bool_decide_eq_true_2 _ H). split; [reflexivity|].
      intros. reflexivity.
Qed.

Lemma set_default_present field (d : gmap string JSON) :
  is_Some (set_default field d !! field).
Proof.
  unfold set_default. destruct (d !! field) eqn:E; [eauto|].
  rewrite lookup_insert_eq. eauto.
Qed.

Lemma repair_shape (d data : gmap string JSON) :
  repair float_of_int float_of_str d = ParseOk data -> analysis_shape data.
Proof.
  unfold repair. destruct (missing_field d); [discriminate|].
  set (d1 := ensure_list "missing_keywords" d).
  set (d2 := ensure_skills d1).
  set (d3 := ensure_list "suggestions" d2).
  set (d4 := pad_suggestions d3).
  intros H.
  assert (Hdata : exists score,
            data = set_default "areas_for_improvement"
                     (set_default "strengths"
                        (<["compatibility_score"%string := score]> d4))).
  { destruct (to_float _ _ _) as [f| |]; try discriminate;
      injection H as <-; eauto. }
  destruct Hdata as (score & ->). clear H.
  assert (Hk : exists l, d4 !! "missing_keywords"%string = Some (JList l)).
  { destruct (ensure_list_same "missing_keywords" d) as [l Hl].
    exists l. unfold d4. rewrite pad_suggestions_other by discriminate.
    unfold d3. rewrite ensure_list_other by discriminate.
    unfold d2. rewrite ensure_skills_other by discriminate. exact Hl. }
  assert (Hs : exists skills, d4 !! "missing_skills"%string = Some (JDict skills)).
  { unfold d4. rewrite pad_suggestions_other by discriminate.
    unfold d3. rewrite ensure_list_other by discriminate.
    unfold d2, ensure_skills.
    destruct (d1 !! "missing_skills"%string) as [[]|] eqn:E;
      first [eexists; exact E | eexists; apply lookup_insert_eq]. }
  destruct Hk as [l Hl]. destruct Hs as [skills Hskills].
  split; [|split; [|split]].
  - exists l. do 2 apply set_default_keeps.
    rewrite lookup_insert_ne by discriminate. exact Hl.
  - exists skills. do 2 apply set_default_keeps.
    rewrite lookup_insert_ne by discriminate. exact Hskills.
  - destruct (set_default_present "strengths"
                (<["compatibility_score"%string := score]> d4)) as [v Hv].
    exists v. apply set_default_keeps, Hv.
  - apply set_default_present.
Qed.

Lemma parse_ok (text : JSON) (data : gmap string JSON) :
  parse json_loads float_of_int float_of_str text = ParseOk data ->
  analysis_invariant data /\ analysis_shape data.
Proof.
  unfold parse. destruct text as [ | ? | ? | ? | s | ? | ? ]; try discriminate.
  unfold _parse_analysis_response.
  destruct (find _ _); [|discriminate].
  destruct (rfind_char _ _); [|discriminate].
  destruct (json_loads _) as [d| |]; try discriminate.
  intros H. split; [eapply repair_invariant, H|eapply repair_shape, H].
Qed.

Lemma analyze_ok (resume_text job_description : pystr)
    (data : gmap string JSON) :
  analyze resume_text job_description = Pipeline.AnalysisOk data ->
  strip unicode_space resume_text <> []
  /\ strip unicode_space job_description <> []
  /\ (exists response_body,
        invoke_model resume_text job_description = Replied response_body)
  /\ analysis_invariant data /\ analysis_shape data.
Proof.
  unfold analyze_resume_vs_job_description. rewrite !blank_test.
  destruct (bool_decide (strip unicode_space resume_text = [])) eqn:Hr;
    [discriminate|].
  destruct (bool_decide (strip unicode_space job_description = [])) eqn:Hj;
    [discriminate|].
  apply bool_decide_eq_false in Hr, Hj.
  destruct (invoke_model resume_text job_description) as [body| | |];
    try discriminate.
  destruct (analysis_text body) as [e|[text|]]; try discriminate.
  destruct (parse _ _ _ text) as [error|parsed] eqn:Hp; [discriminate|].
  intros [= <-]. destruct (parse_ok text parsed Hp) as [Hinv Hshape].
  split; [exact Hr|]. split; [exact Hj|]. split; [eauto|].
  split; assumption.
Qed.

(** X17.  What a successful analysis guarantees.  When
    [analyze_resume_vs_job_description] succeeds, neither text was
    blank, the model replied, and the analysis has a compatibility score
    between 0 and 100, at least three suggestions, a list of missing
    keywords, a dictionary of missing skills and the two optional
    entries [strengths] and [areas_for_improvement]. *)
Theorem analyze_success_guarantees (resume_text job_description : pystr)
    (data : gmap string JSON) :
  analyze resume_text job_description = Pipeline.AnalysisOk data ->
  strip unicode_space resume_text <> []
  /\ strip unicode_space job_description <> []
  /\ (exists response_body,
        invoke_model resume_text job_description = Replied response_body)
  /\ analysis_invariant data /\ analysis_shape data.
Proof. apply analyze_ok. Qed.

(** X18.  The engine's errors are fixed texts.  Every failure of
    [analyze_resume_vs_job_description] carries one of thirteen fixed
    messages or names a required field missing from the model's object;
    neither the model's reply nor the text of an exception is passed
    on. *)
Theorem analyze_error_vocabulary (resume_text job_description : pystr)
    (error : string) :
  analyze resume_text job_description = Pipeline.AnalysisFailed error ->
  error ∈ engine_errors
  \/ exists field, field ∈ required_fields
       /\ error = ("Missing required field in analysis: " +:+ field)%string.
Proof.
  assert (Hin : forall e : string, e ∈ engine_errors -> e ∈ engine_errors \/
            exists field, field ∈ required_fields
              /\ e = ("Missing required field in analysis: " +:+ field)%string)
    by (intros; left; assumption).
  unfold analyze_resume_vs_job_description.
  destruct (_ || _); [intros [= <-]; apply Hin; repeat constructor|].
  destruct (_ || _); [intros [= <-]; apply Hin; repeat constructor|].
  destruct (invoke_model resume_text job_description) as [body|code| |].
  - destruct (analysis_text body) as [e|[text|]].
    + intros [= <-]. apply Hin. repeat constructor.
    + destruct (parse _ _ _ text) as [message|parsed] eqn:Hp; [|discriminate].
      intros [= <-]. unfold parse in Hp.
      destruct text as [ | ? | ? | ? | s | ? | ? ];
        try (injection Hp as <-; apply Hin; repeat constructor).
      unfold _parse_analysis_response in Hp.
      destruct (find _ _);
        [|injection Hp as <-; apply Hin; repeat constructor].
      destruct (rfind_char _ _);
        [|injection Hp as <-; apply Hin; repeat constructor].
      destruct (json_loads _) as [d| |];
        try (injection Hp as <-; apply Hin; repeat constructor).
      unfold repair in Hp.
      destruct (missing_field d) as [field|] eqn:Hm.
      * injection Hp as <-. right. exists field. split; [|reflexivity].
        unfold missing_field in Hm. apply find_some in Hm as [Hf _].
        apply list_elem_of_In, Hf.
      * destruct (to_float _ _ _); try discriminate.
        injection Hp as <-. apply Hin. repeat constructor.
    + intros [= <-]. apply Hin. repeat constructor.
  - intros [= <-]. apply Hin. unfold client_error.
    repeat (destruct (String.eqb code _); [repeat constructor|]).
    repeat constructor.
  - intros [= <-]. apply Hin. repeat constructor.
  - intros [= <-]. apply Hin. repeat constructor.
Qed.

(** X19.  With the analysis engine in place, a 400 always blames the
    event.  The complete pipeline run with
    [analyze_resume_vs_job_description] as its engine answers 400
    exactly when [bucket_name], [s3_key] or [job_description] is missing
    from the event, and the analysis-only path exactly when
    [resume_text] or [job_description] is: the engine never returns an
    analysis without a compatibility score, so the handlers' key error
    for the score cannot occur. *)
Theorem engine_never_blamed (c : Pipeline.Collaborators)
    (sv : Dedup.Services) (table : gmap string Dedup.CacheItem)
    (event : Pipeline.Event) :
  let c' := with_engine c analyze in
  (Pipeline.statusCode (fst (Pipeline.handle_complete_pipeline c' sv table event))
     = 400%Z
   <-> Pipeline.bucket_name event = None \/ Pipeline.s3_key event = None
       \/ Pipeline.job_description event = None)
  /\ (Pipeline.statusCode (Pipeline.handle_complete_analysis c' event) = 400%Z
      <-> Pipeline.resume_text event = None
          \/ Pipeline.job_description event = None).
Proof.
  cbn zeta.
  assert (Hscore : forall resume jd data,
            analyze resume jd = Pipeline.AnalysisOk data ->
            exists score, data !! "compatibility_score"%string = Some score).
  { intros resume jd data H.
    destruct (analyze_ok resume jd data H) as (_ & _ & _ & [(score & Hs & _) _] & _).
    eauto. }
  split.
  - unfold Pipeline.handle_complete_pipeline, Pipeline.complete_pipeline_steps.
    cbn [with_engine Pipeline.extract_text_from_s3_pdf
         Pipeline.detect_pii_entities Pipeline.analyze_resume_vs_job_description
         Pipeline.create_complete_report_package Pipeline.REPORTS_BUCKET].
    destruct (Pipeline.bucket_name event) as [bucket|]; [|split; [tauto|reflexivity]].
    destruct (Pipeline.s3_key event) as [key|]; [|split; [tauto|reflexivity]].
    destruct (Pipeline.job_description event) as [jd|]; [|split; [tauto|reflexivity]].
    cbn zeta.
    split; [|intros [H | [H | H]]; discriminate].
    destruct (Dedup.is_duplicate _).
    + destruct (Dedup.cached_data _) as [cached|]; [|discriminate].
      destruct (analyze _ jd) as [data|] eqn:Ha; [|discriminate].
      destruct (Hscore _ _ _ Ha) as [score Hs]. rewrite Hs.
      destruct (Pipeline.create_complete_report_package c _ _ _ _);
        try discriminate.
      unfold Pipeline.bind.
      destruct (Pipeline.summarize data) as [[k|]|summary] eqn:Hk;
        try discriminate.
      exfalso. exact (summarize_scored _ _ _ Hs Hk).
    + destruct (Pipeline.extract_text_from_s3_pdf c bucket key) as [text|];
        [|discriminate].
      destruct (analyze _ jd) as [data|] eqn:Ha; [|discriminate].
      destruct (Hscore _ _ _ Ha) as [score Hs]. rewrite Hs.
      destruct (Pipeline.create_complete_report_package c _ _ _ _);
        try discriminate.
      unfold Pipeline.bind.
      destruct (Pipeline.summarize data) as [[k|]|summary] eqn:Hk;
        try discriminate.
      exfalso. exact (summarize_scored _ _ _ Hs Hk).
  - unfold Pipeline.handle_complete_analysis, Pipeline.complete_analysis_steps,
      Pipeline.bind, Pipeline.item.
    cbn [with_engine Pipeline.extract_text_from_s3_pdf
         Pipeline.detect_pii_entities Pipeline.analyze_resume_vs_job_description
         Pipeline.create_complete_report_package Pipeline.REPORTS_BUCKET].
    destruct (Pipeline.resume_text event) as [resume|]; [|split; [tauto|reflexivity]].
    destruct (Pipeline.job_description event) as [jd|]; [|split; [tauto|reflexivity]].
    cbn [Pipeline.ret].
    split; [|intros [H | H]; discriminate].
    destruct (analyze resume jd) as [data|] eqn:Ha; [|discriminate].
    destruct (Hscore _ _ _ Ha) as [score Hs]. rewrite Hs. cbn [Pipeline.ret].
    destruct (Pipeline.summarize data) as [[k|]|summary] eqn:Hk.
    + exfalso. exact (summarize_scored _ _ _ Hs Hk).
    + discriminate.
    + destruct (_ && _); [|discriminate].
      destruct (Pipeline.create_complete_report_package c _ _ _ _); discriminate.
Qed.

End Engine.

Section EngineWitnesses.
Import Py Dyn Bedrock BedrockClient Spec Samples.

Lemma analyze_rejects_blank_witness :
  analyze_resume_vs_job_description throttled loads_raw_analysis
    exact_float_of_int no_float_of_str (str "   ") description
  = Pipeline.AnalysisFailed "Resume text is empty or invalid".
Proof.
  apply (analyze_rejects_blank throttled loads_raw_analysis exact_float_of_int
           no_float_of_str (str "   ") description).
  left. reflexivity.
Defined.

Lemma analyze_success_guarantees_witness :
  exists data, nova_engine resume_words description = Pipeline.AnalysisOk data
               /\ analysis_invariant data.
Proof.
  destruct (nova_engine resume_words description) as [data|error] eqn:Hrun;
    [|vm_compute in Hrun; discriminate].
  exists data. split; [reflexivity|].
  apply (analyze_success_guarantees nova loads_raw_analysis exact_float_of_int
           no_float_of_str resume_words description data Hrun).
Defined.

Lemma analyze_error_vocabulary_witness :
  "Analysis service is busy. Please try again later."%string ∈ engine_errors.
Proof.
  destruct (analyze_error_vocabulary throttled loads_raw_analysis
              exact_float_of_int no_float_of_str resume_words description
              "Analysis service is busy. Please try again later." eq_refl)
    as [Hin|(field & _ & Hfield)].
  - exact Hin.
  - discriminate Hfield.
Defined.

Lemma engine_never_blamed_witness :
  Pipeline.statusCode
    (fst (Pipeline.handle_complete_pipeline (with_engine working nova_engine)
            healthy ∅ analysis_event)) = 400%Z.
Proof.
  apply (engine_never_blamed nova loads_raw_analysis exact_float_of_int
           no_float_of_str working healthy ∅ analysis_event).
  left. reflexivity.
Defined.

End EngineWitnesses.

(** ** The synchronous extraction *)
Section SyncExtraction.
Import Py Textract TextractClient Spec Samples.

Lemma extract_text_async_returns (sv : Service) :
  exists run, _extract_text_async sv = Some run.
Proof.
  unfold _extract_text_async, extract_text_async_fuel.
  destruct (start_document_text_detection sv); [eauto|].
  destruct (poll_loop_total sv poll_budget 0) as (run & Hrun & _);
    [apply Nat.add_0_r|].
  exists run. apply Hrun. lia.
Qed.

Lemma extract_text_async_non_blank (sv : Service) run text :
  _extract_text_async sv = Some run -> outcome run = Extracted text ->
  strip unicode_space text <> [].
Proof.
  unfold _extract_text_async, extract_text_async_fuel. intros Hrun Hout.
  destruct (start_document_text_detection sv) as [e|job_id].
  - injection Hrun as <-. simpl in Hout.
    destruct e as [code m|]; simpl in Hout;
      repeat (destruct (String.eqb _ _)); discriminate.
  - apply (poll_loop_extracted sv _ _ _ _ _ Hrun Hout).
Qed.

Lemma report_no_text (cl : Client) bucket key e text :
  report cl bucket key e <> Extracted text.
Proof.
  destruct e as [code m| |]; simpl; try discriminate.
  repeat (destruct (String.eqb code _); [discriminate|]). discriminate.
Qed.

Lemma startswith_true {A} `{EqDecision A} (p s : list A) :
  startswith p s = true -> exists t, s = p ++ t.
Proof.
  revert s. induction p as [|x p IH]; intros s; [eauto|].
  destruct s as [|y s]; simpl; [discriminate|].
  rewrite andb_true_iff, bool_decide_eq_true. intros [-> Hs].
  destruct (IH s Hs) as [t ->]. eauto.
Qed.

Lemma string_of_list_ascii_app (a b : list ascii) :
  string_of_list_ascii (a ++ b)
  = (string_of_list_ascii a +:+ string_of_list_ascii b)%string.
Proof. induction a as [|x a IH]; simpl; [reflexivity|]. rewrite IH. reflexivity. Qed.

Lemma lower_ascii_letter (x : ascii) :
  (lower_ascii x = "."%char <-> x = "."%char)
  /\ (lower_ascii x = "p"%char <-> x = "p"%char \/ x = "P"%char)
  /\ (lower_ascii x = "d"%char <-> x = "d"%char \/ x = "D"%char)
  /\ (lower_ascii x = "f"%char <-> x = "f"%char \/ x = "F"%char).
Proof.
  destruct x as [[] [] [] [] [] [] [] []]; vm_compute;
    repeat split; intros; try discriminate; try tauto;
    repeat match goal with H : _ \/ _ |- _ => destruct H end;
    try discriminate.
Qed.

(** X20.  Guards of the extraction.  The keys accepted are exactly
    those whose last four characters are a dot and the letters p, d, f
    in either case.  Every other key is rejected with the
    unsupported-format error whatever the client, so without a call to
    S3 or Textract.  With [use_pii_redaction] off, which is the default
    every handler uses, the result does not depend on the PII access
    point of the environment: the document is always read from the
    bucket itself. *)
Theorem extract_text_guards (cl : Client) (bucket_name s3_key : string) :
  (endswith_pdf s3_key = true
   <-> exists stem p d f,
         s3_key = (stem +:+ String "." (String p (String d (String f EmptyString))))%string
         /\ (p = "p" \/ p = "P")%char /\ (d = "d" \/ d = "D")%char
         /\ (f = "f" \/ f = "F")%char)
  /\ (endswith_pdf s3_key = false ->
      forall use_pii_redaction,
        extract_text_from_s3_pdf cl bucket_name s3_key use_pii_redaction
        = Some (Failed "Unsupported file format. Only PDF files are supported."
                       None))
  /\ (forall point,
        extract_text_from_s3_pdf (with_access_point cl point) bucket_name
          s3_key false
        = extract_text_from_s3_pdf cl bucket_name s3_key false).
Proof.
  split; [|split].
  - unfold endswith_pdf. split.
    + intros Hs. apply startswith_true in Hs as [t Ht].
      apply (f_equal (@rev ascii)) in Ht.
      rewrite rev_involutive, rev_app_distr in Ht. simpl in Ht.
      apply map_eq_app in Ht as (stem & ext & Hkey & _ & Hext).
      destruct ext as [|x1 [|x2 [|x3 [|x4 [|x5 ext]]]]]; try discriminate.
      injection Hext as H1 H2 H3 H4.
      exists (string_of_list_ascii stem), x2, x3, x4.
      split; [|split; [|split]].
      * rewrite <- (string_of_list_ascii_of_string s3_key), Hkey,
          string_of_list_ascii_app.
        apply (lower_ascii_letter x1) in H1. subst x1. reflexivity.
      * apply (lower_ascii_letter x2), H2.
      * apply (lower_ascii_letter x3), H3.
      * apply (lower_ascii_letter x4), H4.
    + intros (stem & p & d & f & -> & Hp & Hd & Hf).
      replace (list_ascii_of_string
                 (stem +:+ String "." (String p (String d (String f EmptyString)))))
        with (list_ascii_of_string stem ++ ["."%char; p; d; f]).
      * rewrite map_app, rev_app_distr. simpl.
        apply (lower_ascii_letter p) in Hp.
        apply (lower_ascii_letter d) in Hd.
        apply (lower_ascii_letter f) in Hf.
        rewrite Hp, Hd, Hf. reflexivity.
      * rewrite <- (list_ascii_of_string_of_list_ascii
                      (list_ascii_of_string stem ++ ["."%char; p; d; f])).
        rewrite string_of_list_ascii_app, string_of_list_ascii_of_string.
        reflexivity.
  - intros Hext flag. unfold extract_text_from_s3_pdf. rewrite Hext. reflexivity.
  - intros point. unfold extract_text_from_s3_pdf, _get_s3_reference, report.
    reflexivity.
Qed.

Lemma extract_text_guards_witness :
  extract_text_from_s3_pdf multi_page "resumes" "uploads/cv.PDF.docx" false
  = Some (Failed "Unsupported file format. Only PDF files are supported." None)
  /\ endswith_pdf "uploads/cv.PDF" = true.
Proof.
  destruct (extract_text_guards multi_page "resumes" "uploads/cv.PDF.docx")
    as (_ & Hext & _).
  split; [apply Hext; reflexivity|].
  apply (extract_text_guards multi_page "resumes" "uploads/cv.PDF").
  exists "uploads/cv"%string, "P"%char, "D"%char, "F"%char.
  repeat split; tauto.
Defined.



End SyncExtraction.

(** ** The report package and the bucket *)
Section ReportPackage.
Import Py ReportGenerator Spec Samples.

Lemma list_ascii_of_string_app (a b : string) :
  list_ascii_of_string (a +:+ b)
  = list_ascii_of_string a ++ list_ascii_of_string b.
Proof. induction a as [|x a IH]; simpl; [reflexivity|]. rewrite IH. reflexivity. Qed.

(** The two documents of a package never share a key. *)
Lemma keys_differ (t1 t2 i1 i2 : string) :
  s3_key_for t1 i1 "md" <> s3_key_for t2 i2 "html".
Proof.
  unfold s3_key_for. intros H.
  apply (f_equal list_ascii_of_string) in H.
  rewrite !list_ascii_of_string_app in H.
  apply (f_equal (@last ascii)) in H.
  rewrite !last_app in H. simpl in H. discriminate.
Qed.

(** The objects after storing one document. *)
Lemma store_report_objects (w : World) (objects : Objects) bucket content
    format report_id :
  let result := store_report_in_s3 w objects bucket content format report_id in
  (forall key id, fst result = StoredAt key id ->
     key = report_key w format report_id
     /\ put_object_raises w bucket key = None
     /\ exists body,
          utf8_encode content = Some body
          /\ (forall obj, snd result !! (bucket, key) = Some obj -> Body obj = body)
          /\ is_Some (snd result !! (bucket, key))
          /\ forall other, other <> (bucket, key) ->
               snd result !! other = objects !! other)
  /\ (forall error, fst result = StorageFailed error -> snd result = objects).
Proof.
  cbn zeta. unfold store_report_in_s3, report_key.
  destruct (utf8_encode content) as [body|]; [|split; [discriminate|reflexivity]].
  destruct (put_object_raises w bucket _) as [[code|]|] eqn:Hput;
    try (split; [discriminate|reflexivity]).
  split; [|discriminate]. cbn [fst snd]. intros key id [= <- <-].
  split; [reflexivity|]. split; [exact Hput|].
  exists body. split; [reflexivity|]. split; [|split].
  - intros obj. rewrite lookup_insert_eq. intros [= <-]. reflexivity.
  - rewrite lookup_insert_eq. eauto.
  - intros other Hne. apply lookup_insert_ne. congruence.
Qed.

(** X22.  What a successful package leaves in the bucket.  When
    [create_complete_report_package] succeeds, the report was generated,
    the package carries its identifier, and the bucket holds the UTF-8
    encoding of the Markdown document and of the HTML document under the
    two keys of the package, which are the keys [reports/] followed by
    the time of storing and the report identifier with the extensions
    [md] and [html]; the two links were signed for these keys, and no
    other object was touched. *)
Theorem report_package_stored (w : World) (objects objects' : Objects)
    (analysis_data : gmap string JSON) (bucket filename title : string)
    (package : Pipeline.Package) :
  create_complete_report_package w objects analysis_data bucket filename title
    = (Pipeline.ReportOk package, objects') ->
  exists generated markdown_body html_body markdown_object html_object,
    generate_report w analysis_data filename title = Some generated
    /\ Pipeline.report_id package = report_id generated
    /\ Pipeline.s3_key_of (Pipeline.markdown package)
       = report_key w "markdown" (report_id generated)
    /\ Pipeline.s3_key_of (Pipeline.html package)
       = report_key w "html" (report_id generated)
    /\ utf8_encode (markdown_content generated) = Some markdown_body
    /\ utf8_encode (html_content generated) = Some html_body
    /\ objects' !! (bucket, Pipeline.s3_key_of (Pipeline.markdown package))
       = Some markdown_object
    /\ Body markdown_object = markdown_body
    /\ objects' !! (bucket, Pipeline.s3_key_of (Pipeline.html package))
       = Some html_object
    /\ Body html_object = html_body
    /\ generate_presigned_url w bucket
         (Pipeline.s3_key_of (Pipeline.markdown package))
       = Some (Pipeline.download_url (Pipeline.markdown package))
    /\ generate_presigned_url w bucket
         (Pipeline.s3_key_of (Pipeline.html package))
       = Some (Pipeline.download_url (Pipeline.html package))
    /\ forall other,
         other <> (bucket, Pipeline.s3_key_of (Pipeline.markdown package)) ->
         other <> (bucket, Pipeline.s3_key_of (Pipeline.html package)) ->
         objects' !! other = objects !! other.
Proof.
  unfold create_complete_report_package.
  destruct (generate_report w analysis_data filename title) as [generated|];
    [|discriminate].
  pose proof (store_report_objects w objects bucket (markdown_content generated)
                "markdown" (report_id generated)) as Hm.
  destruct (store_report_in_s3 w objects bucket (markdown_content generated)
              "markdown" (report_id generated)) as [ms objects1].
  cbn zeta in Hm. cbn [fst snd] in Hm. destruct Hm as [Hm _].
  pose proof (store_report_objects w objects1 bucket (html_content generated)
                "html" (report_id generated)) as Hh.
  destruct (store_report_in_s3 w objects1 bucket (html_content generated)
              "html" (report_id generated)) as [hs objects2].
  cbn zeta in Hh. cbn [fst snd] in Hh. destruct Hh as [Hh _].
  destruct ms as [mkey mid|]; [|discriminate].
  destruct hs as [hkey hid|]; [|discriminate].
  destruct (Hm mkey mid eq_refl)
    as (Hmkey & _ & mbody & Hmenc & Hmbody & [mobj Hmobj] & Hmother).
  destruct (Hh hkey hid eq_refl)
    as (Hhkey & _ & hbody & Hhenc & Hhbody & [hobj Hhobj] & Hhother).
  assert (Hne : (bucket, mkey) <> (bucket, hkey)).
  { intros [= H]. rewrite Hmkey, Hhkey in H. unfold report_key in H.
    cbn [String.eqb Ascii.eqb Bool.eqb] in H. exact (keys_differ _ _ _ _ H). }
  unfold generate_presigned_download_url.
  destruct (generate_presigned_url w bucket mkey) as [murl|] eqn:Hmurl;
    [|discriminate].
  destruct (generate_presigned_url w bucket hkey) as [hurl|] eqn:Hhurl;
    [|discriminate].
  intros [= <- <-]. cbn [Pipeline.report_id Pipeline.markdown Pipeline.html
                          Pipeline.s3_key_of Pipeline.download_url].
  exists generated, mbody, hbody, mobj, hobj.
  split; [reflexivity|]. split; [reflexivity|]. split; [exact Hmkey|].
  split; [exact Hhkey|]. split; [exact Hmenc|]. split; [exact Hhenc|].
  split; [rewrite Hhother by exact Hne; exact Hmobj|].
  split; [apply Hmbody, Hmobj|]. split; [exact Hhobj|].
  split; [apply Hhbody, Hhobj|]. split; [exact Hmurl|]. split; [exact Hhurl|].
  intros other H1 H2. rewrite Hhother by exact H2. apply Hmother, H1.
Qed.

Lemma report_package_stored_witness :
  exists markdown_object,
    snd (create_complete_report_package storing ∅ repaired_analysis "reports-bucket"
           "cv.pdf" "Position")
      !! ("reports-bucket"%string, "reports/20250101_000000_r-1.md"%string)
    = Some markdown_object
    /\ Body markdown_object = b "# ATS Buddy report".
Proof.
  destruct (report_package_stored storing ∅
              (snd (create_complete_report_package storing ∅ repaired_analysis
                      "reports-bucket" "cv.pdf" "Position"))
              repaired_analysis "reports-bucket" "cv.pdf" "Position"
              {| Pipeline.report_id := "r-1";
                 Pipeline.timestamp := "2025-01-01T00:00:00";
                 Pipeline.package_metadata := JDict ∅;
                 Pipeline.markdown :=
                   {| Pipeline.s3_key_of := "reports/20250101_000000_r-1.md";
                      Pipeline.download_url :=
                        "https://example.test/reports/20250101_000000_r-1.md";
                      Pipeline.expires_at := "1735693200.0" |};
                 Pipeline.html :=
                   {| Pipeline.s3_key_of := "reports/20250101_000000_r-1.html";
                      Pipeline.download_url :=
                        "https://example.test/reports/20250101_000000_r-1.html";
                      Pipeline.expires_at := "1735693200.0" |} |})
    as (generated & mbody & hbody & mobj & hobj & Hgen & _ & Hmkey & _ & Hmenc
        & _ & Hmobj & Hmbody & _).
  - reflexivity.
  - injection Hgen as <-. injection Hmenc as <-.
    exists mobj. split; [|exact Hmbody]. exact Hmobj.
Defined.

(** X23.  A failed package is not rolled back.  A package fails with one
    of three fixed messages.  Both documents are stored before either
    result is checked, and nothing is deleted afterwards: whenever the
    report was generated and a document was encoded and accepted by
    [put_object], that document is in the bucket after the call, also
    when the call reports failure because the other document could not
    be stored or a link could not be signed.  When the report cannot be
    generated, the bucket is left as it was. *)
Theorem report_package_not_rolled_back (w : World) (objects : Objects)
    (analysis_data : gmap string JSON) (bucket filename title : string) :
  let result :=
    create_complete_report_package w objects analysis_data bucket filename title in
  (forall error, fst result = Pipeline.ReportFailed error ->
     error ∈ package_errors)
  /\ (forall what, fst result <> Pipeline.ReportRaised what)
  /\ (generate_report w analysis_data filename title = None ->
      snd result = objects)
  /\ (forall generated format content body,
        generate_report w analysis_data filename title = Some generated ->
        (format = "markdown"%string /\ content = markdown_content generated
         \/ format = "html"%string /\ content = html_content generated) ->
        utf8_encode content = Some body ->
        put_object_raises w bucket (report_key w format (report_id generated))
          = None ->
        exists object,
          snd result !! (bucket, report_key w format (report_id generated))
            = Some object
          /\ Body object = body).
Proof.
  cbn zeta. unfold create_complete_report_package.
  destruct (generate_report w analysis_data filename title) as [generated|].
  2: { split; [intros error [= <-]; repeat constructor|].
       split; [discriminate|]. split; [reflexivity|]. discriminate. }
  assert (Hne : (bucket, report_key w "markdown" (report_id generated))
                <> (bucket, report_key w "html" (report_id generated))).
  { intros H. apply (f_equal snd) in H. exact (keys_differ _ _ _ _ H). }
  unfold store_report_in_s3. cbv zeta.
  fold (report_key w "markdown" (report_id generated)).
  fold (report_key w "html" (report_id generated)).
  set (mkey := report_key w "markdown" (report_id generated)) in *.
  set (hkey := report_key w "html" (report_id generated)) in *.
  assert (Hcase : forall format : string,
            format = "markdown"%string \/ format = "html"%string ->
            report_key w format (report_id generated)
            = if String.eqb format "markdown" then mkey else hkey).
  { intros format [-> | ->]; reflexivity. }
  destruct (utf8_encode (markdown_content generated)) as [mbody|] eqn:Hmenc;
    [destruct (put_object_raises w bucket mkey) as [[mcode|]|] eqn:Hmput|];
    (destruct (utf8_encode (html_content generated)) as [hbody|] eqn:Hhenc;
     [destruct (put_object_raises w bucket hkey) as [[hcode|]|] eqn:Hhput|]);
    cbn [fst snd].
  all: try (unfold generate_presigned_download_url;
            destruct (generate_presigned_url w bucket mkey);
            destruct (generate_presigned_url w bucket hkey); cbn [fst snd]).
  all: (split; [try discriminate; intros error [= <-]; repeat constructor|]).
  all: (split; [discriminate|]).
  all: (split; [discriminate|]).
  all: intros g format content body [= <-] [[-> ->] | [-> ->]] Hbody Hput;
    rewrite Hcase in Hput |- * by tauto;
    cbn [String.eqb Ascii.eqb Bool.eqb] in Hput |- *;
    try congruence.
  all: try (rewrite lookup_insert_eq; eexists; split; [reflexivity|];
            cbn [Body]; congruence).
  all: try (rewrite lookup_insert_ne by (apply not_eq_sym, Hne);
            rewrite lookup_insert_eq; eexists; split; [reflexivity|];
            cbn [Body]; congruence).
Qed.

Lemma report_package_not_rolled_back_witness :
  fst (create_complete_report_package html_denied ∅ repaired_analysis
         "reports-bucket" "cv.pdf" "Position")
  = Pipeline.ReportFailed "Failed to store reports in S3"
  /\ exists object,
       snd (create_complete_report_package html_denied ∅ repaired_analysis
              "reports-bucket" "cv.pdf" "Position")
         !! ("reports-bucket"%string, "reports/20250101_000000_r-1.md"%string)
       = Some object
       /\ Body object = b "# ATS Buddy report".
Proof.
  split; [reflexivity|].
  destruct (report_package_not_rolled_back html_denied ∅ repaired_analysis
              "reports-bucket" "cv.pdf" "Position") as (_ & _ & _ & Hkept).
  apply (Hkept rendered "markdown"%string (str "# ATS Buddy report")
           (b "# ATS Buddy report")).
  - reflexivity.
  - left. split; reflexivity.
  - reflexivity.
  - reflexivity.
Defined.

End ReportPackage.

(** ** The analysis endpoint of the web interface *)
Section WebEndpoint.
Import Py Web Spec Samples.

Lemma analyse_and_respond_status sv h jd name text status data :
  body (analyse_and_respond sv h jd name text status) = Analysis data ->
  deduplicationStatus data = status
  /\ originalResumeText data = text
  /\ textLength (analysis data) = length text
  /\ sessionId data = hash_prefix h
  /\ resumeFilename data = name.
Proof.
  unfold analyse_and_respond.
  destruct (analyze_resume_vs_job_description sv text jd) as [a|];
    [|discriminate].
  destruct (create_complete_report_package sv a _ _ _);
    try discriminate;
    (destruct (a !! "compatibility_score"%string); [|discriminate]);
    intros [= <-]; repeat split; reflexivity.
Qed.

(** X24.  A cache hit on the web path by-passes upload, extraction and
    PII detection.  When the form is accepted, the clients are available
    and the cache holds an item under the SHA-256 digest of the uploaded
    bytes, the response and the table are the same whatever the upload,
    the extractor, the PII detector and the resumes bucket are; the
    table is left unchanged; and a successful response carries the
    status [deduplicated] and the cached text. *)
Theorem web_cache_hit (sv : Services) (cache : Dedup.Services)
    (table : gmap string Dedup.CacheItem) (event : Multipart.ApiEvent)
    (pdf : bytes) (jd name : pystr) (cached : Dedup.CacheItem) :
  Multipart.parse_multipart_form_data event = Multipart.FormOk pdf jd name ->
  clients_available sv = true ->
  Dedup.get_resume_cache cache table (Dedup.sha256_hexdigest cache pdf)
    = Some cached ->
  (forall bucket upload extractor detector,
     handle_analyze_endpoint
       (with_web_extraction sv bucket upload extractor detector) cache table
       event
     = handle_analyze_endpoint sv cache table event)
  /\ snd (handle_analyze_endpoint sv cache table event) = table
  /\ (forall data,
        body (fst (handle_analyze_endpoint sv cache table event))
          = Analysis data ->
        deduplicationStatus data = "deduplicated"%string
        /\ originalResumeText data = Dedup.extracted_text cached).
Proof.
  intros Hform Hclients Hhit. unfold handle_analyze_endpoint.
  rewrite Hform, Hhit.
  cbn [with_web_extraction clients_available]. rewrite Hclients. cbn [negb].
  split; [|split].
  - intros. reflexivity.
  - reflexivity.
  - cbn [fst]. intros data Hd.
    apply analyse_and_respond_status in Hd as (H1 & H2 & _). split; assumption.
Qed.

Lemma web_cache_hit_witness :
  handle_analyze_endpoint
    (with_web_extraction web_working None web_down_upload
       (fun _ _ => Pipeline.ExtractFailed "File not found in S3.")
       (fun _ => None))
    healthy warm_table web_event
  = handle_analyze_endpoint web_working healthy warm_table web_event.
Proof.
  destruct (web_cache_hit web_working healthy warm_table web_event pdf_sample
              description (str MultipartRequest.filename) cached_cv)
    as [Hsame _].
  - vm_compute. reflexivity.
  - reflexivity.
  - reflexivity.
  - apply Hsame.
Defined.

(** X25.  Deduplication on the web path goes by content.  Let a first
    upload of some bytes, not cached before, succeed with the cache
    store working.  A later upload of the same bytes, under whatever
    file name and with whatever job description, with the same digest
    function and a working cache lookup, is served from the cache: its
    table is the first call's table, and if it succeeds it carries the
    status [deduplicated], the first response's text and text length and
    the same session identifier, while the first carried [processed]. *)
Theorem web_deduplicates_by_content (sv sv' : Services)
    (cache cache' : Dedup.Services) (table : gmap string Dedup.CacheItem)
    (event event' : Multipart.ApiEvent) (pdf : bytes)
    (jd name jd' name' : pystr) (data : Analysed) :
  Multipart.parse_multipart_form_data event = Multipart.FormOk pdf jd name ->
  Multipart.parse_multipart_form_data event' = Multipart.FormOk pdf jd' name' ->
  Dedup.get_resume_cache cache table (Dedup.sha256_hexdigest cache pdf) = None ->
  Dedup.put_item_raises cache = false ->
  Dedup.sha256_hexdigest cache' = Dedup.sha256_hexdigest cache ->
  Dedup.get_item_raises cache' = false ->
  clients_available sv' = true ->
  let first := handle_analyze_endpoint sv cache table event in
  let second := handle_analyze_endpoint sv' cache' (snd first) event' in
  body (fst first) = Analysis data ->
  deduplicationStatus data = "processed"%string
  /\ snd second = snd first
  /\ forall data',
       body (fst second) = Analysis data' ->
       deduplicationStatus data' = "deduplicated"%string
       /\ originalResumeText data' = originalResumeText data
       /\ textLength (analysis data') = textLength (analysis data)
       /\ sessionId data' = sessionId data
       /\ resumeFilename data' = name'.
Proof.
  intros Hform Hform' Hmiss Hput Hsha Hget Hclients. cbn zeta.
  destruct (handle_analyze_endpoint sv cache table event) as [r1 t1] eqn:H1.
  cbn [fst snd]. unfold handle_analyze_endpoint in H1.
  rewrite Hform, Hmiss in H1.
  destruct (clients_available sv); cbn [negb] in H1;
    [|injection H1 as <- <-; intros Hd; discriminate Hd].
  cbv zeta in H1.
  destruct (upload_file_content sv _ _ pdf);
    [|injection H1 as <- <-; intros Hd; discriminate Hd].
  destruct (extract_text_from_s3_pdf sv _ _) as [text|];
    [|injection H1 as <- <-; intros Hd; discriminate Hd].
  rewrite redaction_succeeds in H1.
  unfold Dedup.store_processed_file, Dedup.put_resume_cache in H1.
  rewrite Hput in H1. cbn [snd] in H1. injection H1 as <- <-.
  set (h := Dedup.sha256_hexdigest cache pdf) in *.
  intros Hd. apply analyse_and_respond_status in Hd as (H1 & H2 & H3 & H4 & H5).
  split; [exact H1|].
  unfold handle_analyze_endpoint. rewrite Hform', Hclients, Hsha. cbn [negb].
  fold h. unfold Dedup.get_resume_cache. rewrite Hget, lookup_insert_eq.
  cbn [fst snd Dedup.extracted_text]. split; [reflexivity|].
  intros data' Hd'.
  apply analyse_and_respond_status in Hd' as (H1' & H2' & H3' & H4' & H5').
  rewrite H1', H2', H3', H4', H5', H2, H3, H4. repeat split; reflexivity.
Qed.

Lemma web_deduplicates_by_content_witness :
  exists data',
    body (fst (handle_analyze_endpoint web_working healthy
                 (snd (handle_analyze_endpoint web_working healthy ∅ web_event))
                 web_event_again))
    = Analysis data'
    /\ deduplicationStatus data' = "deduplicated"%string
    /\ resumeFilename data' = str "copy.pdf".
Proof.
  destruct (body (fst (handle_analyze_endpoint web_working healthy ∅ web_event)))
    as [| |data] eqn:Hfirst;
    [vm_compute in Hfirst; discriminate|vm_compute in Hfirst; discriminate|].
  destruct (body (fst (handle_analyze_endpoint web_working healthy
                         (snd (handle_analyze_endpoint web_working healthy ∅
                                 web_event))
                         web_event_again)))
    as [| |data'] eqn:Hsecond;
    [vm_compute in Hsecond; discriminate|vm_compute in Hsecond; discriminate|].
  exists data'. split; [reflexivity|].
  destruct (web_deduplicates_by_content web_working web_working healthy healthy
              ∅ web_event web_event_again pdf_sample description
              (str MultipartRequest.filename) (str test_description)
              (str "copy.pdf") data)
    as (_ & _ & Hagain).
  - vm_compute. reflexivity.
  - vm_compute. reflexivity.
  - reflexivity.
  - reflexivity.
  - reflexivity.
  - reflexivity.
  - reflexivity.
  - exact Hfirst.
  - destruct (Hagain data' Hsecond) as (Hs & _ & _ & _ & Hn).
    split; assumption.
Defined.

End WebEndpoint.

(** ** The extraction handlers and the entry point *)
Section EntryPoint.
Import Py Dyn S3Handler Extraction Gateway Spec Samples.

Lemma extract_not_400 (cl : Clients) processing bucket key response :
  extract cl processing bucket key = Some response ->
  statusCode response <> 400%Z.
Proof.
  unfold extract.
  destruct (extract_text_from_s3_pdf cl bucket key) as [[text|error]|];
    intros [= <-]; discriminate.
Qed.

(** X26.  The S3 upload handler works on the first record.  The handler
    answers 400 exactly when the event's first record does not name a
    bucket and a key.  Otherwise it extracts from that location only:
    a success response carries the bucket and the key of the first
    record, the extracted text after PII masking, the length of the
    masked text and the masking flag; a failed extraction gives 422 with
    the extractor's error, an extractor that raises 500. *)
Theorem handle_s3_upload_first_record (cl : Clients)
    (event : gmap string JSON) :
  (statusCode (handle_s3_upload cl event) = 400%Z
   <-> ~ exists bucket key, first_record_names event bucket key)
  /\ forall bucket key,
       first_record_names event bucket key ->
       match extract_text_from_s3_pdf cl bucket key with
       | None =>
           handle_s3_upload cl event
           = create_error_response 500 "Failed to process S3 upload event"
       | Some (Pipeline.ExtractFailed error) =>
           handle_s3_upload cl event
           = create_error_response 422 ("Text extraction failed: " +:+ error)
       | Some (Pipeline.ExtractOk text) =>
           exists data,
             handle_s3_upload cl event
               = {| statusCode := 200; body := Success data |}
             /\ bucket_name data = bucket /\ s3_key data = key
             /\ extracted_text data
                = Pii.text (Pii.apply_pii_redaction_to_text
                              (detect_pii_entities cl) text)
             /\ text_length data = length (extracted_text data)
             /\ pii_redacted data
                = Pii.redacted (Pii.apply_pii_redaction_to_text
                                  (detect_pii_entities cl) text)
       end.
Proof.
  split.
  - unfold handle_s3_upload.
    destruct (handle_s3_upload_event event) as [bucket key|error] eqn:Hloc.
    + apply located_first_record in Hloc. split.
      * intros H400. exfalso.
        destruct (extract cl "s3_upload" bucket key) as [response|] eqn:He.
        -- exact (extract_not_400 _ _ _ _ _ He H400).
        -- discriminate H400.
      * intros Hno. exfalso. apply Hno. eauto.
    + split; [|reflexivity]. intros _ (bucket & key & Hnames).
      apply located_first_record in Hnames. congruence.
  - intros bucket key Hnames. apply located_first_record in Hnames.
    unfold handle_s3_upload, extract. rewrite Hnames.
    destruct (extract_text_from_s3_pdf cl bucket key) as [[text|error]|];
      try reflexivity.
    rewrite redaction_succeeds. eexists. split; [reflexivity|].
    repeat split; reflexivity.
Qed.

Lemma handle_s3_upload_first_record_witness :
  exists data,
    handle_s3_upload extracting upload_notification
    = {| statusCode := 200; body := Success data |}
    /\ s3_key data = JStr (str "uploads/cv.pdf")
    /\ text_length data = length (extracted_text data).
Proof.
  destruct (handle_s3_upload_first_record extracting upload_notification)
    as [_ Hfirst].
  specialize (Hfirst (JStr (str "resumes")) (JStr (str "uploads/cv.pdf"))).
  destruct Hfirst as (data & Hrun & _ & Hkey & _ & Hlen & _).
  - exists [JDict ∅], notified_record, notified_s3,
      {[ "name"%string := JStr (str "resumes") ]},
      {[ "key"%string := JStr (str "uploads/cv.pdf") ]}.
    repeat split; reflexivity.
  - exists data. repeat split; assumption.
Defined.

Section Entry.
Variable handle_analyze_endpoint : gmap string JSON -> Web.Response.
Variable handle_enhance_endpoint : gmap string JSON -> Web.Response.
Variable handle_complete_pipeline : gmap string JSON -> Pipeline.Response.
Variable handle_complete_analysis : gmap string JSON -> Pipeline.Response.
Variable cl : Clients.
Variable clients_available : bool.

Local Abbreviation entry :=
  (lambda_handler handle_analyze_endpoint handle_enhance_endpoint
     handle_complete_pipeline (handle_s3_upload cl)
     (handle_direct_invocation cl) handle_complete_analysis clients_available).


End Entry.


End EntryPoint.
